(** * Elara proxy service: the fetch-and-reconstruct pipeline

    A shallow embedding of [packages/proxy-service/app.py] and of the parts of
    the Python standard library it calls ([urllib.parse], [ipaddress], the
    [re] substitutions it performs) and of the cookie jar of [requests],
    followed by the properties of the pipeline.

    Conventions.
    - A Python [str] is a [string]; every character stands for the code point
      of the same number, so the model covers text over U+0000..U+00FF.  On
      that range [str.lower], [str.isspace], [\s], [\d] and NFKC behave as
      written below.
    - Python [bytes] are [list byte].
    - A call that can raise returns [exc A]; [try]/[except] is [try_catch].
    - A [dict] is a [gmap]. *)

From Stdlib Require Import ZArith Ascii String List Lia Bool.
From Stdlib Require Import Init.Byte Strings.Byte.
From stdpp Require Import base option list strings gmap fin_maps.

Local Open Scope string_scope.
Local Open Scope list_scope.
Local Open Scope Z_scope.

(** ** Exceptions *)

Inductive exn : Type :=
  | ValueError (msg : string)
  | ReError (msg : string)
  | ZlibError (msg : string)
  | OtherError (msg : string).

Definition exn_str (e : exn) : string :=
  match e with
  | ValueError m | ReError m | ZlibError m | OtherError m => m
  end.

Inductive exc (A : Type) : Type :=
  | Ok (a : A)
  | Raise (e : exn).
Arguments Ok {A} a.
Arguments Raise {A} e.

Definition exc_bind {A B} (m : exc A) (k : A -> exc B) : exc B :=
  match m with
  | Ok a => k a
  | Raise e => Raise e
  end.

Notation "'let!' x ':=' m 'in' k" := (exc_bind m (fun x => k))
  (at level 10, x name, m at level 100, k at level 200, only parsing).

(** [try: body except Exception as e: handler e] *)
Definition try_catch {A} (body : exc A) (handler : exn -> exc A) : exc A :=
  match body with
  | Ok a => Ok a
  | Raise e => handler e
  end.

(** ** Python [str] operations *)

Module Str.

Definition code (c : ascii) : Z := Z.of_N (N_of_ascii c).
Definition chr (n : Z) : ascii := ascii_of_N (Z.to_N n).

Definition in_range (lo hi : Z) (c : ascii) : bool :=
  (lo <=? code c) && (code c <=? hi).

Definition is_ascii_digit (c : ascii) : bool := in_range 48 57 c.
Definition is_ascii_alpha (c : ascii) : bool :=
  in_range 65 90 c || in_range 97 122 c.
Definition is_hex_digit (c : ascii) : bool :=
  is_ascii_digit c || in_range 65 70 c || in_range 97 102 c.

(** [str.isspace] and the [\s] class of [re]. *)
Definition is_space (c : ascii) : bool :=
  in_range 9 13 c || in_range 28 32 c || (code c =? 133) || (code c =? 160).

(** [str.lower] on one character: A-Z, and U+00C0..U+00DE without U+00D7. *)
Definition lower_char (c : ascii) : ascii :=
  if in_range 65 90 c then chr (code c + 32)
  else if in_range 192 222 c && negb (code c =? 215) then chr (code c + 32)
  else c.

Fixpoint lower (s : string) : string :=
  match s with
  | EmptyString => EmptyString
  | String c r => String (lower_char c) (lower r)
  end.

Fixpoint all_chars (p : ascii -> bool) (s : string) : bool :=
  match s with
  | EmptyString => true
  | String c r => p c && all_chars p r
  end.

Definition is_empty (s : string) : bool :=
  match s with EmptyString => true | _ => false end.

Definition eqb (a b : string) : bool := String.eqb a b.

Definition char_in (c : ascii) (set : string) : bool :=
  negb (all_chars (fun d => negb (Ascii.eqb c d)) set).

(** [s.startswith(p)] *)
Fixpoint startswith (s p : string) {struct p} : bool :=
  match p with
  | EmptyString => true
  | String a p' =>
      match s with
      | EmptyString => false
      | String b s' => Ascii.eqb a b && startswith s' p'
      end
  end.

(** [sub in s] *)
Fixpoint contains (s sub : string) : bool :=
  startswith s sub ||
  match s with
  | EmptyString => false
  | String _ r => contains r sub
  end.

Fixpoint drop (n : nat) (s : string) : string :=
  match n, s with
  | O, _ => s
  | S _, EmptyString => EmptyString
  | S n', String _ r => drop n' r
  end.

Fixpoint take (n : nat) (s : string) : string :=
  match n, s with
  | O, _ => EmptyString
  | S _, EmptyString => EmptyString
  | S n', String c r => String c (take n' r)
  end.

(** [s.endswith(p)] *)
Definition endswith (s p : string) : bool :=
  (String.length p <=? String.length s)%nat &&
  eqb (drop (String.length s - String.length p) s) p.

(** [s.lstrip(...)], [s.rstrip(...)], [s.strip(...)] for a class of characters. *)
Fixpoint lstrip_by (p : ascii -> bool) (s : string) : string :=
  match s with
  | EmptyString => EmptyString
  | String c r => if p c then lstrip_by p r else s
  end.

Fixpoint rstrip_by (p : ascii -> bool) (s : string) : string :=
  match s with
  | EmptyString => EmptyString
  | String c r =>
      let r' := rstrip_by p r in
      if is_empty r' && p c then EmptyString else String c r'
  end.

Definition strip_by (p : ascii -> bool) (s : string) : string :=
  rstrip_by p (lstrip_by p s).

Definition strip (s : string) : string := strip_by is_space s.

(** [s.replace(c, '')] for every character of a class. *)
Fixpoint remove_chars (p : ascii -> bool) (s : string) : string :=
  match s with
  | EmptyString => EmptyString
  | String c r => if p c then remove_chars p r else String c (remove_chars p r)
  end.

(** [s.partition(c)]: [None] when [c] does not occur, else the text before
    and the text after the first occurrence. *)
Fixpoint partition (c : ascii) (s : string) : option (string * string) :=
  match s with
  | EmptyString => None
  | String d r =>
      if Ascii.eqb d c then Some (EmptyString, r)
      else match partition c r with
           | Some (a, b) => Some (String d a, b)
           | None => None
           end
  end.

(** [s.rpartition(c)], same convention, last occurrence. *)
Fixpoint rpartition (c : ascii) (s : string) : option (string * string) :=
  match s with
  | EmptyString => None
  | String d r =>
      match rpartition c r with
      | Some (a, b) => Some (String d a, b)
      | None => if Ascii.eqb d c then Some (EmptyString, r) else None
      end
  end.

(** The three-way results Python gives when the separator is missing. *)
Definition partition_head (c : ascii) (s : string) : string :=
  match partition c s with Some (a, _) => a | None => s end.
Definition partition_tail (c : ascii) (s : string) : string :=
  match partition c s with Some (_, b) => b | None => EmptyString end.
Definition rpartition_tail (c : ascii) (s : string) : string :=
  match rpartition c s with Some (_, b) => b | None => s end.

(** [s.split(c)] *)
Fixpoint split (c : ascii) (s : string) : list string :=
  match s with
  | EmptyString => [EmptyString]
  | String d r =>
      if Ascii.eqb d c then EmptyString :: split c r
      else match split c r with
           | x :: xs => String d x :: xs
           | [] => [String d EmptyString]
           end
  end.

(** [sep.join(parts)] *)
Fixpoint join (sep : string) (parts : list string) : string :=
  match parts with
  | [] => EmptyString
  | [x] => x
  | x :: xs => x +:+ sep +:+ join sep xs
  end.

(** [int(s, 10)] for a string of ASCII digits. *)
Fixpoint int_digits_acc (acc : Z) (s : string) : Z :=
  match s with
  | EmptyString => acc
  | String c r => int_digits_acc (10 * acc + (code c - 48)) r
  end.
Definition int10 (s : string) : Z := int_digits_acc 0 s.

Definition hex_value (c : ascii) : Z :=
  if is_ascii_digit c then code c - 48
  else if in_range 65 70 c then code c - 55
  else code c - 87.

Fixpoint int_hex_acc (acc : Z) (s : string) : Z :=
  match s with
  | EmptyString => acc
  | String c r => int_hex_acc (16 * acc + hex_value c) r
  end.
Definition int16 (s : string) : Z := int_hex_acc 0 s.

Definition hex_digit (n : Z) : ascii :=
  if n <? 10 then chr (48 + n) else chr (87 + n).

(** [str(n)] for [0 <= n]; [fuel] bounds the number of digits. *)
Fixpoint dec_digits (fuel : nat) (n : Z) (acc : string) : string :=
  match fuel with
  | O => acc
  | S f =>
      let acc' := String (chr (48 + n mod 10)) acc in
      if n <? 10 then acc' else dec_digits f (n / 10) acc'
  end.
Definition of_int (n : Z) : string := dec_digits (Z.to_nat (Z.log2 n) + 1) n "".

(** ["%x" % n] for [0 <= n]. *)
Fixpoint hex_digits (fuel : nat) (n : Z) (acc : string) : string :=
  match fuel with
  | O => acc
  | S f =>
      let acc' := String (hex_digit (n mod 16)) acc in
      if n <? 16 then acc' else hex_digits f (n / 16) acc'
  end.
Definition to_hex (n : Z) : string := hex_digits (Z.to_nat (Z.log2 n) + 1) n "".

(** [str.isprintable] on one character. *)
Definition is_printable (c : ascii) : bool :=
  (in_range 32 126 c || in_range 161 255 c) && negb (code c =? 173).

(** [repr(s)] *)
Fixpoint repr_body (q : ascii) (s : string) : string :=
  match s with
  | EmptyString => EmptyString
  | String c r =>
      let rest := repr_body q r in
      if Ascii.eqb c q || (code c =? 92) then String (chr 92) (String c rest)
      else if code c =? 9 then "\t" +:+ rest
      else if code c =? 10 then "\n" +:+ rest
      else if code c =? 13 then "\r" +:+ rest
      else if is_printable c then String c rest
      else "\x" +:+ String (hex_digit (code c / 16))
                     (String (hex_digit (code c mod 16)) rest)
  end.

Definition repr (s : string) : string :=
  let q := if char_in (chr 39) s && negb (char_in (chr 34) s)
           then chr 34 else chr 39 in
  String q (repr_body q s) +:+ String q EmptyString.

End Str.

(** ** The [ipaddress] module (string constructors and containment) *)

Module Ipaddress.

Inductive address : Type :=
  | IPv4Address (ip : Z)
  | IPv6Address (ip : Z) (scope_id : option string).

Definition version (a : address) : Z :=
  match a with IPv4Address _ => 4 | IPv6Address _ _ => 6 end.

Definition ip_int (a : address) : Z :=
  match a with IPv4Address n => n | IPv6Address n _ => n end.

(** [IPv4Address._parse_octet]; [None] stands for the [ValueError]. *)
Definition parse_octet (octet_str : string) : option Z :=
  if Str.is_empty octet_str then None
  else if negb (Str.all_chars Str.is_ascii_digit octet_str) then None
  else if (3 <? String.length octet_str)%nat then None
  else if negb (Str.eqb octet_str "0") && Str.startswith octet_str "0" then None
  else
    let octet_int := Str.int10 octet_str in
    if 255 <? octet_int then None else Some octet_int.

(** [int.from_bytes(..., 'big')] *)
Definition from_bytes_big (l : list Z) : Z :=
  fold_left (fun acc b => Z.lor (Z.shiftl acc 8) b) l 0.

(** [IPv4Address._ip_int_from_string] *)
Definition v4_int_from_string (ip_str : string) : option Z :=
  if Str.is_empty ip_str then None
  else
    let octets := Str.split "." ip_str in
    if negb (length octets =? 4)%nat then None
    else from_bytes_big <$> mapM parse_octet octets.

(** [IPv4Address(address)] for a string; [None] is [AddressValueError]. *)
Definition parse_v4 (addr_str : string) : option Z :=
  if Str.char_in "/" addr_str then None else v4_int_from_string addr_str.

(** [IPv6Address._parse_hextet] *)
Definition parse_hextet (hextet_str : string) : option Z :=
  if negb (Str.all_chars Str.is_hex_digit hextet_str) then None
  else if (4 <? String.length hextet_str)%nat then None
  else if Str.is_empty hextet_str then None
  else Some (Str.int16 hextet_str).

Definition HEXTET_COUNT : nat := 8.

Definition shift_hextets (acc : Z) (l : list Z) : Z :=
  fold_left (fun a h => Z.lor (Z.shiftl a 16) h) l acc.

(** [IPv6Address._ip_int_from_string] *)
Definition v6_int_from_string (ip_str : string) : option Z :=
  if Str.is_empty ip_str then None
  else
    let parts := Str.split ":" ip_str in
    if (length parts <? 3)%nat then None
    else
      (* an IPv4-style suffix is turned into two hextets *)
      parts ← (if Str.char_in "." (List.last parts "")
               then ipv4_int ← parse_v4 (List.last parts "");
                    Some (removelast parts ++
                          [Str.to_hex (Z.land (Z.shiftr ipv4_int 16) 65535);
                           Str.to_hex (Z.land ipv4_int 65535)])
               else Some parts);
      if (HEXTET_COUNT + 1 <? length parts)%nat then None
      else
        let n := length parts in
        let inner_empty :=
          filter (fun i => Str.is_empty (nth i parts "") = true)
                 (seq 1 (n - 2)) in
        layout ← match inner_empty with
                 | _ :: _ :: _ => None
                 | [skip_index] =>
                     let parts_hi := skip_index in
                     let parts_lo := (n - skip_index - 1)%nat in
                     parts_hi ← (if Str.is_empty (nth 0 parts "")
                                 then if ((parts_hi - 1) =? 0)%nat
                                      then Some (parts_hi - 1)%nat else None
                                 else Some parts_hi);
                     parts_lo ← (if Str.is_empty (List.last parts "")
                                 then if ((parts_lo - 1) =? 0)%nat
                                      then Some (parts_lo - 1)%nat else None
                                 else Some parts_lo);
                     if (HEXTET_COUNT <? parts_hi + parts_lo + 1)%nat then None
                     else Some (parts_hi, parts_lo,
                                (HEXTET_COUNT - (parts_hi + parts_lo))%nat)
                 | [] =>
                     if negb (n =? HEXTET_COUNT)%nat then None
                     else if Str.is_empty (nth 0 parts "") then None
                     else if Str.is_empty (List.last parts "") then None
                     else Some (n, O, O)
                 end;
        let '(parts_hi, parts_lo, parts_skipped) := layout in
        hi ← mapM parse_hextet (firstn parts_hi parts);
        lo ← mapM parse_hextet (skipn (n - parts_lo) parts);
        Some (shift_hextets
                (Z.shiftl (shift_hextets 0 hi) (16 * Z.of_nat parts_skipped))
                lo).

(** [IPv6Address._split_scope_id] *)
Definition split_scope_id (ip_str : string) : option (string * option string) :=
  match Str.partition "%" ip_str with
  | None => Some (ip_str, None)
  | Some (addr, scope_id) =>
      if Str.is_empty scope_id || Str.char_in "%" scope_id then None
      else Some (addr, Some scope_id)
  end.

(** [IPv6Address(address)] for a string. *)
Definition parse_v6 (addr_str : string) : option (Z * option string) :=
  if Str.char_in "/" addr_str then None
  else
    '(addr, scope_id) ← split_scope_id addr_str;
    ip ← v6_int_from_string addr;
    Some (ip, scope_id).

(** [ipaddress.ip_address] *)
Definition ip_address (address_str : string) : exc address :=
  match parse_v4 address_str with
  | Some ip => Ok (IPv4Address ip)
  | None =>
      match parse_v6 address_str with
      | Some (ip, scope_id) => Ok (IPv6Address ip scope_id)
      | None =>
          Raise (ValueError (Str.repr address_str +:+
                             " does not appear to be an IPv4 or IPv6 address"))
      end
  end.

Record network : Type := {
  net_version : Z;
  network_address : Z;
  netmask : Z
}.

(** [ip_network('a.b.c.d/p')] for an IPv4 network with host bits clear. *)
Definition ipv4_network (a b c d prefixlen : Z) : network :=
  {| net_version := 4;
     network_address := from_bytes_big [a; b; c; d];
     netmask := Z.shiftl (Z.ones prefixlen) (32 - prefixlen) |}.

(** [ip in net] ([_BaseNetwork.__contains__]) *)
Definition contains (net : network) (ip : address) : bool :=
  if negb (net_version net =? version ip) then false
  else Z.land (ip_int ip) (netmask net) =? network_address net.

End Ipaddress.

(** ** [urllib.parse]: [urlparse], [urlunparse], [urljoin] *)

Module Urllib.

Definition uses_relative : list string :=
  [""; "ftp"; "http"; "gopher"; "nntp"; "imap"; "wais"; "file"; "https";
   "shttp"; "mms"; "prospero"; "rtsp"; "rtspu"; "sftp"; "svn"; "svn+ssh";
   "ws"; "wss"].

Definition uses_netloc : list string :=
  [""; "ftp"; "http"; "gopher"; "nntp"; "telnet"; "imap"; "wais"; "file";
   "mms"; "https"; "shttp"; "snews"; "prospero"; "rtsp"; "rtspu"; "rsync";
   "svn"; "svn+ssh"; "sftp"; "nfs"; "git"; "git+ssh"; "ws"; "wss"].

Definition uses_params : list string :=
  [""; "ftp"; "hdl"; "prospero"; "http"; "imap"; "https"; "shttp"; "rtsp";
   "rtspu"; "sip"; "sips"; "mms"; "sftp"; "tel"].

Definition in_list (s : string) (l : list string) : bool :=
  existsb (Str.eqb s) l.

(** Characters valid in scheme names *)
Definition scheme_char (c : ascii) : bool :=
  Str.is_ascii_alpha c || Str.is_ascii_digit c ||
  Str.char_in c "+-.".

(** [_WHATWG_C0_CONTROL_OR_SPACE] and [_UNSAFE_URL_BYTES_TO_REMOVE] *)
Definition c0_control_or_space (c : ascii) : bool := Str.in_range 0 32 c.
Definition unsafe_url_byte (c : ascii) : bool :=
  (Str.code c =? 9) || (Str.code c =? 13) || (Str.code c =? 10).

Record ParseResult : Type := {
  scheme : string;
  netloc : string;
  path : string;
  params : string;
  query : string;
  fragment : string
}.

(** [_NetlocResultMixinStr._hostinfo] *)
Definition hostinfo (netloc : string) : string * option string :=
  let hostinfo := Str.rpartition_tail "@" netloc in
  let '(hostname, port) :=
    match Str.partition "[" hostinfo with
    | Some (_, bracketed) =>
        (Str.partition_head "]" bracketed,
         Str.partition_tail ":" (Str.partition_tail "]" bracketed))
    | None =>
        (Str.partition_head ":" hostinfo, Str.partition_tail ":" hostinfo)
    end in
  (hostname, if Str.is_empty port then None else Some port).

(** The [hostname] property; [None] is Python's [None]. *)
Definition hostname (r : ParseResult) : option string :=
  let h := fst (hostinfo (netloc r)) in
  if Str.is_empty h then None
  else
    match Str.partition "%" h with
    | Some (host, zone) => Some (Str.lower host +:+ "%" +:+ zone)
    | None => Some (Str.lower h)
    end.

(** The [port] property: raises [ValueError] on a port that is not a decimal
    number of at most 65535. *)
Definition port (r : ParseResult) : exc (option Z) :=
  match snd (hostinfo (netloc r)) with
  | None => Ok None
  | Some p =>
      if Str.all_chars Str.is_ascii_digit p
      then if Str.int10 p <=? 65535 then Ok (Some (Str.int10 p))
           else Raise (ValueError "Port out of range 0-65535")
      else Raise (ValueError ("Port could not be cast to integer value as "
                              +:+ Str.repr p))
  end.

(** [re.match(r"\Av[a-fA-F0-9]+\..+\Z", hostname)] *)
Definition ipvfuture_re (h : string) : bool :=
  match h with
  | String "v" r =>
      let digits := Str.lstrip_by Str.is_hex_digit r in
      negb (String.length digits =? String.length r)%nat &&
      match digits with
      | String "." rest =>
          negb (Str.is_empty rest) &&
          Str.all_chars (fun c => negb (Str.code c =? 10)) rest
      | _ => false
      end
  | _ => false
  end.

(** [_check_bracketed_host] *)
Definition check_bracketed_host (h : string) : exc unit :=
  if Str.startswith h "v" then
    if ipvfuture_re h then Ok tt
    else Raise (ValueError "IPvFuture address is invalid")
  else
    let! ip := Ipaddress.ip_address h in
    match ip with
    | Ipaddress.IPv4Address _ =>
        Raise (ValueError "An IPv4 address cannot be in brackets")
    | _ => Ok tt
    end.

(** [_check_bracketed_netloc] *)
Definition check_bracketed_netloc (netloc : string) : exc unit :=
  let hostname_and_port := Str.rpartition_tail "@" netloc in
  match Str.partition "[" hostname_and_port with
  | Some (before_bracket, bracketed) =>
      if negb (Str.is_empty before_bracket)
      then Raise (ValueError "Invalid IPv6 URL")
      else
        let port := Str.partition_tail "]" bracketed in
        if negb (Str.is_empty port) && negb (Str.startswith port ":")
        then Raise (ValueError "Invalid IPv6 URL")
        else check_bracketed_host (Str.partition_head "]" bracketed)
  | None => check_bracketed_host (Str.partition_head ":" hostname_and_port)
  end.

(** [_splitnetloc(url, 2)] on the text after the two slashes. *)
Fixpoint splitnetloc (s : string) : string * string :=
  match s with
  | EmptyString => (EmptyString, EmptyString)
  | String c r =>
      if Str.char_in c "/?#" then (EmptyString, s)
      else let '(n, rest) := splitnetloc r in (String c n, rest)
  end.

(** The scheme prefix of [urlsplit]: [scheme] is the default. *)
Definition split_scheme (url scheme : string) : string * string :=
  match Str.partition ":" url with
  | Some (String c0 before, after) =>
      if Str.is_ascii_alpha c0 && Str.all_chars scheme_char (String c0 before)
      then (Str.lower (String c0 before), after)
      else (scheme, url)
  | _ => (scheme, url)
  end.

(** [_checknetloc] looks for characters whose NFKC form contains one of
    [/?#@:]; no character below U+0100 has such a form, so it returns. *)
Definition checknetloc (netloc : string) : exc unit := Ok tt.

(** [urlsplit(url, scheme)]; the result has no [params] yet. *)
Definition urlsplit (url scheme : string) : exc ParseResult :=
  let url := Str.lstrip_by c0_control_or_space url in
  let scheme := Str.strip_by c0_control_or_space scheme in
  let url := Str.remove_chars unsafe_url_byte url in
  let scheme := Str.remove_chars unsafe_url_byte scheme in
  let '(scheme, url) := split_scheme url scheme in
  let! nu := (if Str.startswith url "//" then
           let '(netloc, rest) := splitnetloc (Str.drop 2 url) in
           let has_open := Str.char_in "[" netloc in
           let has_close := Str.char_in "]" netloc in
           if (has_open && negb has_close) || (has_close && negb has_open)
           then Raise (ValueError "Invalid IPv6 URL")
           else
             let! checked := (if has_open && has_close
                   then check_bracketed_netloc netloc else Ok tt) in
             Ok (netloc, rest)
         else Ok (EmptyString, url)) in
  let '(netloc, url) := nu in
  let '(url, fragment) :=
    match Str.partition "#" url with
    | Some (u, f) => (u, f)
    | None => (url, EmptyString)
    end in
  let '(url, query) :=
    match Str.partition "?" url with
    | Some (u, q) => (u, q)
    | None => (url, EmptyString)
    end in
  let! checked := checknetloc netloc in
  Ok {| scheme := scheme; netloc := netloc; path := url;
        params := EmptyString; query := query; fragment := fragment |}.

(** [_splitparams] *)
Definition splitparams (url : string) : string * string :=
  match Str.rpartition "/" url with
  | Some (dir, last) =>
      match Str.partition ";" last with
      | Some (a, b) => (dir +:+ "/" +:+ a, b)
      | None => (url, EmptyString)
      end
  | None =>
      match Str.partition ";" url with
      | Some (a, b) => (a, b)
      | None => (url, EmptyString)
      end
  end.

(** [urlparse(url, scheme)] *)
Definition urlparse (url scheme : string) : exc ParseResult :=
  let! r := urlsplit url scheme in
  if in_list (Urllib.scheme r) uses_params && Str.char_in ";" (path r)
  then
    let '(url', params') := splitparams (path r) in
    Ok {| scheme := Urllib.scheme r; netloc := netloc r; path := url';
          params := params'; query := query r; fragment := fragment r |}
  else Ok r.

(** [urlunsplit] *)
Definition urlunsplit (scheme netloc url query fragment : string) : string :=
  let url :=
    if negb (Str.is_empty netloc) ||
       (negb (Str.is_empty scheme) && in_list scheme uses_netloc &&
        negb (Str.startswith url "//"))
    then
      let url := if negb (Str.is_empty url) && negb (Str.startswith url "/")
                 then "/" +:+ url else url in
      "//" +:+ netloc +:+ url
    else url in
  let url := if negb (Str.is_empty scheme) then scheme +:+ ":" +:+ url
             else url in
  let url := if negb (Str.is_empty query) then url +:+ "?" +:+ query
             else url in
  if negb (Str.is_empty fragment) then url +:+ "#" +:+ fragment else url.

(** [urlunparse] *)
Definition urlunparse (scheme netloc url params query fragment : string)
  : string :=
  let url := if negb (Str.is_empty params) then url +:+ ";" +:+ params
             else url in
  urlunsplit scheme netloc url query fragment.

(** The dot-segment loop of [urljoin]; [resolved] is kept in reverse. *)
Fixpoint resolve_segments (segments resolved : list string) : list string :=
  match segments with
  | [] => rev resolved
  | seg :: rest =>
      if Str.eqb seg ".." then resolve_segments rest (tail resolved)
      else if Str.eqb seg "." then resolve_segments rest resolved
      else resolve_segments rest (seg :: resolved)
  end.

(** [segments[1:-1] = filter(None, segments[1:-1])] *)
Definition filter_inner (segments : list string) : list string :=
  match segments with
  | first :: (_ :: _) as rest =>
      first ::
        filter (fun s => Str.is_empty s = false) (removelast rest) ++
        [List.last rest ""]
  | _ => segments
  end.

(** [urljoin(base, url)] *)
Definition urljoin (base url : string) : exc string :=
  if Str.is_empty base then Ok url
  else if Str.is_empty url then Ok base
  else
    let! b := urlparse base "" in
    let! u := urlparse url (scheme b) in
    if negb (Str.eqb (scheme u) (scheme b)) ||
       negb (in_list (scheme u) uses_relative)
    then Ok url
    else if in_list (scheme u) uses_netloc && negb (Str.is_empty (netloc u))
    then Ok (urlunparse (scheme u) (netloc u) (path u) (params u)
                        (query u) (fragment u))
    else
      let netloc' := if in_list (scheme u) uses_netloc then netloc b
                     else netloc u in
      if Str.is_empty (path u) && Str.is_empty (params u)
      then
        let query' := if Str.is_empty (query u) then query b else query u in
        Ok (urlunparse (scheme u) netloc' (path b) (params b) query'
                       (fragment u))
      else
        let base_parts := Str.split "/" (path b) in
        let base_parts :=
          if negb (Str.is_empty (List.last base_parts ""))
          then removelast base_parts else base_parts in
        let segments :=
          if Str.startswith (path u) "/" then Str.split "/" (path u)
          else filter_inner (base_parts ++ Str.split "/" (path u)) in
        let resolved_path := resolve_segments segments [] in
        let resolved_path :=
          if Str.eqb (List.last segments "") "." ||
             Str.eqb (List.last segments "") ".."
          then resolved_path ++ [""] else resolved_path in
        let joined := Str.join "/" resolved_path in
        Ok (urlunparse (scheme u) netloc'
                       (if Str.is_empty joined then "/" else joined)
                       (params u) (query u) (fragment u)).

End Urllib.

(** ** Security configuration of the service *)

Definition BLOCKED_IP_RANGES : list Ipaddress.network :=
  [ Ipaddress.ipv4_network 127 0 0 0 8;
    Ipaddress.ipv4_network 10 0 0 0 8;
    Ipaddress.ipv4_network 172 16 0 0 12;
    Ipaddress.ipv4_network 192 168 0 0 16;
    Ipaddress.ipv4_network 169 254 0 0 16;
    Ipaddress.ipv4_network 0 0 0 0 8 ].

Definition BLOCKED_DOMAINS : list string :=
  [".local"; ".internal"; ".corp"; ".localhost"].

Definition REQUEST_TIMEOUT : Z := 30.
Definition MAX_RESPONSE_SIZE : Z := 50 * 1024 * 1024.

(** ** [normalize_url] *)

Definition common_domains : list string :=
  ["google"; "microsoft"; "facebook"; "amazon"; "apple"].

(** [parsed.hostname or parsed.netloc] *)
Definition hostname_or_netloc (parsed : Urllib.ParseResult) : string :=
  match Urllib.hostname parsed with
  | Some h => h
  | None => Urllib.netloc parsed
  end.

Definition normalize_url (url : string) : exc string :=
  let url := Str.strip url in
  (* If no protocol, add https:// *)
  let url := if negb (Str.startswith url "http://" ||
                      Str.startswith url "https://")
             then "https://" +:+ url else url in
  let! parsed := Urllib.urlparse url "" in
  let hostname := hostname_or_netloc parsed in
  let hostname :=
    if Str.is_empty hostname
    then hd "" (Str.split ":" (Urllib.netloc parsed))
    else hostname in
  (* Add www. for common domains without subdomain *)
  let hostname :=
    if negb (Str.is_empty hostname) && Str.char_in "." hostname then
      let parts := Str.split "." hostname in
      if (length parts =? 2)%nat && negb (Str.startswith hostname "www.") &&
         Urllib.in_list (Str.lower (hd "" parts)) common_domains
      then "www." +:+ hostname
      else hostname
    else hostname in
  (* Prefer HTTPS *)
  let scheme := if negb (Str.eqb (Urllib.scheme parsed) "http")
                then "https" else "http" in
  let! port := Urllib.port parsed in
  let netloc :=
    match port with
    | Some p => if p =? 0 then hostname
                else hostname +:+ ":" +:+ Str.of_int p
    | None => hostname
    end in
  Ok (Urllib.urlunparse scheme netloc
        (if Str.is_empty (Urllib.path parsed) then "/" else Urllib.path parsed)
        (Urllib.params parsed) (Urllib.query parsed) (Urllib.fragment parsed)).

(** ** [validate_url] *)

(** Greedy [\d{1,3}]: the text left after one to three digits. *)
Definition match_digits_1_3 (s : string) : option string :=
  match s with
  | String a r1 =>
      if Str.is_ascii_digit a then
        match r1 with
        | String b r2 =>
            if Str.is_ascii_digit b then
              match r2 with
              | String c r3 => if Str.is_ascii_digit c then Some r3 else Some r2
              | EmptyString => Some r2
              end
            else Some r1
        | EmptyString => Some r1
        end
      else None
  | EmptyString => None
  end.

Definition match_dot (s : string) : option string :=
  match s with
  | String "." r => Some r
  | _ => None
  end.

(** [re.match(r'^\d{1,3}\.\d{1,3}\.\d{1,3}\.\d{1,3}$', hostname)]; [$] also
    matches before a final newline. *)
Definition dotted_quad_re (hostname : string) : bool :=
  match
    (r ← match_digits_1_3 hostname; r ← match_dot r;
     r ← match_digits_1_3 r; r ← match_dot r;
     r ← match_digits_1_3 r; r ← match_dot r;
     match_digits_1_3 r)
  with
  | Some rest => Str.is_empty rest || Str.eqb rest (String (Str.chr 10) "")
  | None => false
  end.

(** The body of the [try] block. *)
Definition validate_url_body (url : string) : exc (bool * string) :=
  let! parsed := Urllib.urlparse url "" in
  if negb (Urllib.in_list (Urllib.scheme parsed) ["http"; "https"])
  then Ok (false, "Invalid protocol: " +:+ Urllib.scheme parsed)
  else
    let hostname := hostname_or_netloc parsed in
    if Str.is_empty hostname then Ok (false, "Invalid URL: No hostname")
    else
      let hostname_lower := Str.lower hostname in
      (* Check blocked domains *)
      match find (fun blocked => Str.endswith hostname_lower blocked)
                 BLOCKED_DOMAINS with
      | Some blocked =>
          Ok (false, "Access to " +:+ blocked +:+ " domains is not allowed")
      | None =>
          (* Check localhost *)
          if Urllib.in_list hostname_lower ["localhost"; "0.0.0.0"]
          then Ok (false, "Access to localhost is not allowed")
          else
            (* Check IP ranges *)
            if dotted_quad_re hostname then
              match Ipaddress.ip_address hostname with
              | Ok ip =>
                  if existsb (fun blocked_range =>
                                Ipaddress.contains blocked_range ip)
                             BLOCKED_IP_RANGES
                  then Ok (false, "Access to private/internal IP addresses is not allowed")
                  else Ok (true, "")
              | Raise (ValueError _) => Ok (true, "")
              | Raise e => Raise e
              end
            else Ok (true, "")
      end.

Definition validate_url (url : string) : bool * string :=
  match validate_url_body url with
  | Ok r => r
  | Raise e => (false, "Invalid URL format: " +:+ exn_str e)
  end.

(** ** The [re.sub] calls of the rewriter *)

Module Re.

(** The longest prefix in a character class, and what follows it. *)
Fixpoint span (p : ascii -> bool) (s : string) : string * string :=
  match s with
  | EmptyString => (EmptyString, EmptyString)
  | String c r =>
      if p c then let '(a, b) := span p r in (String c a, b)
      else (EmptyString, s)
  end.

(** A lower-case literal matched under [re.IGNORECASE]: the rest of the text. *)
Fixpoint match_literal_ci (lit s : string) {struct lit} : option string :=
  match lit with
  | EmptyString => Some s
  | String a lit' =>
      match s with
      | EmptyString => None
      | String b s' =>
          if Ascii.eqb a (Str.lower_char b) then match_literal_ci lit' s'
          else None
      end
  end.

(** A match at the start of the text: the matched text and its groups. *)
Record match_object : Type := {
  group0 : string;
  group1 : string;
  group2 : string;
  group3 : string
}.

(** A pattern is given by its match at the start of a text. *)
Definition pattern : Type := string -> option match_object.

(** [(<tag[^>]*>)] with [re.IGNORECASE], for [tag] in lower case. *)
Definition open_tag_re (tag : string) : pattern := fun s =>
  rest ← match_literal_ci tag s;
  let '(attrs, after) := span (fun c => negb (Ascii.eqb c ">")) rest in
  match after with
  | String ">" _ =>
      let m := Str.take (String.length tag + String.length attrs + 1) s in
      Some {| group0 := m; group1 := m; group2 := ""; group3 := "" |}
  | _ => None
  end.

Definition is_quote (c : ascii) : bool :=
  (Str.code c =? 34) || (Str.code c =? 39).

(** The attribute pattern, with [re.IGNORECASE]: group 1 is [src] or [href],
    optional white space, [=], optional white space and a quote character
    (single or double); group 2 is one or more characters that are not
    quotes; group 3 is a quote character.  On the text this development
    covers, of code points up to U+00FF, a letter of the pattern matches
    itself and its capital; past that range [re.IGNORECASE] lets the [s] of
    [src] match U+017F as well, which [str.lower] leaves alone, so no
    statement below infers the absence of a match from the absence of [src]
    in the lower-cased page. *)
Definition src_href_re : pattern := fun s =>
  rest ← match match_literal_ci "src" s with
         | Some r => Some r
         | None => match_literal_ci "href" s
         end;
  let '(_, rest) := span Str.is_space rest in
  match rest with
  | String "=" rest =>
      let '(_, rest) := span Str.is_space rest in
      match rest with
      | String q rest =>
          if is_quote q then
            let '(url, after) := span (fun c => negb (is_quote c)) rest in
            match url, after with
            | String _ _, String q' after' =>
                let n1 := (String.length s - String.length rest)%nat in
                Some {| group0 := Str.take (n1 + String.length url + 1) s;
                        group1 := Str.take n1 s;
                        group2 := url;
                        group3 := String q' "" |}
            | _, _ => None
            end
          else None
      | EmptyString => None
      end
  | _ => None
  end.

(** [url\(([^\)]+)\)] with [re.IGNORECASE] *)
Definition css_url_re : pattern := fun s =>
  rest ← match_literal_ci "url(" s;
  let '(inner, after) := span (fun c => negb (Ascii.eqb c ")")) rest in
  match inner, after with
  | String _ _, String ")" _ =>
      Some {| group0 := Str.take (4 + String.length inner + 1) s;
              group1 := inner; group2 := ""; group3 := "" |}
  | _, _ => None
  end.

(** [re.sub(pattern, repl, s)] for a callable [repl]: the text is scanned from
    the left, every match is replaced by [repl match] and the scan resumes
    after it; an exception of [repl] ends the call.  [skip] counts the
    characters of the current match still to pass.  None of the patterns
    above matches the empty text. *)
Fixpoint sub_from (p : pattern) (repl : match_object -> exc string)
    (skip : nat) (s : string) : exc string :=
  match s with
  | EmptyString => Ok EmptyString
  | String c r =>
      match skip with
      | S k => sub_from p repl k r
      | O =>
          match p s with
          | Some m =>
              let! out := repl m in
              let! rest := sub_from p repl (String.length (group0 m) - 1) r in
              Ok (out +:+ rest)
          | None =>
              let! rest := sub_from p repl O r in
              Ok (String c rest)
          end
      end
  end.

Definition sub (p : pattern) (repl : match_object -> exc string) (s : string)
  : exc string := sub_from p repl O s.

(** A parsed replacement template: literal text and group references. *)
Inductive template_item : Type :=
  | Literal (text : string)
  | GroupRef (index : Z).

Definition is_oct_digit (c : ascii) : bool := Str.in_range 48 55 c.

Definition bad_template (msg : string) : exc (list template_item) :=
  Raise (ReError msg).

(** [re._parser.parse_template] for a pattern with [groups] groups, none of
    them named.  In the [\g<name>] form a name that is a decimal number is a
    group number; an identifier is an unknown group name ([IndexError]) and
    anything else a bad group name ([re.error]), one exception here.  (Up to
    Python 3.11 a signed or padded number is still read as a number, with a
    [DeprecationWarning].) *)
Fixpoint parse_template_from (fuel : nat) (groups : Z) (s : string)
    : exc (list template_item) :=
  match fuel with
  | O => Ok []
  | S fuel =>
      let continue item rest :=
        let! items := parse_template_from fuel groups rest in
        Ok (item :: items) in
      let addgroup index rest :=
        if groups <? index
        then bad_template "invalid group reference"
        else continue (GroupRef index) rest in
      match s with
      | EmptyString => Ok []
      | String "\" EmptyString => bad_template "bad escape (end of pattern)"
      | String "\" (String c r) =>
          if Ascii.eqb c "g" then
            match r with
            | String "<" r' =>
                match Str.partition ">" r' with
                | None => bad_template "missing >, unterminated name"
                | Some (name, after) =>
                    if Str.is_empty name then bad_template "missing group name"
                    else if Str.all_chars Str.is_ascii_digit name
                    then addgroup (Str.int10 name) after
                    else Raise (OtherError "unknown or bad group name")
                end
            | _ => bad_template "missing <"
            end
          else if Ascii.eqb c "0" then
            match r with
            | String d1 r1 =>
                if is_oct_digit d1 then
                  match r1 with
                  | String d2 r2 =>
                      if is_oct_digit d2
                      then continue
                             (Literal (String (Str.chr
                                ((8 * (Str.code d1 - 48) + (Str.code d2 - 48))
                                 mod 256)) "")) r2
                      else continue
                             (Literal (String (Str.chr (Str.code d1 - 48)) "")) r1
                  | EmptyString =>
                      continue (Literal (String (Str.chr (Str.code d1 - 48)) "")) r1
                  end
                else continue (Literal (String (Str.chr 0) "")) r
            | EmptyString => continue (Literal (String (Str.chr 0) "")) r
            end
          else if Str.is_ascii_digit c then
            match r with
            | String d1 r1 =>
                if Str.is_ascii_digit d1 then
                  let octal3 :=
                    match r1 with
                    | String d2 r2 =>
                        if is_oct_digit c && is_oct_digit d1 && is_oct_digit d2
                        then Some (64 * (Str.code c - 48) +
                                   8 * (Str.code d1 - 48) + (Str.code d2 - 48), r2)
                        else None
                    | EmptyString => None
                    end in
                  match octal3 with
                  | Some (v, r2) =>
                      if 255 <? v
                      then bad_template "octal escape value outside of range 0-0o377"
                      else continue (Literal (String (Str.chr v) "")) r2
                  | None =>
                      addgroup (10 * (Str.code c - 48) + (Str.code d1 - 48)) r1
                  end
                else addgroup (Str.code c - 48) r
            | EmptyString => addgroup (Str.code c - 48) r
            end
          else if Ascii.eqb c "a" then continue (Literal (String (Str.chr 7) "")) r
          else if Ascii.eqb c "b" then continue (Literal (String (Str.chr 8) "")) r
          else if Ascii.eqb c "f" then continue (Literal (String (Str.chr 12) "")) r
          else if Ascii.eqb c "n" then continue (Literal (String (Str.chr 10) "")) r
          else if Ascii.eqb c "r" then continue (Literal (String (Str.chr 13) "")) r
          else if Ascii.eqb c "t" then continue (Literal (String (Str.chr 9) "")) r
          else if Ascii.eqb c "v" then continue (Literal (String (Str.chr 11) "")) r
          else if Ascii.eqb c "\" then continue (Literal "\") r
          else if Str.is_ascii_alpha c then bad_template "bad escape"
          else continue (Literal (String "\" (String c ""))) r
      | String c r => continue (Literal (String c "")) r
      end
  end.

Definition parse_template (groups : Z) (template : string)
  : exc (list template_item) :=
  parse_template_from (String.length template) groups template.

(** [re._parser.expand_template]; every pattern used with a template here is
    one parenthesised group, so group 0 and group 1 are both the match. *)
Fixpoint expand_template (items : list template_item) (m : match_object)
  : string :=
  match items with
  | [] => EmptyString
  | Literal t :: rest => t +:+ expand_template rest m
  | GroupRef i :: rest =>
      (if i =? 0 then group0 m else group1 m) +:+ expand_template rest m
  end.

(** [re.sub(pattern, template, s)] for a template string that holds a
    backslash: the template is parsed before the scan. *)
Definition sub_template (p : pattern) (groups : Z) (template s : string)
  : exc string :=
  let! items := parse_template groups template in
  sub p (fun m => Ok (expand_template items m)) s.

End Re.

(** ** [rewrite_html_content] *)

Definition dquote : string := String (Str.chr 34) "".

(** The postMessage bridge injected into the page. *)
Definition postmessage_script : string :=
  "
<script>
(function() {
    // PostMessage bridge for navigation
    window.addEventListener('click', function(e) {
        var target = e.target;
        var link = target.closest('a');
        if (link && link.href) {
            e.preventDefault();
            window.parent.postMessage({
                type: 'navigate',
                url: link.href
            }, '*');
        }
    }, true);

    // Intercept form submissions
    window.addEventListener('submit', function(e) {
        var form = e.target;
        if (form.action) {
            e.preventDefault();
            var formData = new FormData(form);
            var method = (form.method || 'GET').toUpperCase();
            window.parent.postMessage({
                type: 'form_submit',
                url: form.action,
                method: method,
                data: Object.fromEntries(formData)
            }, '*');
        }
    }, true);

    // Log JavaScript errors
    window.addEventListener('error', function(e) {
        console.error('Page error:', e.message);
    });

    console.log('Elara Proxy Bridge initialized');
})();
</script>
".

(** [rewrite_absolute_url] *)
Definition rewrite_absolute_url (base_url : string) (m : Re.match_object)
  : exc string :=
  let attr_name := Re.group1 m in
  let url := Re.group2 m in
  (* Make sure it's absolute *)
  if Str.startswith url "http://" || Str.startswith url "https://" ||
     Str.startswith url "//"
  then
    let! absolute_url := Urllib.urljoin base_url url in
    Ok (attr_name +:+ "=" +:+ dquote +:+ absolute_url +:+ dquote)
  else Ok (Re.group0 m).

(** [rewrite_css_url] *)
Definition rewrite_css_url (base_url : string) (m : Re.match_object)
  : exc string :=
  let url := Str.strip_by Re.is_quote (Re.group1 m) in
  if negb (Str.startswith url "data:")
  then
    let! absolute_url := Urllib.urljoin base_url url in
    Ok ("url(" +:+ dquote +:+ absolute_url +:+ dquote +:+ ")")
  else Ok (Re.group0 m).

(** Add postMessage script after <head> tag (or after <html>, in a new head). *)
Definition inject_bridge (html : string) : exc string :=
  if Str.contains (Str.lower html) "<head>" then
    Re.sub_template (Re.open_tag_re "<head") 1
      ("\1" +:+ postmessage_script) html
  else if Str.contains (Str.lower html) "<html>" then
    Re.sub_template (Re.open_tag_re "<html") 1
      ("\1<head>" +:+ postmessage_script +:+ "</head>") html
  else Ok html.

(** Add base tag for relative URL resolution. *)
Definition inject_base (base_domain html : string) : exc string :=
  if Str.contains (Str.lower html) "<head>" &&
     negb (Str.contains (Str.lower html) "<base")
  then
    Re.sub_template (Re.open_tag_re "<head") 1
      ("\1<base href=" +:+ dquote +:+ base_domain +:+ "/" +:+ dquote +:+ ">")
      html
  else Ok html.

(** Rewrite src and href attributes. *)
Definition rewrite_attributes (base_url html : string) : exc string :=
  Re.sub Re.src_href_re (rewrite_absolute_url base_url) html.

(** Rewrite url() in CSS. *)
Definition rewrite_css (base_url html : string) : exc string :=
  Re.sub Re.css_url_re (rewrite_css_url base_url) html.

(** The variable [html] is rebound by every step of the [try] block, and the
    handler returns its current value: a step that raises leaves the result
    of the steps before it.  [run_steps] threads that variable. *)
Fixpoint run_steps (steps : list (string -> exc string)) (html : string)
  : string * option exn :=
  match steps with
  | [] => (html, None)
  | step :: rest =>
      match step html with
      | Ok html' => run_steps rest html'
      | Raise e => (html, Some e)
      end
  end.

Definition rewrite_html_content (html base_url session_token : string)
  : string :=
  match Urllib.urlparse base_url "" with
  | Raise _ => html
  | Ok parsed_base =>
      let base_domain :=
        Urllib.scheme parsed_base +:+ "://" +:+ Urllib.netloc parsed_base in
      fst (run_steps [ inject_bridge;
                       inject_base base_domain;
                       rewrite_attributes base_url;
                       rewrite_css base_url ] html)
  end.

(** ** [bytes.decode('utf-8', errors='ignore')] and the text check of
       [decompress_content] *)

Module Utf8.

Definition byte_val (b : byte) : Z := Z.of_N (Strings.Byte.to_N b).

Definition is_continuation (b : Z) : bool := (128 <=? b) && (b <? 192).

(** The decoder of CPython: an ill-formed sequence is dropped up to the byte
    that made it ill-formed, a truncated one up to the end of the input.  The
    result is the list of code points. *)
Fixpoint decode_ignore (l : list Z) : list Z :=
  match l with
  | [] => []
  | ch :: r =>
      if ch <? 128 then ch :: decode_ignore r
      else if ch <? 194 then decode_ignore r
      else if ch <? 224 then
        match r with
        | [] => []
        | ch2 :: r2 =>
            if is_continuation ch2
            then ((ch - 192) * 64 + (ch2 - 128)) :: decode_ignore r2
            else decode_ignore r
        end
      else if ch <? 240 then
        match r with
        | [] => []
        | ch2 :: r2 =>
            if negb (is_continuation ch2) ||
               (if ch2 <? 160 then ch =? 224 else ch =? 237)
            then decode_ignore r
            else
              match r2 with
              | [] => []
              | ch3 :: r3 =>
                  if is_continuation ch3
                  then ((ch - 224) * 4096 + (ch2 - 128) * 64 + (ch3 - 128))
                         :: decode_ignore r3
                  else decode_ignore r2
              end
        end
      else if ch <? 245 then
        match r with
        | [] => []
        | ch2 :: r2 =>
            if negb (is_continuation ch2) ||
               (if ch2 <? 144 then ch =? 240 else ch =? 244)
            then decode_ignore r
            else
              match r2 with
              | [] => []
              | ch3 :: r3 =>
                  if negb (is_continuation ch3) then decode_ignore r2
                  else
                    match r3 with
                    | [] => []
                    | ch4 :: r4 =>
                        if is_continuation ch4
                        then ((ch - 240) * 262144 + (ch2 - 128) * 4096 +
                              (ch3 - 128) * 64 + (ch4 - 128))
                               :: decode_ignore r4
                        else decode_ignore r3
                    end
              end
        end
      else decode_ignore r
  end.

(** [str.isspace] on a code point of any plane. *)
Definition is_space (c : Z) : bool :=
  ((9 <=? c) && (c <=? 13)) || ((28 <=? c) && (c <=? 32)) ||
  (c =? 133) || (c =? 160) || (c =? 5760) ||
  ((8192 <=? c) && (c <=? 8202)) || (c =? 8232) || (c =? 8233) ||
  (c =? 8239) || (c =? 8287) || (c =? 12288).

(** [str.strip] on code points. *)
Definition strip (l : list Z) : list Z :=
  let drop_spaces := fix go (l : list Z) : list Z :=
    match l with
    | c :: r => if is_space c then go r else l
    | [] => []
    end in
  rev (drop_spaces (rev (drop_spaces l))).

(** [str.lower] as far as the letters of [html] go: H, T, M and L are the
    only code points whose lower case holds one of h, t, m, l. *)
Definition lower (l : list Z) : list Z :=
  map (fun c => if (65 <=? c) && (c <=? 90) then c + 32 else c) l.

Fixpoint starts_with (l p : list Z) {struct p} : bool :=
  match p with
  | [] => true
  | a :: p' =>
      match l with
      | [] => false
      | b :: l' => (a =? b) && starts_with l' p'
      end
  end.

Fixpoint contains (l p : list Z) : bool :=
  starts_with l p ||
  match l with
  | [] => false
  | _ :: r => contains r p
  end.

End Utf8.

(** [sample.startswith(('<', '{', '[', '<!')) or 'html' in sample.lower()]
    for [sample = content[:100].decode('utf-8', errors='ignore').strip()] *)
Definition looks_decompressed (content : list byte) : bool :=
  let sample :=
    Utf8.strip (Utf8.decode_ignore (map Utf8.byte_val (firstn 100 content))) in
  Utf8.starts_with sample [60] || Utf8.starts_with sample [123] ||
  Utf8.starts_with sample [91] || Utf8.starts_with sample [60; 33] ||
  Utf8.contains (Utf8.lower sample) [104; 116; 109; 108].

(** ** Header sanitizer *)

Definition blocked_headers : list string :=
  [ "x-frame-options";
    "content-security-policy";
    "content-security-policy-report-only";
    "x-content-type-options";
    "x-xss-protection";
    "cross-origin-embedder-policy";
    "cross-origin-opener-policy";
    "cross-origin-resource-policy";
    "set-cookie";
    "set-cookie2";
    "content-encoding";
    "transfer-encoding";
    "content-length";
    "strict-transport-security";
    "public-key-pins";
    "expect-ct";
    "referrer-policy";
    "permissions-policy";
    "feature-policy" ].

(** The loop over [headers.items()] that copies the entries to keep. *)
Definition strip_security_headers (headers : gmap string string)
  : gmap string string :=
  map_fold (fun key value cleaned_headers =>
              if negb (Urllib.in_list (Str.lower key) blocked_headers)
              then <[key := value]> cleaned_headers
              else cleaned_headers)
           ∅ headers.

(** ** Session cookie jar *)

Definition cookie_store : Type := gmap string (gmap string string).

Definition get_session_cookies (session_cookies : cookie_store)
    (session_token : string) : gmap string string :=
  default ∅ (session_cookies !! session_token).

(** [session_cookies[session_token].update(cookies)] *)
Definition set_session_cookies (session_cookies : cookie_store)
    (session_token : string) (cookies : gmap string string) : cookie_store :=
  <[session_token := cookies ∪ get_session_cookies session_cookies session_token]>
    session_cookies.

(** ** The cookies of a response *)

(** A cookie of [response.cookies] as the mapping methods of the jar see it:
    its name and its value, [None] for a cookie sent without one. *)
Record jar_cookie : Type := {
  cookie_name : string;
  cookie_value : option string
}.

(** [RequestsCookieJar]: the cookies in the order the jar yields them.  Two
    cookies of one name differ in domain or path. *)
Definition cookie_jar : Type := list jar_cookie.

Module CookieJar.

(** The loop of [_find_no_duplicates]: a second cookie of the name is a
    conflict once a value other than [None] is held. *)
Fixpoint find_loop (name : string) (toReturn : option string)
    (jar : cookie_jar) : exc (option string) :=
  match jar with
  | [] => Ok toReturn
  | cookie :: rest =>
      if Str.eqb (cookie_name cookie) name then
        match toReturn with
        | Some _ => Raise (OtherError "CookieConflictError")
        | None => find_loop name (cookie_value cookie) rest
        end
      else find_loop name toReturn rest
  end.

(** [jar[name]]: the value found has to be true, so a cookie whose value is
    empty or [None] is a [KeyError]. *)
Definition getitem (jar : cookie_jar) (name : string) : exc string :=
  let! toReturn := find_loop name None jar in
  match toReturn with
  | Some value =>
      if Str.is_empty value then Raise (OtherError "KeyError") else Ok value
  | None => Raise (OtherError "KeyError")
  end.

(** [jar.keys()] *)
Definition keys (jar : cookie_jar) : list string := map cookie_name jar.

(** [dict(jar)]: the constructor takes the keys and reads each of them. *)
Fixpoint dict_from (jar : cookie_jar) (names : list string)
    (d : gmap string string) : exc (gmap string string) :=
  match names with
  | [] => Ok d
  | name :: names =>
      let! value := getitem jar name in
      dict_from jar names (<[name := value]> d)
  end.

Definition to_dict (jar : cookie_jar) : exc (gmap string string) :=
  dict_from jar (keys jar) ∅.

End CookieJar.

(** [if response.cookies: set_session_cookies(session_id,
    dict(response.cookies))]: a jar is true when it holds a cookie; the
    conversion may raise, and then nothing is stored. *)
Definition store_response_cookies (session_cookies : cookie_store)
    (session_id : string) (jar : cookie_jar) : exc cookie_store :=
  match jar with
  | [] => Ok session_cookies
  | _ :: _ =>
      let! cookies := CookieJar.to_dict jar in
      Ok (set_session_cookies session_cookies session_id cookies)
  end.

(** ** The upstream response and the two fetch entry points *)

(** [requests.Response]; the headers are a [CaseInsensitiveDict]: the lower
    case name is the key, the entry keeps the name as it was sent. *)
Record Response : Type := {
  content : list byte;
  headers : gmap string (string * string);
  status_code : Z;
  url : string;
  cookies : cookie_jar
}.

(** [response.headers.get(name, default)] for a lower-case [name] *)
Definition headers_get (r : Response) (name default : string) : string :=
  match headers r !! name with
  | Some (_, value) => value
  | None => default
  end.

(** [dict(response.headers)] *)
Definition headers_dict (r : Response) : gmap string string :=
  list_to_map (map_to_list (headers r)).*2.

(** What [requests.get] does for a URL. *)
Inductive fetch_outcome : Type :=
  | Fetched (response : Response)
  | Timeout
  | SSLError
  | ConnectionError
  | OtherFailure.

(** What a handler returns. *)
Inductive http_result : Type :=
  | JsonError (status : Z) (error : string) (blocked : bool)
  | PageResult (html_content : string) (statusCode : Z)
      (response_headers : gmap string string) (contentLength : nat)
      (finalUrl contentType : string)
  | ResourceError (status : Z) (error : string)
  | ResourceBody (body : list byte) (content_type : string).

(** The JSON body of a [/proxy] request and the query of a [/resource] one. *)
Record proxy_json : Type := {
  json_url : option string;
  json_sessionId : option string
}.

Record resource_args : Type := {
  arg_url : option string;
  arg_session : option string
}.

Section Pipeline.

(** The decoders of the Python runtime: [gzip.decompress], [zlib.decompress],
    [zlib.decompress(.., -zlib.MAX_WBITS)] and [brotli.decompress] (whose
    import fails when the package is absent). *)
Variable gzip_decompress : list byte -> exc (list byte).
Variable zlib_decompress : list byte -> exc (list byte).
Variable zlib_decompress_raw : list byte -> exc (list byte).
Variable brotli_decompress : list byte -> exc (list byte).

(** The network, the body decoding of [detect_encoding] followed by
    [content.decode(encoding, errors='replace')] with its UTF-8 fallback, and
    [urllib.parse.unquote]. *)
Variable http_get : string -> gmap string string -> fetch_outcome.
Variable decode_content : list byte -> gmap string (string * string) -> string.
Variable unquote : string -> string.

Definition decompress_content (content : list byte) (encoding : string)
  : exc (list byte) :=
  if Str.is_empty encoding then Ok content
  else
    let encoding_lower := Str.lower encoding in
    (* Quick check: content that starts like text is taken as decompressed *)
    if (0 <? length content)%nat && looks_decompressed content then Ok content
    else
      try_catch
        (if Str.contains encoding_lower "gzip" then
           try_catch (gzip_decompress content) (fun _ => Ok content)
         else if Str.contains encoding_lower "deflate" then
           try_catch (zlib_decompress content)
             (fun e =>
                match e with
                | ZlibError _ =>
                    (* Try with -zlib.MAX_WBITS for raw deflate *)
                    try_catch (zlib_decompress_raw content)
                              (fun _ => Ok content)
                | _ => Raise e
                end)
         else if Str.contains encoding_lower "br" then
           try_catch (brotli_decompress content) (fun _ => Ok content)
         else Ok content)
        (fun _ => Ok content).

(** The content of a response after the explicit decompression step. *)
Definition decompressed_content (response : Response) : exc (list byte) :=
  let content_encoding :=
    Str.lower (headers_get response "content-encoding" "") in
  if negb (Str.is_empty content_encoding)
  then decompress_content (content response) content_encoding
  else Ok (content response).

(** [proxy_request], on the cookie jar. *)
Definition proxy_request (session_cookies : cookie_store)
    (data : option proxy_json) : cookie_store * http_result :=
  match data with
  | Some {| json_url := Some original_url; json_sessionId := sid |} =>
      let session_id := default "anonymous" sid in
      match normalize_url original_url with
      | Raise _ => (session_cookies, JsonError 500 "An unexpected error occurred" false)
      | Ok target_url =>
          match validate_url target_url with
          | (false, error_msg) => (session_cookies, JsonError 403 error_msg true)
          | (true, _) =>
              match http_get target_url
                      (get_session_cookies session_cookies session_id) with
              | Timeout => (session_cookies, JsonError 504 "Request timed out" false)
              | SSLError =>
                  (session_cookies,
                   JsonError 502 "SSL certificate verification failed" false)
              | ConnectionError =>
                  (session_cookies,
                   JsonError 502 "Could not connect to the website" false)
              | OtherFailure =>
                  (session_cookies,
                   JsonError 500 "An unexpected error occurred" false)
              | Fetched response =>
                  (* Store cookies from response *)
                  match store_response_cookies session_cookies session_id
                          (cookies response) with
                  | Raise _ =>
                      (session_cookies,
                       JsonError 500 "An unexpected error occurred" false)
                  | Ok session_cookies =>
                      match decompressed_content response with
                      | Raise _ =>
                          (session_cookies,
                           JsonError 500 "An unexpected error occurred" false)
                      | Ok content =>
                          (* Check size (after decompression) *)
                          if MAX_RESPONSE_SIZE <? Z.of_nat (length content)
                          then (session_cookies,
                                JsonError 413
                                  "Response too large. Maximum size is 50.0MB"
                                  false)
                          else
                            let html_content :=
                              decode_content content (headers response) in
                            let content_type :=
                              Str.lower
                                (headers_get response "content-type" "") in
                            let html_content :=
                              if Str.contains content_type "text/html"
                              then rewrite_html_content html_content
                                     (url response) session_id
                              else html_content in
                            (session_cookies,
                             PageResult html_content (status_code response)
                               (strip_security_headers (headers_dict response))
                               (String.length html_content) (url response)
                               content_type)
                      end
                  end
              end
          end
      end
  | _ => (session_cookies, JsonError 400 "Missing required field: url" false)
  end.

(** [proxy_resource]; it reads the cookie jar and does not change it. *)
Definition proxy_resource (session_cookies : cookie_store)
    (args : resource_args) : http_result :=
  let session_id := default "anonymous" (arg_session args) in
  match arg_url args with
  | None => ResourceError 400 "Missing url parameter"
  | Some resource_url =>
      if Str.is_empty resource_url
      then ResourceError 400 "Missing url parameter"
      else
        let resource_url := unquote resource_url in
        match validate_url resource_url with
        | (false, error_msg) => ResourceError 403 error_msg
        | (true, _) =>
            match http_get resource_url
                    (get_session_cookies session_cookies session_id) with
            | Fetched response =>
                match decompressed_content response with
                | Raise _ => ResourceError 500 "Failed to fetch resource"
                | Ok content =>
                    ResourceBody content
                      (headers_get response "content-type"
                                   "application/octet-stream")
                end
            | _ => ResourceError 500 "Failed to fetch resource"
            end
        end
  end.

End Pipeline.

(** ** Address ranges named by the specification *)

(** The address a.b.c.d as a number. *)
Definition ipv4 (a b c d : Z) : Z := ((a * 256 + b) * 256 + c) * 256 + d.

(** Loopback, the RFC 1918 private ranges, link-local and 0.0.0.0/8. *)
Definition private_or_local (ip : Z) : Prop :=
  ipv4 127 0 0 0 <= ip <= ipv4 127 255 255 255 \/
  ipv4 10 0 0 0 <= ip <= ipv4 10 255 255 255 \/
  ipv4 172 16 0 0 <= ip <= ipv4 172 31 255 255 \/
  ipv4 192 168 0 0 <= ip <= ipv4 192 168 255 255 \/
  ipv4 169 254 0 0 <= ip <= ipv4 169 254 255 255 \/
  ipv4 0 0 0 0 <= ip <= ipv4 0 255 255 255.

(** A character of a host that the dotted-quad pattern of [validate_url]
    matches: a digit, a dot, or the newline the pattern's [$] lets pass. *)
Definition dotted_quad_char (c : ascii) : bool :=
  Str.is_ascii_digit c || Ascii.eqb c "." || (Str.code c =? 10).

(** ** Sample data of the Python runtime *)

Fixpoint bytes_eqb (a b : list byte) : bool :=
  match a, b with
  | [], [] => true
  | x :: a', y :: b' => Strings.Byte.eqb x y && bytes_eqb a' b'
  | _, _ => false
  end.

(** [gzip.compress(b'hello world', mtime=0)] *)
Definition gzip_hello_world : list byte :=
  [x1f; x8b; x08; x00; x00; x00; x00; x00; x02; x03; xcb; x48; xcd; xc9; xc9;
   x57; x28; xcf; x2f; xca; x49; x01; x00; x85; x11; x4a; x0d; x0b; x00; x00;
   x00].

(** [gzip.compress(b'html', compresslevel=0, mtime=0)]: one stored block, so
    the four letters stand in the stream as they are. *)
Definition gzip_html_stored : list byte :=
  [x1f; x8b; x08; x00; x00; x00; x00; x00; x04; x03; x01; x04; x00; xfb; xff;
   x68; x74; x6d; x6c; xe5; xf8; x79; x18; x04; x00; x00; x00].

Definition bytes_hello_world : list byte :=
  [x68; x65; x6c; x6c; x6f; x20; x77; x6f; x72; x6c; x64].

Definition bytes_html : list byte := [x68; x74; x6d; x6c].

(** [gzip.decompress] on the two streams above; any other input of the
    examples is not a gzip file. *)
Definition gzip_decompress_sample (data : list byte) : exc (list byte) :=
  if bytes_eqb data gzip_hello_world then Ok bytes_hello_world
  else if bytes_eqb data gzip_html_stored then Ok bytes_html
  else Raise (OtherError "Not a gzipped file").

(** A decoder that rejects its input, as [zlib] and [brotli] do on the
    examples. *)
Definition decoder_rejects (data : list byte) : exc (list byte) :=
  Raise (ZlibError "Error -3 while decompressing data").

(** [s.encode('latin-1')] *)
Definition encode_latin1 (s : string) : list byte :=
  map byte_of_ascii (list_ascii_of_string s).

(** A body of one byte more than [MAX_RESPONSE_SIZE]. *)
Definition oversize_body : list byte :=
  repeat x00 (Z.to_nat (MAX_RESPONSE_SIZE + 1)).

Definition plain_response (body : list byte) (final_url : string) : Response :=
  {| content := body; headers := ∅; status_code := 200; url := final_url;
     cookies := [] |}.

(** The jar of a response that sets [sid=1], and of one that sets [sid]
    to the empty value. *)
Definition sid_cookie : cookie_jar :=
  [ {| cookie_name := "sid"; cookie_value := Some "1" |} ].

Definition empty_cookie : cookie_jar :=
  [ {| cookie_name := "sid"; cookie_value := Some "" |} ].

Definition cookie_response (body : list byte) (jar : cookie_jar) : Response :=
  {| content := body; headers := ∅; status_code := 200;
     url := "https://example.com/"; cookies := jar |}.

(** A style sheet served as [text/css]. *)
Definition css_response : Response :=
  {| content := encode_latin1 "a{b:url(x.png)}";
     headers := {[ "content-type" := ("Content-Type", "text/css") ]};
     status_code := 200;
     url := "http://example.com/s.css";
     cookies := [] |}.

(** The headers the specification names for removal. *)
Definition embedding_blockers : list string :=
  [ "x-frame-options"; "content-security-policy";
    "content-security-policy-report-only"; "set-cookie";
    "content-encoding"; "transfer-encoding"; "content-length" ].

Definition sample_headers : gmap string string :=
  {[ "Content-Type" := "text/html";
     "Set-Cookie" := "sid=1";
     "X-Frame-Options" := "DENY" ]}.

(** ** Counting injected fragments *)

(** The number of positions of [s] at which [sub] starts. *)
Fixpoint count_occurrences (s sub : string) : nat :=
  (if Str.startswith s sub then 1 else 0) +
  match s with
  | EmptyString => 0
  | String _ r => count_occurrences r sub
  end.

(** ** Text put into a page *)

(** [inserted t s out]: [out] is [s] with [t] put after some of its [>]. *)
Inductive inserted (t : string) : string -> string -> Prop :=
  | inserted_nil : inserted t "" ""
  | inserted_char c s out :
      inserted t s out -> inserted t (String c s) (String c out)
  | inserted_here s out :
      inserted t s out -> inserted t (String ">" s) (String ">" (t +:+ out)).

(** ** Audit log *)

Record audit_entry : Type := {
  entry_timestamp : string;
  entry_event_type : string;
  entry_ip_address : string;
  entry_user_id : option string;
  entry_details : gmap string string
}.

(** [log_audit], on the log; [now] is [datetime.utcnow().isoformat()]. *)
Definition log_audit (audit_log : list audit_entry) (now : string)
    (event_type : string) (details : gmap string string)
    (ip_address : string) (user_id : option string) : list audit_entry :=
  let audit_entry :=
    {| entry_timestamp := now;
       entry_event_type := event_type;
       entry_ip_address := ip_address;
       entry_user_id := user_id;
       entry_details := details |} in
  (* Keep only last 10000 entries in memory *)
  let audit_log :=
    if 10000 <=? Z.of_nat (length audit_log) then tail audit_log
    else audit_log in
  audit_log ++ [audit_entry].

(** One call of [log_audit] with the entry it builds given as a record. *)
Definition log_entry (audit_log : list audit_entry) (e : audit_entry)
  : list audit_entry :=
  log_audit audit_log (entry_timestamp e) (entry_event_type e)
            (entry_details e) (entry_ip_address e) (entry_user_id e).

(** ** [get_proxy_url] and [urllib.parse.quote] with [safe=''] *)

Module Quote.

(** [_ALWAYS_SAFE] *)
Definition always_safe (c : ascii) : bool :=
  Str.is_ascii_alpha c || Str.is_ascii_digit c || Str.char_in c "_.-~".

Definition hex_upper (n : Z) : ascii :=
  if n <? 10 then Str.chr (48 + n) else Str.chr (55 + n).

(** ['%{:02X}'.format(b)] *)
Definition percent (b : Z) : string :=
  String "%" (String (hex_upper (b / 16)) (String (hex_upper (b mod 16)) "")).

(** One character: kept when always safe, else the bytes of its UTF-8
    form, each as a percent escape. *)
Definition quote_char (c : ascii) : string :=
  if always_safe c then String c ""
  else if Str.code c <? 128 then percent (Str.code c)
  else percent (192 + Str.code c / 64) +:+ percent (128 + Str.code c mod 64).

(** [quote(s, safe='')] *)
Fixpoint quote (s : string) : string :=
  match s with
  | EmptyString => EmptyString
  | String c r => quote_char c +:+ quote r
  end.

End Quote.

Definition get_proxy_url (original_url session_token : string) : string :=
  (* Encode the URL to pass as query parameter *)
  let encoded_url := Quote.quote original_url in
  "/resource?url=" +:+ encoded_url +:+ "&session=" +:+ session_token.

(** ** [verify_jwt_token] *)

Section Jwt.

(** [jwt.decode(token, JWT_SECRET, algorithms=[JWT_ALGORITHM])] *)
Variable payload : Type.
Variable jwt_decode : string -> exc payload.

Definition verify_jwt_token (token : string) : option payload :=
  if Str.is_empty token then None
  else
    (* Remove 'Bearer ' prefix if present *)
    let token := if Str.startswith token "Bearer " then Str.drop 7 token
                 else token in
    match jwt_decode token with
    | Ok payload => Some payload
    | Raise _ => None
    end.

End Jwt.

(** ** [detect_encoding] *)

Module Charset.

(** A [str] of any code points, as the decoded body is. *)
Definition of_string (s : string) : list Z :=
  map Str.code (list_ascii_of_string s).

(** The class of the charset value in the header pattern: not white space,
    not a semicolon. *)
Definition header_value_char (c : ascii) : bool :=
  negb (Str.is_space c || Ascii.eqb c ";").

(** The match of the header pattern at the start of the text: the literal
    [charset=] and at least one character of the class; the group is the
    longest run. *)
Definition header_match_here (s : string) : option string :=
  if Str.startswith s "charset=" then
    let '(value, _) := Re.span header_value_char (Str.drop 8 s) in
    if Str.is_empty value then None else Some value
  else None.

(** [re.search(r'charset=([^\s;]+)', content_type)]: group 1 of the leftmost
    match. *)
Fixpoint search_header_charset (s : string) : option string :=
  match header_match_here s with
  | Some value => Some value
  | None =>
      match s with
      | EmptyString => None
      | String _ r => search_header_charset r
      end
  end.

(** A lower-case ASCII letter of a pattern against a code point under
    [re.IGNORECASE]: the letter, its capital and, for s, U+017F. *)
Definition ci_letter (p c : Z) : bool :=
  (c =? p) || (c =? p - 32) || ((p =? 115) && (c =? 383)).

(** A literal of lower-case letters and other ASCII characters. *)
Fixpoint match_ci (lit : string) (l : list Z) {struct lit} : option (list Z) :=
  match lit with
  | EmptyString => Some l
  | String a lit' =>
      match l with
      | [] => None
      | c :: r =>
          if (if Str.in_range 97 122 a then ci_letter (Str.code a) c
              else c =? Str.code a)
          then match_ci lit' r else None
      end
  end.

Fixpoint skip_spaces (l : list Z) : list Z :=
  match l with
  | c :: r => if Utf8.is_space c then skip_spaces r else l
  | [] => []
  end.

(** The class of the charset value in the meta pattern: not white space, a
    quote, a slash or [>]. *)
Definition meta_value_char (c : Z) : bool :=
  negb (Utf8.is_space c || (c =? 34) || (c =? 39) || (c =? 47) || (c =? 62)).

Fixpoint take_while (p : Z -> bool) (l : list Z) : list Z :=
  match l with
  | c :: r => if p c then c :: take_while p r else []
  | [] => []
  end.

(** The pattern from [charset] on: optional white space, [=], optional white
    space, an optional quote, then the value. *)
Definition meta_tail (l : list Z) : option (list Z) :=
  r ← match_ci "charset" l;
  match skip_spaces r with
  | 61 :: r =>
      let r := skip_spaces r in
      let r := match r with
               | c :: r' => if (c =? 34) || (c =? 39) then r' else r
               | [] => r
               end in
      match take_while meta_value_char r with
      | [] => None
      | value => Some value
      end
  | _ => None
  end.

(** The greedy run of characters other than [>] gives back from its end:
    the tail is tried at the last place of the run first. *)
Fixpoint meta_rightmost (l : list Z) : option (list Z) :=
  match l with
  | [] => None
  | c :: r =>
      if c =? 62 then None
      else match meta_rightmost r with
           | Some value => Some value
           | None => meta_tail l
           end
  end.

(** The meta pattern at the start of the text: [<meta], one or more
    characters other than [>], then the tail. *)
Definition meta_match_here (l : list Z) : option (list Z) :=
  r ← match_ci "<meta" l;
  match r with
  | c :: r' => if c =? 62 then None else meta_rightmost r'
  | [] => None
  end.

(** [re.search] of the meta pattern, with [re.IGNORECASE]: group 1 of the
    leftmost match. *)
Fixpoint search_meta_charset (l : list Z) : option (list Z) :=
  match meta_match_here l with
  | Some value => Some value
  | None =>
      match l with
      | [] => None
      | _ :: r => search_meta_charset r
      end
  end.

End Charset.

Section DetectEncoding.

(** [chardet.detect(sample)['encoding']]: [None] when nothing is detected;
    the call may raise. *)
Variable chardet_detect : list byte -> exc (option string).

Definition detect_encoding (content : list byte)
    (headers : gmap string (string * string)) : list Z :=
  (* Try Content-Type header *)
  let content_type :=
    Str.lower (match headers !! "content-type" with
               | Some (_, value) => value
               | None => ""
               end) in
  match Charset.search_header_charset content_type with
  | Some value => Charset.of_string (Str.strip_by Re.is_quote value)
  | None =>
      (* Try meta tag *)
      let content_str :=
        Utf8.decode_ignore (map Utf8.byte_val (firstn 2048 content)) in
      match Charset.search_meta_charset content_str with
      | Some encoding => encoding
      | None =>
          (* Use chardet *)
          match chardet_detect (firstn (Z.to_nat 10000) content) with
          | Ok (Some encoding) =>
              if Str.is_empty encoding then Charset.of_string "utf-8"
              else Charset.of_string encoding
          | _ => Charset.of_string "utf-8"
          end
      end
  end.

End DetectEncoding.

(** ** [validate_url_endpoint] *)

Inductive validate_response : Type :=
  | ValidateFailure (status : Z) (error : string)
  | ValidateAnswer (valid : bool) (error : option string)
      (url originalUrl : string).

Definition validate_url_endpoint (data : option proxy_json)
  : validate_response :=
  match data with
  | Some {| json_url := Some original_url |} =>
      match normalize_url original_url with
      | Raise _ => ValidateFailure 500 "Failed to validate URL"
      | Ok normalized_url =>
          match validate_url normalized_url with
          | (true, _) => ValidateAnswer true None normalized_url original_url
          | (false, error_msg) =>
              ValidateAnswer false (Some error_msg) normalized_url original_url
          end
      end
  | _ => ValidateFailure 400 "Missing required field: url"
  end.

(** ** Notions used by the statements *)

(** The session a page request runs under: [data.get('sessionId',
    'anonymous')]. *)
Definition session_of (data : option proxy_json) : string :=
  default "anonymous" (data ≫= json_sessionId).

(** [headers.get('content-type', '')] *)
Definition content_type_of (headers : gmap string (string * string)) : string :=
  match headers !! "content-type" with
  | Some (_, value) => value
  | None => ""
  end.

(** * Properties *)
(** ** Strings *)

(* [simpl] may unfold a concatenation whose left part starts with a character *)
Local Arguments String.append !s1 s2 / : simpl nomatch.

Lemma append_assoc (a b c : string) : (a +:+ b) +:+ c = a +:+ (b +:+ c).
Proof. induction a as [|x a IH]; simpl; [done|by f_equal]. Qed.

Lemma startswith_spec (s p : string) :
  Str.startswith s p = true -> exists t, s = p +:+ t.
Proof.
  revert s; induction p as [|a p IH]; intros s; simpl.
  - by exists s.
  - destruct s as [|b s]; [done|].
    rewrite andb_true_iff. intros [Hab Hs].
    apply Ascii.eqb_eq in Hab as ->.
    destruct (IH _ Hs) as [t ->]. by exists t.
Qed.

Lemma split_join (c : ascii) (s : string) :
  Str.join (String c "") (Str.split c s) = s.
Proof.
  induction s as [|d s IH]; simpl; [done|].
  destruct (Ascii.eqb d c) eqn:Hd.
  - apply Ascii.eqb_eq in Hd as ->.
    destruct (Str.split c s) as [|x xs] eqn:Hs; simpl in *; [by subst|].
    destruct xs; simpl in *; by rewrite <- IH.
  - destruct (Str.split c s) as [|x xs] eqn:Hs; simpl in *; [by subst|].
    destruct xs; simpl in *; by rewrite <- IH.
Qed.

Lemma all_chars_app (p : ascii -> bool) (a b : string) :
  Str.all_chars p (a +:+ b) = Str.all_chars p a && Str.all_chars p b.
Proof.
  induction a as [|c a IH]; simpl; [done|]. by rewrite IH, andb_assoc.
Qed.

Lemma all_chars_impl (p q : ascii -> bool) (s : string) :
  (forall c, p c = true -> q c = true) ->
  Str.all_chars p s = true -> Str.all_chars q s = true.
Proof.
  intros Himpl. induction s as [|c s IH]; simpl; [done|].
  rewrite !andb_true_iff. intros [? ?]. auto.
Qed.

(** ** The SSRF guard *)

Lemma parse_octet_digits (o : string) (n : Z) :
  Ipaddress.parse_octet o = Some n ->
  (exists a, o = String a "" /\ Str.is_ascii_digit a = true) \/
  (exists a b, o = String a (String b "") /\
               Str.is_ascii_digit a = true /\ Str.is_ascii_digit b = true) \/
  (exists a b c, o = String a (String b (String c "")) /\
                 Str.is_ascii_digit a = true /\ Str.is_ascii_digit b = true /\
                 Str.is_ascii_digit c = true).
Proof.
  unfold Ipaddress.parse_octet.
  destruct o as [|a [|b [|c [|d o]]]]; simpl; try done.
  - destruct (Str.is_ascii_digit a) eqn:Ha; simpl; [|done]. intros _. left. eauto.
  - destruct (Str.is_ascii_digit a) eqn:Ha; simpl; [|done].
    destruct (Str.is_ascii_digit b) eqn:Hb; simpl; [|done].
    intros _. right; left. eauto 10.
  - destruct (Str.is_ascii_digit a) eqn:Ha; simpl; [|done].
    destruct (Str.is_ascii_digit b) eqn:Hb; simpl; [|done].
    destruct (Str.is_ascii_digit c) eqn:Hc; simpl; [|done].
    intros _. right; right. eauto 10.
  - match goal with |- (if ?c then _ else _) = _ -> _ => by destruct c end.
Qed.

Lemma match_digits_dot (o : string) (n : Z) (rest : string) :
  Ipaddress.parse_octet o = Some n ->
  match_digits_1_3 (o +:+ String "." rest) = Some (String "." rest).
Proof.
  intros H. apply parse_octet_digits in H.
  destruct H as [(a & -> & Ha)|[(a & b & -> & Ha & Hb)|(a & b & c & -> & Ha & Hb & Hc)]];
    simpl; rewrite ?Ha, ?Hb, ?Hc; reflexivity.
Qed.

Lemma match_digits_end (o : string) (n : Z) :
  Ipaddress.parse_octet o = Some n -> match_digits_1_3 o = Some "".
Proof.
  intros H. apply parse_octet_digits in H.
  destruct H as [(a & -> & Ha)|[(a & b & -> & Ha & Hb)|(a & b & c & -> & Ha & Hb & Hc)]];
    simpl; rewrite ?Ha, ?Hb, ?Hc; reflexivity.
Qed.

Lemma parse_v4_dotted_quad (host : string) (ip : Z) :
  Ipaddress.parse_v4 host = Some ip -> dotted_quad_re host = true.
Proof.
  unfold Ipaddress.parse_v4, Ipaddress.v4_int_from_string.
  destruct (Str.char_in "/" host); [done|].
  destruct (Str.is_empty host); [done|].
  pose proof (split_join "." host) as Hjoin.
  destruct (Str.split "." host) as [|a [|b [|c [|d [|e l]]]]]; simpl; try done.
  destruct (Ipaddress.parse_octet a) as [na|] eqn:Ha; [|done].
  destruct (Ipaddress.parse_octet b) as [nb|] eqn:Hb; [|done].
  destruct (Ipaddress.parse_octet c) as [nc|] eqn:Hc; [|done].
  destruct (Ipaddress.parse_octet d) as [nd|] eqn:Hd; [|done].
  intros _. simpl in Hjoin. rewrite <- Hjoin.
  unfold dotted_quad_re.
  rewrite (match_digits_dot a na) by done. simpl.
  rewrite (match_digits_dot b nb) by done. simpl.
  rewrite (match_digits_dot c nc) by done. simpl.
  rewrite (match_digits_end d nd) by done. reflexivity.
Qed.

Lemma parse_v4_nonempty (host : string) (ip : Z) :
  Ipaddress.parse_v4 host = Some ip -> Str.is_empty host = false.
Proof.
  unfold Ipaddress.parse_v4, Ipaddress.v4_int_from_string.
  destruct (Str.char_in "/" host); [done|].
  by destruct (Str.is_empty host).
Qed.

Lemma land_prefix_mask (ip k p : Z) :
  0 <= k -> 0 <= p -> 0 <= ip < 2 ^ (k + p) ->
  Z.land ip (Z.shiftl (Z.ones p) k) = ip / 2 ^ k * 2 ^ k.
Proof.
  intros Hk Hp Hip.
  rewrite <- Z.shiftr_div_pow2, <- Z.shiftl_mul_pow2 by lia.
  apply Z.bits_inj'. intros n Hn.
  rewrite Z.land_spec, !Z.shiftl_spec by lia.
  destruct (Z.lt_ge_cases n k) as [Hlt|Hge].
  - rewrite !(Z.testbit_neg_r _ (n - k)) by lia. apply andb_false_r.
  - rewrite Z.shiftr_spec by lia. replace (n - k + k) with n by lia.
    destruct (Z.lt_ge_cases (n - k) p) as [Hlo|Hhi].
    + rewrite Z.ones_spec_low by lia. apply andb_true_r.
    + rewrite Z.ones_spec_high by lia. rewrite andb_false_r.
      symmetry. destruct (Z.eq_dec ip 0) as [->|Hnz]; [apply Z.bits_0|].
      apply Z.bits_above_log2; [lia|].
      apply Z.log2_lt_pow2; [lia|].
      apply Z.lt_le_trans with (2 ^ (k + p)); [lia|].
      apply Z.pow_le_mono_r; lia.
Qed.

Lemma contains_prefix_range (a b c d prefixlen ip : Z) :
  0 <= prefixlen <= 32 -> 0 <= ip < 2 ^ 32 ->
  Ipaddress.from_bytes_big [a; b; c; d] <= ip
    < Ipaddress.from_bytes_big [a; b; c; d] + 2 ^ (32 - prefixlen) ->
  Ipaddress.from_bytes_big [a; b; c; d] mod 2 ^ (32 - prefixlen) = 0 ->
  Ipaddress.contains (Ipaddress.ipv4_network a b c d prefixlen)
                     (Ipaddress.IPv4Address ip) = true.
Proof.
  intros Hp Hip Hrange Hal.
  unfold Ipaddress.contains, Ipaddress.ipv4_network; simpl.
  set (base := Ipaddress.from_bytes_big [a; b; c; d]) in *.
  rewrite land_prefix_mask by (try lia; replace (32 - prefixlen + prefixlen) with 32 by lia; lia).
  apply Z.eqb_eq.
  assert (0 < 2 ^ (32 - prefixlen)) by (apply Z.pow_pos_nonneg; lia).
  set (m := 2 ^ (32 - prefixlen)) in *.
  pose proof (Z.div_mod base m ltac:(lia)) as Hb. rewrite Hal in Hb.
  assert (ip / m = base / m) as ->; [|lia].
  symmetry. apply Z.div_unique with (ip - base); lia.
Qed.

Ltac in_blocked_range base width :=
  apply contains_prefix_range;
  [ lia
  | change (2 ^ 32) with 4294967296; lia
  | change (Ipaddress.from_bytes_big _) with base;
    change (2 ^ (32 - _)) with width; lia
  | reflexivity ].

Lemma private_or_local_blocked (ip : Z) :
  private_or_local ip ->
  existsb (fun blocked_range =>
             Ipaddress.contains blocked_range (Ipaddress.IPv4Address ip))
          BLOCKED_IP_RANGES = true.
Proof.
  unfold private_or_local, ipv4, BLOCKED_IP_RANGES.
  intros H. cbn [existsb]. rewrite !orb_true_iff.
  destruct H as [H|[H|[H|[H|[H|H]]]]].
  - left. in_blocked_range 2130706432 16777216.
  - right; left. in_blocked_range 167772160 16777216.
  - right; right; left. in_blocked_range 2886729728 1048576.
  - right; right; right; left. in_blocked_range 3232235520 65536.
  - right; right; right; right; left. in_blocked_range 2851995648 65536.
  - right; right; right; right; right; left. in_blocked_range 0 16777216.
Qed.

(** *** Hosts that the dotted-quad pattern matches *)

Lemma match_digits_1_3_chars (s r : string) :
  match_digits_1_3 s = Some r ->
  exists d, s = d +:+ r /\ Str.all_chars Str.is_ascii_digit d = true.
Proof.
  unfold match_digits_1_3.
  destruct s as [|a r1]; [done|].
  destruct (Str.is_ascii_digit a) eqn:Ha; [|done].
  destruct r1 as [|b r2].
  { intros [= <-]. exists (String a ""). simpl. by rewrite Ha. }
  destruct (Str.is_ascii_digit b) eqn:Hb.
  2:{ intros [= <-]. exists (String a ""). simpl. by rewrite Ha. }
  destruct r2 as [|c r3].
  { intros [= <-]. exists (String a (String b "")). simpl. by rewrite Ha, Hb. }
  destruct (Str.is_ascii_digit c) eqn:Hc; intros [= <-].
  - exists (String a (String b (String c ""))). simpl. by rewrite Ha, Hb, Hc.
  - exists (String a (String b "")). simpl. by rewrite Ha, Hb.
Qed.

Lemma match_dot_char (s r : string) : match_dot s = Some r -> s = String "." r.
Proof.
  unfold match_dot. destruct s as [|c s]; [done|].
  destruct c as [[] [] [] [] [] [] [] []]; try done. by intros [= ->].
Qed.

Lemma digit_is_dotted_quad_char (c : ascii) :
  Str.is_ascii_digit c = true -> dotted_quad_char c = true.
Proof. unfold dotted_quad_char. by intros ->. Qed.

Lemma dotted_quad_chars (host : string) :
  dotted_quad_re host = true -> Str.all_chars dotted_quad_char host = true.
Proof.
  unfold dotted_quad_re.
  destruct (match_digits_1_3 host) as [r1|] eqn:H1; simpl; [|done].
  destruct (match_dot r1) as [r2|] eqn:D1; simpl; [|done].
  destruct (match_digits_1_3 r2) as [r3|] eqn:H2; simpl; [|done].
  destruct (match_dot r3) as [r4|] eqn:D2; simpl; [|done].
  destruct (match_digits_1_3 r4) as [r5|] eqn:H3; simpl; [|done].
  destruct (match_dot r5) as [r6|] eqn:D3; simpl; [|done].
  destruct (match_digits_1_3 r6) as [rest|] eqn:H4; [|done].
  intros Hrest.
  apply match_digits_1_3_chars in H1 as (d1 & -> & Hd1).
  apply match_dot_char in D1 as ->.
  apply match_digits_1_3_chars in H2 as (d2 & -> & Hd2).
  apply match_dot_char in D2 as ->.
  apply match_digits_1_3_chars in H3 as (d3 & -> & Hd3).
  apply match_dot_char in D3 as ->.
  apply match_digits_1_3_chars in H4 as (d4 & -> & Hd4).
  assert (Str.all_chars dotted_quad_char rest = true) as Hr.
  { apply orb_true_iff in Hrest as [Hr|Hr].
    - by destruct rest.
    - apply String.eqb_eq in Hr as ->. reflexivity. }
  pose proof (all_chars_impl _ _ d1 digit_is_dotted_quad_char Hd1) as Hq1.
  pose proof (all_chars_impl _ _ d2 digit_is_dotted_quad_char Hd2) as Hq2.
  pose proof (all_chars_impl _ _ d3 digit_is_dotted_quad_char Hd3) as Hq3.
  pose proof (all_chars_impl _ _ d4 digit_is_dotted_quad_char Hd4) as Hq4.
  rewrite all_chars_app, Hq1. cbn [andb Str.all_chars].
  change (dotted_quad_char ".") with true. cbn [andb].
  rewrite all_chars_app, Hq2. cbn [andb Str.all_chars].
  change (dotted_quad_char ".") with true. cbn [andb].
  rewrite all_chars_app, Hq3. cbn [andb Str.all_chars].
  change (dotted_quad_char ".") with true. cbn [andb].
  by rewrite all_chars_app, Hq4, Hr.
Qed.

Lemma dotted_quad_char_lower (c : ascii) :
  dotted_quad_char c = true -> Str.lower_char c = c.
Proof. destruct c as [[] [] [] [] [] [] [] []]; vm_compute; done. Qed.

Lemma dotted_quad_chars_lower (host : string) :
  Str.all_chars dotted_quad_char host = true -> Str.lower host = host.
Proof.
  induction host as [|c host IH]; simpl; [done|].
  rewrite andb_true_iff. intros [Hc Hh].
  by rewrite (dotted_quad_char_lower c Hc), (IH Hh).
Qed.

Lemma all_chars_drop (p : ascii -> bool) (n : nat) (s : string) :
  Str.all_chars p s = true -> Str.all_chars p (Str.drop n s) = true.
Proof.
  revert s; induction n as [|n IH]; intros [|c s]; simpl; try done.
  rewrite andb_true_iff. intros [_ Hs]. by apply IH.
Qed.

Lemma endswith_chars (p : ascii -> bool) (s suffix : string) :
  Str.endswith s suffix = true ->
  Str.all_chars p s = true -> Str.all_chars p suffix = true.
Proof.
  unfold Str.endswith, Str.eqb. rewrite andb_true_iff.
  intros [_ Heq] Hs. apply String.eqb_eq in Heq. rewrite <- Heq.
  by apply all_chars_drop.
Qed.

Lemma char_in_all_chars (p : ascii -> bool) (c : ascii) (s : string) :
  Str.char_in c s = true -> Str.all_chars p s = true -> p c = true.
Proof.
  unfold Str.char_in. induction s as [|d s IH]; simpl; [done|].
  rewrite andb_true_iff. intros Hin [Hd Hs].
  destruct (Ascii.eqb c d) eqn:Hcd; simpl in Hin.
  - apply Ascii.eqb_eq in Hcd as ->. exact Hd.
  - by apply IH.
Qed.

Lemma char_in_lower (c : ascii) (s : string) :
  Str.lower_char c = c ->
  Str.char_in c s = true -> Str.char_in c (Str.lower s) = true.
Proof.
  intros Hc. unfold Str.char_in. induction s as [|d s IH]; simpl; [done|].
  destruct (Ascii.eqb c d) eqn:Hcd; simpl.
  - apply Ascii.eqb_eq in Hcd as <-. by rewrite Hc, Ascii.eqb_refl.
  - intros Hs. by rewrite (proj1 (negb_true_iff _) (IH Hs)), andb_false_r.
Qed.

Lemma split_absent (c : ascii) (s : string) :
  Str.all_chars (fun d => negb (Ascii.eqb d c)) s = true ->
  Str.split c s = [s].
Proof.
  induction s as [|d s IH]; simpl; [done|].
  rewrite andb_true_iff, negb_true_iff. intros [-> Hs]. by rewrite (IH Hs).
Qed.

Lemma partition_absent (c : ascii) (s : string) :
  Str.all_chars (fun d => negb (Ascii.eqb d c)) s = true ->
  Str.partition c s = None.
Proof.
  induction s as [|d s IH]; simpl; [done|].
  rewrite andb_true_iff, negb_true_iff. intros [-> Hs]. by rewrite (IH Hs).
Qed.

Lemma dotted_quad_char_not (c : ascii) :
  dotted_quad_char c = false ->
  forall d, dotted_quad_char d = true -> negb (Ascii.eqb d c) = true.
Proof.
  intros Hc d Hd. apply negb_true_iff.
  destruct (Ascii.eqb d c) eqn:Heq; [|done].
  apply Ascii.eqb_eq in Heq as ->. by rewrite Hc in Hd.
Qed.

(** A host of digits and dots is no IPv6 address. *)
Lemma dotted_quad_not_v6 (host : string) :
  Str.all_chars dotted_quad_char host = true ->
  Ipaddress.parse_v6 host = None.
Proof.
  intros Hq. unfold Ipaddress.parse_v6.
  destruct (Str.char_in "/" host); [done|].
  unfold Ipaddress.split_scope_id.
  rewrite (partition_absent "%" host)
    by (apply (all_chars_impl _ _ _ (dotted_quad_char_not "%" eq_refl) Hq)).
  simpl. unfold Ipaddress.v6_int_from_string.
  destruct (Str.is_empty host); [done|].
  rewrite (split_absent ":" host)
    by (apply (all_chars_impl _ _ _ (dotted_quad_char_not ":" eq_refl) Hq)).
  reflexivity.
Qed.

Lemma find_all_false {A} (p : A -> bool) (l : list A) :
  (forall x, In x l -> p x = false) -> find p l = None.
Proof.
  induction l as [|y l IH]; simpl; [done|]. intros Hall.
  rewrite (Hall y) by auto. apply IH. auto.
Qed.

Lemma in_list_absent (s a b : string) :
  s <> a -> s <> b -> Urllib.in_list s [a; b] = false.
Proof.
  intros Ha Hb. unfold Urllib.in_list, Str.eqb. simpl.
  by rewrite (proj2 (String.eqb_neq s a) Ha), (proj2 (String.eqb_neq s b) Hb).
Qed.

(** C1 (as amended): a URL that parses and whose host is an IPv4 literal in
    the form [ipaddress] reads (four decimal octets up to 255, none with a
    leading zero), inside loopback, an RFC 1918 private range, link-local or
    0.0.0.0/8, is rejected by [validate_url] with a reason, whatever its
    scheme and path.  Two kinds of literal are not checked, and pass for an
    http or https URL: a host that the dotted-quad pattern matches but
    [ipaddress] refuses (a leading zero, an octet over 255), the
    [ValueError] being passed over; and a host with a colon, as every IPv6
    literal is, unless it ends in a blocked suffix. *)
Theorem validate_url_rejects_private_ipv4 (url : string)
    (parsed : Urllib.ParseResult) :
  Urllib.urlparse url "" = Ok parsed ->
  (forall ip,
     Ipaddress.parse_v4 (hostname_or_netloc parsed) = Some ip ->
     private_or_local ip ->
     exists reason, validate_url url = (false, reason) /\ reason <> "") /\
  (Urllib.in_list (Urllib.scheme parsed) ["http"; "https"] = true ->
   dotted_quad_re (hostname_or_netloc parsed) = true ->
   Ipaddress.parse_v4 (hostname_or_netloc parsed) = None ->
   validate_url url = (true, "")) /\
  (Urllib.in_list (Urllib.scheme parsed) ["http"; "https"] = true ->
   Str.char_in ":" (hostname_or_netloc parsed) = true ->
   (forall blocked, In blocked BLOCKED_DOMAINS ->
      Str.endswith (Str.lower (hostname_or_netloc parsed)) blocked = false) ->
   validate_url url = (true, "")).
Proof.
  intros Hparse.
  unfold validate_url, validate_url_body. rewrite Hparse. cbn [exc_bind].
  set (host := hostname_or_netloc parsed).
  split; [|split].
  - intros ip Hv4 Hpriv.
    destruct (negb (Urllib.in_list _ _)).
    { eexists; split; [reflexivity|done]. }
    rewrite (parse_v4_nonempty _ _ Hv4).
    destruct (find _ BLOCKED_DOMAINS) as [blocked|].
    { eexists; split; [reflexivity|done]. }
    destruct (Urllib.in_list _ _).
    { eexists; split; [reflexivity|done]. }
    rewrite (parse_v4_dotted_quad _ _ Hv4).
    unfold Ipaddress.ip_address. rewrite Hv4.
    rewrite (private_or_local_blocked _ Hpriv).
    eexists; split; [reflexivity|done].
  - intros Hscheme Hquad Hv4. rewrite Hscheme. cbn [negb].
    pose proof (dotted_quad_chars _ Hquad) as Hchars.
    assert (Str.is_empty host = false) as ->.
    { destruct host; [done|reflexivity]. }
    rewrite (dotted_quad_chars_lower _ Hchars).
    rewrite find_all_false.
    2:{ intros blocked Hin.
        destruct (Str.endswith host blocked) eqn:Hends; [|done].
        pose proof (endswith_chars _ _ _ Hends Hchars) as Hb.
        simpl in Hin.
        repeat (destruct Hin as [<-|Hin]; [discriminate Hb|]). destruct Hin. }
    rewrite in_list_absent.
    2:{ intros Heq. by rewrite Heq in Hchars. }
    2:{ intros Heq. by rewrite Heq in Hv4. }
    rewrite Hquad. unfold Ipaddress.ip_address.
    by rewrite Hv4, (dotted_quad_not_v6 _ Hchars).
  - intros Hscheme Hcolon Hsuffix. rewrite Hscheme. cbn [negb].
    assert (Str.is_empty host = false) as ->.
    { destruct host; [done|reflexivity]. }
    rewrite (find_all_false
               (fun blocked => Str.endswith (Str.lower host) blocked) _
               Hsuffix).
    pose proof (char_in_lower ":" host eq_refl Hcolon) as Hlow.
    rewrite in_list_absent.
    2:{ intros Heq. by rewrite Heq in Hlow. }
    2:{ intros Heq. by rewrite Heq in Hlow. }
    destruct (dotted_quad_re host) eqn:Hquad; [|done].
    pose proof (char_in_all_chars _ _ _ Hcolon (dotted_quad_chars _ Hquad)).
    done.
Qed.

Lemma validate_url_rejects_private_ipv4_witness :
  (exists reason,
      validate_url "http://10.0.0.5/" = (false, reason) /\ reason <> "") /\
  validate_url "http://127.0.0.01/" = (true, "") /\
  validate_url "http://[fe80::1]/" = (true, "").
Proof.
  split; [|split].
  - apply (proj1 (validate_url_rejects_private_ipv4 "http://10.0.0.5/"
                    {| Urllib.scheme := "http"; Urllib.netloc := "10.0.0.5";
                       Urllib.path := "/"; Urllib.params := "";
                       Urllib.query := ""; Urllib.fragment := "" |} eq_refl)
             (ipv4 10 0 0 5)).
    + reflexivity.
    + unfold private_or_local, ipv4. lia.
  - apply (proj1 (proj2 (validate_url_rejects_private_ipv4
                           "http://127.0.0.01/"
                           {| Urllib.scheme := "http";
                              Urllib.netloc := "127.0.0.01";
                              Urllib.path := "/"; Urllib.params := "";
                              Urllib.query := ""; Urllib.fragment := "" |}
                           eq_refl))); reflexivity.
  - apply (proj2 (proj2 (validate_url_rejects_private_ipv4
                           "http://[fe80::1]/"
                           {| Urllib.scheme := "http";
                              Urllib.netloc := "[fe80::1]";
                              Urllib.path := "/"; Urllib.params := "";
                              Urllib.query := ""; Urllib.fragment := "" |}
                           eq_refl))); [reflexivity|reflexivity|].
    intros blocked Hin. simpl in Hin.
    repeat (destruct Hin as [<-|Hin]; [reflexivity|]). destruct Hin.
Defined.

(** C1 (as stated) fails twice over.  The IPv6 loopback literal [::1] is a
    valid address and its URL is accepted; and the loopback spelling
    [127.0.0.01] matches the dotted-quad pattern, is refused by [ipaddress]
    with a [ValueError], and its URL is accepted. *)
Lemma validate_url_accepts_unchecked_loopback :
  (exists parsed,
     Urllib.urlparse "http://[::1]/" "" = Ok parsed /\
     Urllib.hostname parsed = Some "::1" /\
     Ipaddress.ip_address "::1" = Ok (Ipaddress.IPv6Address 1 None) /\
     validate_url "http://[::1]/" = (true, "")) /\
  (exists parsed,
     Urllib.urlparse "http://127.0.0.01/" "" = Ok parsed /\
     Urllib.hostname parsed = Some "127.0.0.01" /\
     dotted_quad_re "127.0.0.01" = true /\
     (exists msg, Ipaddress.ip_address "127.0.0.01" = Raise (ValueError msg)) /\
     validate_url "http://127.0.0.01/" = (true, "")).
Proof.
  split; eexists; repeat split; try (vm_compute; reflexivity).
  eexists. vm_compute. reflexivity.
Qed.

(** ** [normalize_url] on an explicit http scheme *)

Lemma rstrip_keeps_http (rest : string) :
  Str.strip ("http://" +:+ rest) = "http://" +:+ Str.rstrip_by Str.is_space rest.
Proof.
  unfold Str.strip, Str.strip_by. simpl.
  rewrite !andb_false_r. reflexivity.
Qed.

Lemma urlsplit_scheme_http (x : string) (r : Urllib.ParseResult) :
  Urllib.urlsplit ("http://" +:+ x) "" = Ok r -> Urllib.scheme r = "http".
Proof.
  unfold Urllib.urlsplit. simpl.
  match goal with
  | |- exc_bind ?m _ = _ -> _ => destruct m as [[netloc rest]|e]; simpl; [|done]
  end.
  destruct (Str.partition "#" rest) as [[u f]|];
    [destruct (Str.partition "?" u) as [[u' q]|]
    |destruct (Str.partition "?" rest) as [[u' q]|]];
    simpl; intros [= <-]; reflexivity.
Qed.

Lemma urlparse_scheme_http (x : string) (r : Urllib.ParseResult) :
  Urllib.urlparse ("http://" +:+ x) "" = Ok r -> Urllib.scheme r = "http".
Proof.
  unfold Urllib.urlparse.
  destruct (Urllib.urlsplit _ _) as [r0|e] eqn:Hs; simpl; [|done].
  apply urlsplit_scheme_http in Hs.
  destruct (_ && _); [destruct (Urllib.splitparams _)|];
    intros [= <-]; simpl; exact Hs.
Qed.

Lemma urlunparse_http (netloc path params query fragment : string) :
  exists r,
    Urllib.urlunparse "http" netloc path params query fragment = "http://" +:+ r.
Proof.
  unfold Urllib.urlunparse, Urllib.urlunsplit.
  set (url := if negb (Str.is_empty params) then _ else path).
  change (Urllib.in_list "http" Urllib.uses_netloc) with true.
  change (negb (Str.is_empty "http")) with true.
  cbv iota. rewrite andb_true_l.
  assert (exists r, (if negb (Str.is_empty netloc) || negb (Str.startswith url "//")
                     then "//" +:+ netloc +:+
                          (if negb (Str.is_empty url) && negb (Str.startswith url "/")
                           then "/" +:+ url else url)
                     else url) = "//" +:+ r) as [r ->].
  { destruct (negb (Str.is_empty netloc) || negb (Str.startswith url "//")) eqn:Hc.
    - eauto.
    - apply orb_false_iff in Hc as [_ Hc]. apply negb_false_iff in Hc.
      apply startswith_spec in Hc as [t ->]. eauto. }
  destruct (negb (Str.is_empty query)), (negb (Str.is_empty fragment));
    simpl; rewrite ?append_assoc; simpl; eauto.
Qed.

(** C10 (as amended): on an input that begins with [http://], [normalize_url]
    raises exactly when the URL parser rejects the stripped input or its port
    is not a decimal number up to 65535; in every other case it returns a URL
    that begins with [http://]. *)
Theorem normalize_url_keeps_explicit_http (rest : string) :
  match Urllib.urlparse (Str.strip ("http://" +:+ rest)) "" with
  | Raise e => normalize_url ("http://" +:+ rest) = Raise e
  | Ok parsed =>
      match Urllib.port parsed with
      | Raise e => normalize_url ("http://" +:+ rest) = Raise e
      | Ok _ =>
          exists r, normalize_url ("http://" +:+ rest) = Ok ("http://" +:+ r)
      end
  end.
Proof.
  unfold normalize_url.
  rewrite rstrip_keeps_http.
  set (x := Str.rstrip_by Str.is_space rest).
  change (Str.startswith ("http://" +:+ x) "http://") with
    (Str.startswith (String "h" (String "t" (String "t" (String "p"
       (String ":" (String "/" (String "/" x))))))) "http://").
  cbn [Str.startswith Ascii.eqb Bool.eqb andb orb negb].
  destruct (Urllib.urlparse ("http://" +:+ x) "") as [parsed|e] eqn:Hp;
    simpl; [|reflexivity].
  rewrite (urlparse_scheme_http _ _ Hp).
  destruct (Urllib.port parsed) as [port|e]; simpl; [|reflexivity].
  change (negb (Str.eqb "http" "http")) with false. cbv iota.
  match goal with
  | |- exists r, Ok (Urllib.urlunparse "http" ?n ?p ?pa ?q ?f) = _ =>
      destruct (urlunparse_http n p pa q f) as [r ->]
  end.
  eauto.
Qed.

(** C10 (as stated) fails where the port is out of range: the call raises
    and no URL is returned. *)
Lemma normalize_url_raises_on_bad_port :
  Str.startswith "http://example.com:99999/" "http://" = true /\
  normalize_url "http://example.com:99999/" =
    Raise (ValueError "Port out of range 0-65535").
Proof. split; vm_compute; reflexivity. Qed.

(** ** The decompression cascade *)

Section DecompressionProperties.

Variable gzip_decompress : list byte -> exc (list byte).
Variable zlib_decompress : list byte -> exc (list byte).
Variable zlib_decompress_raw : list byte -> exc (list byte).
Variable brotli_decompress : list byte -> exc (list byte).

Local Abbreviation decompress :=
  (decompress_content gzip_decompress zlib_decompress zlib_decompress_raw
                      brotli_decompress).

Lemma contains_nonempty (s sub : string) :
  Str.contains (Str.lower s) sub = true -> Str.is_empty sub = false ->
  Str.is_empty s = false.
Proof. destruct s, sub; simpl; done. Qed.

Lemma decompress_content_returns (content : list byte) (encoding : string) :
  exists out, decompress content encoding = Ok out.
Proof.
  unfold decompress_content.
  destruct (Str.is_empty encoding); [eauto|].
  destruct (_ && looks_decompressed content); [eauto|].
  destruct (Str.contains (Str.lower encoding) "gzip").
  { destruct (gzip_decompress content); simpl; eauto. }
  destruct (Str.contains (Str.lower encoding) "deflate").
  { destruct (zlib_decompress content) as [out|e]; simpl; [eauto|].
    destruct e; simpl; eauto.
    destruct (zlib_decompress_raw content); simpl; eauto. }
  destruct (Str.contains (Str.lower encoding) "br").
  { destruct (brotli_decompress content); simpl; eauto. }
  simpl. eauto.
Qed.

(** C6: [decompress_content] returns on every input, and what it returns is
    the input itself unless the decoder selected by the encoding label
    succeeded: a failing gzip, deflate (zlib, then raw deflate after a
    [zlib.error]) or brotli attempt gives the input back unchanged. *)
Theorem decompress_content_never_raises (content : list byte)
    (encoding : string) :
  exists out,
    decompress content encoding = Ok out /\
    (out = content \/
     (Str.contains (Str.lower encoding) "gzip" = true /\
      gzip_decompress content = Ok out) \/
     (Str.contains (Str.lower encoding) "gzip" = false /\
      Str.contains (Str.lower encoding) "deflate" = true /\
      (zlib_decompress content = Ok out \/
       (exists msg, zlib_decompress content = Raise (ZlibError msg)) /\
       zlib_decompress_raw content = Ok out)) \/
     (Str.contains (Str.lower encoding) "gzip" = false /\
      Str.contains (Str.lower encoding) "deflate" = false /\
      Str.contains (Str.lower encoding) "br" = true /\
      brotli_decompress content = Ok out)).
Proof.
  unfold decompress_content.
  destruct (Str.is_empty encoding); [eauto|].
  destruct (_ && looks_decompressed content); [eauto|].
  destruct (Str.contains (Str.lower encoding) "gzip") eqn:Hgz.
  { destruct (gzip_decompress content) as [out|e] eqn:Hg; simpl; eauto 10. }
  destruct (Str.contains (Str.lower encoding) "deflate") eqn:Hdf.
  { destruct (zlib_decompress content) as [out|e] eqn:Hz; simpl; [eauto 10|].
    destruct e; simpl; eauto.
    destruct (zlib_decompress_raw content) as [out|e] eqn:Hr; simpl; [|eauto].
    eexists; split; [reflexivity|]. right; right; left. eauto 10. }
  destruct (Str.contains (Str.lower encoding) "br") eqn:Hbr.
  { destruct (brotli_decompress content) as [out|e] eqn:Hb; simpl; eauto 10. }
  simpl. eauto.
Qed.

Lemma looks_decompressed_nonempty (content : list byte) :
  looks_decompressed content = true -> (0 <? length content)%nat = true.
Proof. by destruct content. Qed.

(** C7 (as amended): an input whose first 100 bytes look like text to the
    guard is returned unchanged under every encoding label; a gzip stream
    that does not look like text is inflated to the bytes it encodes when the
    label names gzip. *)
Theorem decompress_content_guarded (content : list byte) (encoding : string) :
  (looks_decompressed content = true ->
   decompress content encoding = Ok content) /\
  (forall original,
     looks_decompressed content = false ->
     Str.contains (Str.lower encoding) "gzip" = true ->
     gzip_decompress content = Ok original ->
     decompress content encoding = Ok original).
Proof.
  unfold decompress_content. split.
  - intros Hlooks. rewrite (looks_decompressed_nonempty _ Hlooks), Hlooks.
    by destruct (Str.is_empty encoding).
  - intros original Hlooks Hgz Hok.
    rewrite (contains_nonempty _ _ Hgz eq_refl), Hlooks, andb_false_r, Hgz, Hok.
    reflexivity.
Qed.

End DecompressionProperties.

Lemma decompress_content_guarded_witness :
  decompress_content gzip_decompress_sample decoder_rejects decoder_rejects
    decoder_rejects gzip_html_stored "gzip" = Ok gzip_html_stored /\
  decompress_content gzip_decompress_sample decoder_rejects decoder_rejects
    decoder_rejects gzip_hello_world "gzip" = Ok bytes_hello_world.
Proof.
  split.
  - apply (proj1 (decompress_content_guarded gzip_decompress_sample
                    decoder_rejects decoder_rejects decoder_rejects
                    gzip_html_stored "gzip")).
    reflexivity.
  - apply (proj2 (decompress_content_guarded gzip_decompress_sample
                    decoder_rejects decoder_rejects decoder_rejects
                    gzip_hello_world "gzip"));
      reflexivity.
Defined.

(** C7 (as stated) fails on a gzip stream that looks like text: the stored
    block of [b'html'] holds the letters [html], so the guard returns the
    compressed bytes. *)
Lemma decompress_content_gzip_roundtrip_fails :
  gzip_decompress_sample gzip_html_stored = Ok bytes_html /\
  looks_decompressed gzip_html_stored = true /\
  decompress_content gzip_decompress_sample decoder_rejects decoder_rejects
    decoder_rejects gzip_html_stored "gzip" = Ok gzip_html_stored /\
  gzip_html_stored <> bytes_html.
Proof. repeat split; try (vm_compute; reflexivity). discriminate. Qed.

(** ** The rewriter *)

Lemma lower_app (a b : string) :
  Str.lower (a +:+ b) = Str.lower a +:+ Str.lower b.
Proof. induction a as [|c a IH]; simpl; [done|by f_equal]. Qed.

Lemma length_app (a b : string) :
  String.length (a +:+ b) = (String.length a + String.length b)%nat.
Proof. induction a as [|c a IH]; simpl; [done|by f_equal]. Qed.

Lemma take_app (a b : string) : Str.take (String.length a) (a +:+ b) = a.
Proof. induction a as [|c a IH]; simpl; [by destruct b|by f_equal]. Qed.

Lemma drop_app (a b : string) : Str.drop (String.length a) (a +:+ b) = b.
Proof. induction a as [|c a IH]; simpl; done. Qed.

Lemma contains_app_r (a s sub : string) :
  Str.contains s sub = true -> Str.contains (a +:+ s) sub = true.
Proof. induction a as [|c a IH]; simpl; [done|]. intros H. rewrite IH by done. apply orb_true_r. Qed.

Lemma sub_from_skip (p : Re.pattern) repl (k : nat) (s : string) :
  Re.sub_from p repl k s = Re.sub_from p repl O (Str.drop k s).
Proof.
  revert s; induction k as [|k IH]; intros s; [by destruct s|].
  destruct s as [|c r]; [done|]. simpl. apply IH.
Qed.

Lemma match_literal_ci_split (lit s rest : string) :
  Re.match_literal_ci lit s = Some rest ->
  exists pre, s = pre +:+ rest /\ String.length pre = String.length lit.
Proof.
  revert s; induction lit as [|a lit IH]; intros s; simpl.
  - intros [= ->]. by exists "".
  - destruct s as [|b s]; [done|].
    destruct (Ascii.eqb a (Str.lower_char b)); [|done].
    intros H. destruct (IH _ H) as (pre & -> & Hlen).
    exists (String b pre). simpl. by rewrite Hlen.
Qed.

Lemma span_split (p : ascii -> bool) (s a b : string) :
  Re.span p s = (a, b) -> s = a +:+ b.
Proof.
  revert a b; induction s as [|c s IH]; intros a b; simpl.
  - by intros [= <- <-].
  - destruct (p c).
    + destruct (Re.span p s) as [a' b'] eqn:Hs. intros [= <- <-].
      simpl. f_equal. by apply IH.
    + by intros [= <- <-].
Qed.

(** A match of an open tag is a prefix of the text that ends in [>]. *)
Lemma open_tag_re_match (tag s : string) (m : Re.match_object) :
  Re.open_tag_re tag s = Some m ->
  exists pre rest,
    Re.group0 m = pre +:+ ">" /\ Re.group1 m = Re.group0 m /\
    s = Re.group0 m +:+ rest.
Proof.
  unfold Re.open_tag_re.
  destruct (Re.match_literal_ci tag s) as [rest0|] eqn:Hlit; simpl; [|done].
  destruct (match_literal_ci_split _ _ _ Hlit) as (pre & -> & Hlen).
  destruct (Re.span _ rest0) as [attrs after] eqn:Hspan.
  apply span_split in Hspan as ->.
  destruct after as [|c after]; [done|].
  destruct c as [[] [] [] [] [] [] [] []]; try done.
  intros [= <-]. simpl.
  exists (pre +:+ attrs), after.
  assert (Str.take (String.length tag + String.length attrs + 1)
            (pre +:+ attrs +:+ String ">" after) = (pre +:+ attrs) +:+ ">") as ->.
  { rewrite <- Hlen.
    replace (pre +:+ attrs +:+ String ">" after)
      with (((pre +:+ attrs) +:+ ">") +:+ after)
      by (rewrite !append_assoc; reflexivity).
    replace (String.length pre + String.length attrs + 1)%nat
      with (String.length ((pre +:+ attrs) +:+ ">"))
      by (rewrite !length_app; simpl; lia).
    apply take_app. }
  repeat split. rewrite !append_assoc. reflexivity.
Qed.

Lemma drop_after_match (c : ascii) (r g rest pre : string) :
  String c r = g +:+ rest -> g = pre +:+ ">" ->
  Str.drop (String.length g - 1) r = rest.
Proof.
  intros Hs Hg. destruct g as [|d g]; [by destruct pre|].
  simpl in Hs. injection Hs as _ ->.
  simpl. rewrite Nat.sub_0_r. apply drop_app.
Qed.

Lemma inserted_after_match (t pre s out : string) :
  inserted t s out ->
  inserted t ((pre +:+ ">") +:+ s) ((pre +:+ ">") +:+ t +:+ out).
Proof.
  intros H. induction pre as [|c pre IH]; simpl.
  - by apply inserted_here.
  - by apply inserted_char.
Qed.

Lemma sub_open_tag_inserted (tag t : string) (n : nat) (s : string) :
  (String.length s <= n)%nat ->
  exists out,
    Re.sub (Re.open_tag_re tag) (fun m => Ok (Re.group1 m +:+ t)) s = Ok out /\
    inserted t s out.
Proof.
  unfold Re.sub. revert s; induction n as [|n IH]; intros s Hlen.
  { destruct s; [|simpl in Hlen; lia]. exists "". split; [done|constructor]. }
  destruct s as [|c r]; [exists ""; split; [done|constructor]|].
  simpl in Hlen. cbn [Re.sub_from].
  destruct (Re.open_tag_re tag (String c r)) as [m|] eqn:Hm.
  - destruct (open_tag_re_match _ _ _ Hm) as (pre & rest & Hg & Hg1 & Hs).
    rewrite sub_from_skip.
    rewrite (drop_after_match _ _ _ _ pre Hs Hg).
    assert (String.length rest <= n)%nat as Hrest.
    { apply (f_equal String.length) in Hs. rewrite length_app, Hg, length_app in Hs.
      simpl in Hs. lia. }
    destruct (IH rest Hrest) as (out & -> & Hins).
    simpl. eexists; split; [reflexivity|].
    rewrite Hs, Hg1, Hg. rewrite (append_assoc (pre +:+ ">") t out).
    by apply inserted_after_match.
  - destruct (IH r ltac:(lia)) as (out & -> & Hins).
    simpl. eexists; split; [reflexivity|]. by constructor.
Qed.

Lemma inserted_startswith (t s out needle : string) :
  Str.all_chars (fun c => negb (Ascii.eqb c ">")) needle = true ->
  inserted t s out ->
  Str.startswith (Str.lower s) needle = true ->
  Str.startswith (Str.lower out) needle = true.
Proof.
  intros Hn Hins. revert needle Hn.
  induction Hins as [|c s out Hins IH|s out Hins IH]; intros needle Hn; simpl.
  - done.
  - destruct needle as [|a needle]; [done|]. simpl in *.
    rewrite !andb_true_iff in *. intros [? ?]. destruct Hn. split; auto.
  - destruct needle as [|a needle]; [done|]. simpl in *.
    rewrite !andb_true_iff in *. intros [Ha _]. destruct Hn as [Hn _].
    apply Ascii.eqb_eq in Ha. subst a. done.
Qed.

Lemma inserted_contains (t s out needle : string) :
  Str.all_chars (fun c => negb (Ascii.eqb c ">")) needle = true ->
  inserted t s out ->
  Str.contains (Str.lower s) needle = true ->
  Str.contains (Str.lower out) needle = true.
Proof.
  intros Hn Hins.
  induction Hins as [|c s out Hins IH|s out Hins IH].
  - done.
  - intros H. simpl in H. apply orb_true_iff in H as [H|H].
    + pose proof (inserted_startswith t _ _ needle Hn
                    (inserted_char t c s out Hins)) as Hs.
      simpl in *. rewrite (Hs H). reflexivity.
    + simpl. rewrite (IH H). apply orb_true_r.
  - intros H. simpl in H. apply orb_true_iff in H as [H|H].
    + pose proof (inserted_startswith t _ _ needle Hn
                    (inserted_here t s out Hins)) as Hs.
      simpl in *. rewrite (Hs H). reflexivity.
    + change (String ">" (t +:+ out)) with ((String ">" t) +:+ out).
      rewrite lower_app. apply contains_app_r. auto.
Qed.

Lemma match_literal_ci_some (a b s : string) :
  Str.startswith (Str.lower s) (a +:+ b) = true ->
  exists rest,
    Re.match_literal_ci a s = Some rest /\
    Str.startswith (Str.lower rest) b = true.
Proof.
  revert s; induction a as [|c a IH]; intros s; simpl; [eauto|].
  destruct s as [|d s]; [done|]. simpl.
  destruct (Ascii.eqb c (Str.lower_char d)); simpl; [apply IH|done].
Qed.

Lemma startswith_app_l (s b p : string) :
  Str.startswith s p = true -> Str.startswith (s +:+ b) p = true.
Proof.
  revert s; induction p as [|a p IH]; intros s; simpl; [done|].
  destruct s as [|c s]; [done|]. simpl.
  rewrite !andb_true_iff. intros [? ?]. auto.
Qed.

Lemma contains_app_l (s b sub : string) :
  Str.contains s sub = true -> Str.contains (s +:+ b) sub = true.
Proof.
  induction s as [|c s IH]; simpl.
  - rewrite orb_false_r. intros H.
    pose proof (startswith_app_l "" b sub H) as Hb. simpl in Hb.
    destruct b; simpl; by rewrite Hb.
  - rewrite !orb_true_iff. intros [H|H]; [left|right; auto].
    apply (startswith_app_l (String c s) b sub H).
Qed.

Lemma startswith_self (t b : string) : Str.startswith (t +:+ b) t = true.
Proof.
  induction t as [|c t IH]; simpl; [done|]. by rewrite Ascii.eqb_refl.
Qed.

Lemma contains_middle (a t b : string) :
  Str.contains (a +:+ t +:+ b) t = true.
Proof.
  apply contains_app_r.
  pose proof (startswith_self t b) as H.
  destruct (t +:+ b); simpl; by rewrite H.
Qed.

Lemma open_tag_re_at_tag (tag s : string) :
  Str.startswith (Str.lower s) (tag +:+ ">") = true ->
  exists m, Re.open_tag_re tag s = Some m.
Proof.
  intros H. destruct (match_literal_ci_some _ _ _ H) as (rest & Hlit & Hgt).
  unfold Re.open_tag_re. rewrite Hlit. simpl.
  destruct rest as [|c rest]; [done|].
  assert (c = ">"%char) as ->.
  { destruct c as [[] [] [] [] [] [] [] []]; done. }
  simpl. eauto.
Qed.

Lemma inserted_length (t s out : string) :
  inserted t s out -> (String.length s <= String.length out)%nat.
Proof.
  induction 1 as [|c s out _ IH|s out _ IH]; simpl; [lia|lia|].
  rewrite length_app. lia.
Qed.

(** When the tag is in the page, the substitution puts the text after its
    first match: the result is the page up to the end of that match, the
    text, and the rest of the page with the text put after its matches. *)
Lemma sub_open_tag_puts (tag t s : string) :
  Str.contains (Str.lower s) (tag +:+ ">") = true ->
  exists pre rest post,
    s = pre +:+ rest /\
    Re.sub (Re.open_tag_re tag) (fun m => Ok (Re.group1 m +:+ t)) s
    = Ok (pre +:+ t +:+ post) /\
    inserted t rest post.
Proof.
  unfold Re.sub. induction s as [|c r IH]; intros Hin.
  { simpl in Hin. rewrite orb_false_r in Hin.
    destruct (open_tag_re_at_tag tag "" Hin) as [m Hm].
    unfold Re.open_tag_re in Hm.
    destruct (Re.match_literal_ci tag "") as [rest|] eqn:Hlit; [|done].
    destruct (match_literal_ci_split _ _ _ Hlit) as (pre & Hpre & _).
    destruct pre; [|done]. simpl in Hpre. subst rest. done. }
  cbn [Re.sub_from].
  destruct (Re.open_tag_re tag (String c r)) as [m|] eqn:Hm.
  - destruct (open_tag_re_match _ _ _ Hm) as (pre & rest & Hg & Hg1 & Hs).
    rewrite sub_from_skip, (drop_after_match _ _ _ _ pre Hs Hg).
    destruct (sub_open_tag_inserted tag t (String.length rest) rest
                ltac:(lia)) as (out & Hout & Hins).
    unfold Re.sub in Hout. rewrite Hout. cbn [exc_bind].
    exists (Re.group1 m), rest, out.
    split; [by rewrite Hg1|]. split; [by rewrite append_assoc|done].
  - simpl in Hin. apply orb_true_iff in Hin as [Hin|Hin].
    { destruct (open_tag_re_at_tag tag (String c r) Hin) as [m' Hm'].
      by rewrite Hm' in Hm. }
    destruct (IH Hin) as (pre & rest & post & -> & -> & Hins).
    cbn [exc_bind]. by exists (String c pre), rest, post.
Qed.

Lemma sub_from_ext (p : Re.pattern) (repl1 repl2 : Re.match_object -> exc string)
    (k : nat) (s : string) :
  (forall m, repl1 m = repl2 m) ->
  Re.sub_from p repl1 k s = Re.sub_from p repl2 k s.
Proof.
  intros Hext. revert k; induction s as [|c r IH]; intros k; [done|].
  simpl. destruct k as [|k]; [|apply IH].
  destruct (p (String c r)) as [m|]; simpl.
  - rewrite Hext. destruct (repl2 m); simpl; [|done]. by rewrite IH.
  - by rewrite IH.
Qed.

(** The two templates of the bridge step parse, and expand to the match
    followed by the injected text. *)
Lemma head_template_expands :
  exists items,
    Re.parse_template 1 ("\1" +:+ postmessage_script) = Ok items /\
    forall m, Re.expand_template items m = Re.group1 m +:+ postmessage_script.
Proof.
  eexists. split; [vm_compute; reflexivity|].
  intros m. vm_compute. reflexivity.
Qed.

Lemma html_template_expands :
  exists items,
    Re.parse_template 1 ("\1<head>" +:+ postmessage_script +:+ "</head>")
      = Ok items /\
    forall m, Re.expand_template items m =
              Re.group1 m +:+ "<head>" +:+ postmessage_script +:+ "</head>".
Proof.
  eexists. split; [vm_compute; reflexivity|].
  intros m. vm_compute. reflexivity.
Qed.

Lemma sub_template_inserted (tag template t html : string) :
  (exists items,
      Re.parse_template 1 template = Ok items /\
      forall m, Re.expand_template items m = Re.group1 m +:+ t) ->
  exists out,
    Re.sub_template (Re.open_tag_re tag) 1 template html = Ok out /\
    inserted t html out.
Proof.
  intros (items & Hparse & Hexp).
  unfold Re.sub_template. rewrite Hparse. simpl. unfold Re.sub.
  rewrite (sub_from_ext _ _ (fun m => Ok (Re.group1 m +:+ t))) by
    (intros m; by rewrite Hexp).
  apply (sub_open_tag_inserted tag t (String.length html)). lia.
Qed.

(** The bridge step returns, and only puts text after [>] characters. *)
Lemma inject_bridge_inserted (html : string) :
  exists t out, inject_bridge html = Ok out /\ inserted t html out.
Proof.
  unfold inject_bridge.
  destruct (Str.contains (Str.lower html) "<head>").
  { destruct (sub_template_inserted "<head" _ _ html head_template_expands)
      as (out & Hout & Hins). eauto. }
  destruct (Str.contains (Str.lower html) "<html>").
  { destruct (sub_template_inserted "<html" _ _ html html_template_expands)
      as (out & Hout & Hins). eauto. }
  exists "", html. split; [done|].
  induction html; constructor; done.
Qed.

(** C9: on a page that holds neither [<head>] nor [<html>] (in any case)
    the rewriter injects nothing: its result is that of the attribute and
    CSS rewriting steps alone, on the page as given (and the page itself
    when the final URL does not parse). *)
Theorem rewrite_without_head_or_html (html base_url session_token : string) :
  Str.contains (Str.lower html) "<head>" = false ->
  Str.contains (Str.lower html) "<html>" = false ->
  rewrite_html_content html base_url session_token =
    match Urllib.urlparse base_url "" with
    | Raise _ => html
    | Ok _ =>
        fst (run_steps [rewrite_attributes base_url; rewrite_css base_url] html)
    end.
Proof.
  intros Hhead Hhtml. unfold rewrite_html_content.
  destruct (Urllib.urlparse base_url "") as [parsed|e]; [|done].
  cbn [run_steps]. unfold inject_bridge at 1. rewrite Hhead, Hhtml.
  unfold inject_base at 1. rewrite Hhead. reflexivity.
Qed.

Lemma rewrite_without_head_or_html_witness :
  rewrite_html_content "<div><a href='//cdn.example.com/a'>x</a></div>"
    "https://example.com/" "s" =
  "<div><a href='=" +:+ dquote +:+ "https://cdn.example.com/a" +:+ dquote +:+
  ">x</a></div>".
Proof.
  rewrite (rewrite_without_head_or_html
             "<div><a href='//cdn.example.com/a'>x</a></div>"
             "https://example.com/" "s"); reflexivity.
Defined.

(** The replacement template of the [<base>] step: a group reference and
    then, when the final URL's scheme and host hold no backslash, text that
    stands for itself. *)
Lemma parse_template_char (c : ascii) (r : string) (fuel : nat) (groups : Z) :
  Ascii.eqb c "\" = false ->
  Re.parse_template_from (S fuel) groups (String c r) =
  (let! items := Re.parse_template_from fuel groups r in
   Ok (Re.Literal (String c "") :: items)).
Proof.
  destruct c as [[] [] [] [] [] [] [] []]; intros H;
    try discriminate H; reflexivity.
Qed.

Lemma parse_template_literal (groups : Z) (s : string) (fuel : nat) :
  Str.all_chars (fun d => negb (Ascii.eqb d "\")) s = true ->
  (String.length s <= fuel)%nat ->
  exists items,
    Re.parse_template_from fuel groups s = Ok items /\
    forall m, Re.expand_template items m = s.
Proof.
  revert fuel; induction s as [|c r IH]; intros fuel Hs Hlen.
  - exists []. split; [by destruct fuel|done].
  - destruct fuel as [|fuel]; [simpl in Hlen; lia|].
    simpl in Hs. apply andb_true_iff in Hs as [Hc Hr].
    apply negb_true_iff in Hc.
    rewrite (parse_template_char _ _ _ _ Hc).
    destruct (IH fuel Hr ltac:(simpl in Hlen; lia)) as (items & -> & Hexp).
    cbn [exc_bind]. eexists; split; [reflexivity|].
    intros m. cbn [Re.expand_template]. by rewrite Hexp.
Qed.

Lemma parse_template_group1 (r : string) (fuel : nat) :
  Re.parse_template_from (S fuel) 1 (String "\" (String "1" (String "<" r))) =
  (let! items := Re.parse_template_from fuel 1 (String "<" r) in
   Ok (Re.GroupRef 1 :: items)).
Proof. reflexivity. Qed.

Lemma base_template_expands (base_domain : string) :
  Str.all_chars (fun d => negb (Ascii.eqb d "\")) base_domain = true ->
  exists items,
    Re.parse_template 1
      ("\1<base href=" +:+ dquote +:+ base_domain +:+ "/" +:+ dquote +:+ ">")
    = Ok items /\
    forall m, Re.expand_template items m =
              Re.group1 m +:+
              ("<base href=" +:+ dquote +:+ base_domain +:+ "/" +:+
               dquote +:+ ">").
Proof.
  intros Hd.
  set (r := "base href=" +:+ dquote +:+ base_domain +:+ "/" +:+ dquote +:+ ">").
  change ("\1<base href=" +:+ dquote +:+ base_domain +:+ "/" +:+ dquote +:+ ">")
    with (String "\" (String "1" (String "<" r))).
  change ("<base href=" +:+ dquote +:+ base_domain +:+ "/" +:+ dquote +:+ ">")
    with (String "<" r).
  unfold Re.parse_template.
  change (String.length (String "\" (String "1" (String "<" r))))
    with (S (S (S (String.length r)))).
  rewrite parse_template_group1.
  destruct (parse_template_literal 1 (String "<" r) (S (S (String.length r))))
    as (items & -> & Hexp).
  - change (String "<" r) with ("<" +:+ r). subst r.
    rewrite !all_chars_app, Hd. reflexivity.
  - simpl. lia.
  - cbn [exc_bind]. eexists; split; [reflexivity|].
    intros m. cbn [Re.expand_template]. by rewrite Hexp.
Qed.

(** The bridge step has no guard: where the page holds [<head>] or
    [<html>], it puts the script in, and the page grows by the script at
    least. *)
Lemma inject_bridge_grows (html : string) :
  Str.contains (Str.lower html) "<head>" = true \/
  Str.contains (Str.lower html) "<html>" = true ->
  exists pre post,
    inject_bridge html = Ok (pre +:+ postmessage_script +:+ post) /\
    (String.length html + String.length postmessage_script
     <= String.length (pre +:+ postmessage_script +:+ post))%nat.
Proof.
  intros Hin. unfold inject_bridge.
  destruct (Str.contains (Str.lower html) "<head>") eqn:Hhead.
  - destruct head_template_expands as (items & Hparse & Hexp).
    unfold Re.sub_template. rewrite Hparse. cbn [exc_bind]. unfold Re.sub.
    rewrite (sub_from_ext _ _ (fun m => Ok (Re.group1 m +:+ postmessage_script)))
      by (intros m; by rewrite Hexp).
    destruct (sub_open_tag_puts "<head" postmessage_script html Hhead)
      as (pre & rest & post & -> & Hout & Hins).
    unfold Re.sub in Hout. rewrite Hout.
    exists pre, post. split; [done|].
    apply inserted_length in Hins. rewrite !length_app. lia.
  - destruct Hin as [Hin|Hhtml]; [done|]. rewrite Hhtml.
    destruct html_template_expands as (items & Hparse & Hexp).
    unfold Re.sub_template. rewrite Hparse. cbn [exc_bind]. unfold Re.sub.
    rewrite (sub_from_ext _ _
               (fun m => Ok (Re.group1 m +:+
                             ("<head>" +:+ postmessage_script +:+ "</head>"))))
      by (intros m; by rewrite Hexp).
    destruct (sub_open_tag_puts "<html"
                ("<head>" +:+ postmessage_script +:+ "</head>") html Hhtml)
      as (pre & rest & post & -> & Hout & Hins).
    unfold Re.sub in Hout. rewrite Hout.
    exists (pre +:+ "<head>"), ("</head>" +:+ post).
    split; [by rewrite !append_assoc|].
    apply inserted_length in Hins. rewrite !length_app. lia.
Qed.

(** The [<base>] step puts its tag in when the page holds [<head>] and no
    [<base]. *)
Lemma inject_base_puts_tag (base_domain html : string) :
  Str.contains (Str.lower html) "<head>" = true ->
  Str.contains (Str.lower html) "<base" = false ->
  Str.all_chars (fun c => negb (Ascii.eqb c "\")) base_domain = true ->
  exists pre post,
    inject_base base_domain html =
      Ok (pre +:+
          ("<base href=" +:+ dquote +:+ base_domain +:+ "/" +:+ dquote +:+ ">")
          +:+ post).
Proof.
  intros Hhead Hbase Hd. unfold inject_base. rewrite Hhead, Hbase. cbn [negb andb].
  destruct (base_template_expands base_domain Hd) as (items & Hparse & Hexp).
  unfold Re.sub_template. rewrite Hparse. cbn [exc_bind]. unfold Re.sub.
  rewrite (sub_from_ext _ _
             (fun m => Ok (Re.group1 m +:+
                           ("<base href=" +:+ dquote +:+ base_domain +:+ "/"
                            +:+ dquote +:+ ">"))))
    by (intros m; by rewrite Hexp).
  destruct (sub_open_tag_puts "<head"
              ("<base href=" +:+ dquote +:+ base_domain +:+ "/" +:+ dquote
               +:+ ">") html Hhead)
    as (pre & rest & post & _ & Hout & _).
  unfold Re.sub in Hout. rewrite Hout. eauto.
Qed.

(** C8 (as amended): only the [<base>] tag is guarded against repetition.
    On a page that already holds [<base] (in any case) the rewriter injects
    no [<base>] tag: its result is that of the bridge, attribute and CSS
    steps alone.  The [<base>] step itself, on a page with [<head>] and
    without [<base], puts the tag in (for a final URL whose scheme and host
    hold no backslash), so that what it returns meets the guard.  The bridge
    step has no guard: on every page that holds [<head>] or [<html>],
    rewritten before or not, it puts the script in again, and the page
    grows by the length of the script at least. *)
Theorem rewrite_skips_base_when_present (html base_url session_token : string) :
  (Str.contains (Str.lower html) "<base" = true ->
   rewrite_html_content html base_url session_token =
     match Urllib.urlparse base_url "" with
     | Raise _ => html
     | Ok _ =>
         fst (run_steps [inject_bridge; rewrite_attributes base_url;
                         rewrite_css base_url] html)
     end) /\
  (forall base_domain,
     Str.contains (Str.lower html) "<head>" = true ->
     Str.contains (Str.lower html) "<base" = false ->
     Str.all_chars (fun c => negb (Ascii.eqb c "\")) base_domain = true ->
     exists pre post,
       inject_base base_domain html =
         Ok (pre +:+
             ("<base href=" +:+ dquote +:+ base_domain +:+ "/" +:+ dquote
              +:+ ">") +:+ post)) /\
  (Str.contains (Str.lower html) "<head>" = true \/
   Str.contains (Str.lower html) "<html>" = true ->
   exists pre post,
     inject_bridge html = Ok (pre +:+ postmessage_script +:+ post) /\
     (String.length html + String.length postmessage_script
      <= String.length (pre +:+ postmessage_script +:+ post))%nat).
Proof.
  split; [|split].
  - intros Hbase. unfold rewrite_html_content.
    destruct (Urllib.urlparse base_url "") as [parsed|e]; [|done].
    cbn [run_steps].
    destruct (inject_bridge_inserted html) as (t & out & -> & Hins).
    unfold inject_base.
    rewrite (inserted_contains t html out "<base" eq_refl Hins Hbase).
    rewrite andb_false_r. reflexivity.
  - intros base_domain. apply inject_base_puts_tag.
  - apply inject_bridge_grows.
Qed.

Lemma rewrite_skips_base_when_present_witness :
  count_occurrences
    (Str.lower (rewrite_html_content
                  "<head><BASE href='/app/'></head>" "http://example.com/" "s"))
    "<base" = 1%nat /\
  (exists pre post,
     inject_base "http://example.com" "<head></head>" =
       Ok (pre +:+
           ("<base href=" +:+ dquote +:+ "http://example.com" +:+ "/" +:+
            dquote +:+ ">") +:+ post)) /\
  (exists pre post,
     inject_bridge "<head></head>" = Ok (pre +:+ postmessage_script +:+ post) /\
     (String.length "<head></head>" + String.length postmessage_script
      <= String.length (pre +:+ postmessage_script +:+ post))%nat).
Proof.
  split; [|split].
  - rewrite (proj1 (rewrite_skips_base_when_present
                      "<head><BASE href='/app/'></head>"
                      "http://example.com/" "s") eq_refl).
    reflexivity.
  - apply (proj1 (proj2 (rewrite_skips_base_when_present
                           "<head></head>" "http://example.com/" "s")));
      reflexivity.
  - apply (proj2 (proj2 (rewrite_skips_base_when_present
                           "<head></head>" "http://example.com/" "s"))).
    left. reflexivity.
Defined.

(** C8 (as stated) fails for the bridge script: a second run injects it
    again, while the [<base>] tag stays single. *)
Lemma rewrite_twice_duplicates_bridge :
  let once := rewrite_html_content "<html><head></head></html>"
                "http://example.com/" "s" in
  let twice := rewrite_html_content once "http://example.com/" "s" in
  count_occurrences once postmessage_script = 1%nat /\
  count_occurrences twice postmessage_script = 2%nat /\
  count_occurrences once "<base" = 1%nat /\
  count_occurrences twice "<base" = 1%nat.
Proof. vm_compute. repeat split. Qed.

(** C3: the handler returns the rebound [html].  An anchor whose URL the
    parser rejects makes the attribute step raise after the bridge script and
    the [<base>] tag went in, and the result is that partly rewritten page. *)
Lemma rewrite_returns_partial_result_on_error :
  let html := "<head><a href=" +:+ dquote +:+ "http://[x" +:+ dquote +:+ ">" in
  Urllib.urljoin "http://example.com/" "http://[x"
    = Raise (ValueError "Invalid IPv6 URL") /\
  rewrite_html_content html "http://example.com/" "s" =
    "<head><base href=" +:+ dquote +:+ "http://example.com/" +:+ dquote +:+ ">"
    +:+ postmessage_script +:+
    "<a href=" +:+ dquote +:+ "http://[x" +:+ dquote +:+ ">" /\
  rewrite_html_content html "http://example.com/" "s" <> html.
Proof.
  cbv zeta. split; [vm_compute; reflexivity|].
  split; [vm_compute; reflexivity|].
  vm_compute. discriminate.
Qed.

(** ** The two fetch entry points *)

(** What [store_response_cookies] does, by the outcome of [dict(jar)]. *)
Lemma store_response_cookies_ok (session_cookies : cookie_store)
    (session_id : string) (jar : cookie_jar) (new_cookies : gmap string string) :
  CookieJar.to_dict jar = Ok new_cookies ->
  store_response_cookies session_cookies session_id jar =
  Ok (match jar with
      | [] => session_cookies
      | _ :: _ => set_session_cookies session_cookies session_id new_cookies
      end).
Proof.
  intros Hdict. unfold store_response_cookies.
  destruct jar; [done|]. by rewrite Hdict.
Qed.

Lemma store_response_cookies_raises (session_cookies : cookie_store)
    (session_id : string) (jar : cookie_jar) (e : exn) :
  CookieJar.to_dict jar = Raise e ->
  store_response_cookies session_cookies session_id jar = Raise e.
Proof.
  intros Hdict. unfold store_response_cookies.
  destruct jar; [done|]. by rewrite Hdict.
Qed.

Section FetchProperties.

Variable gzip_decompress : list byte -> exc (list byte).
Variable zlib_decompress : list byte -> exc (list byte).
Variable zlib_decompress_raw : list byte -> exc (list byte).
Variable brotli_decompress : list byte -> exc (list byte).
Variable http_get : string -> gmap string string -> fetch_outcome.
Variable decode_content : list byte -> gmap string (string * string) -> string.
Variable unquote : string -> string.

Local Abbreviation decompressed :=
  (decompressed_content gzip_decompress zlib_decompress zlib_decompress_raw
                        brotli_decompress).
Local Abbreviation resource :=
  (proxy_resource gzip_decompress zlib_decompress zlib_decompress_raw
                  brotli_decompress http_get unquote).
Local Abbreviation page :=
  (proxy_request gzip_decompress zlib_decompress zlib_decompress_raw
                 brotli_decompress http_get decode_content).

Lemma proxy_resource_fetched (session_cookies : cookie_store)
    (resource_url : string) (session : option string) (reason : string)
    (response : Response) :
  Str.is_empty resource_url = false ->
  validate_url (unquote resource_url) = (true, reason) ->
  http_get (unquote resource_url)
           (get_session_cookies session_cookies (default "anonymous" session))
    = Fetched response ->
  resource session_cookies
           {| arg_url := Some resource_url; arg_session := session |} =
  match decompressed response with
  | Ok body =>
      ResourceBody body
        (headers_get response "content-type" "application/octet-stream")
  | Raise _ => ResourceError 500 "Failed to fetch resource"
  end.
Proof.
  intros Hne Hvalid Hget. unfold proxy_resource. simpl.
  rewrite Hne, Hvalid, Hget. reflexivity.
Qed.

(** The page fetch does enforce the ceiling (for a response whose cookies
    the jar can give as a [dict]). *)
Lemma proxy_request_rejects_oversize (session_cookies : cookie_store)
    (original_url target_url reason : string) (session : option string)
    (response : Response) (new_cookies : gmap string string)
    (body : list byte) :
  normalize_url original_url = Ok target_url ->
  validate_url target_url = (true, reason) ->
  http_get target_url
           (get_session_cookies session_cookies (default "anonymous" session))
    = Fetched response ->
  CookieJar.to_dict (cookies response) = Ok new_cookies ->
  decompressed response = Ok body ->
  MAX_RESPONSE_SIZE < Z.of_nat (length body) ->
  snd (page session_cookies
            (Some {| json_url := Some original_url; json_sessionId := session |}))
  = JsonError 413 "Response too large. Maximum size is 50.0MB" false.
Proof.
  intros Hnorm Hvalid Hget Hdict Hbody Hsize. unfold proxy_request.
  rewrite Hnorm, Hvalid, Hget, (store_response_cookies_ok _ _ _ _ Hdict), Hbody.
  apply Z.ltb_lt in Hsize. rewrite Hsize. reflexivity.
Qed.

(** C2: the resource fetch has no size check.  A body over
    [MAX_RESPONSE_SIZE] after decompression is sent to the caller whole,
    where the page fetch answers 413. *)
Theorem proxy_resource_forwards_oversize_body (session_cookies : cookie_store)
    (resource_url : string) (session : option string) (reason : string)
    (response : Response) (body : list byte) :
  Str.is_empty resource_url = false ->
  validate_url (unquote resource_url) = (true, reason) ->
  http_get (unquote resource_url)
           (get_session_cookies session_cookies (default "anonymous" session))
    = Fetched response ->
  decompressed response = Ok body ->
  MAX_RESPONSE_SIZE < Z.of_nat (length body) ->
  resource session_cookies
           {| arg_url := Some resource_url; arg_session := session |} =
  ResourceBody body
    (headers_get response "content-type" "application/octet-stream").
Proof.
  intros Hne Hvalid Hget Hbody _.
  rewrite (proxy_resource_fetched _ _ _ _ _ Hne Hvalid Hget), Hbody.
  reflexivity.
Qed.

(** C4 (as amended): a fetched resource is returned as the upstream bytes
    after decompression, under the upstream content type, whatever that type
    is; no rewriting is applied, to style sheets no more than to anything
    else. *)
Theorem proxy_resource_never_rewrites (session_cookies : cookie_store)
    (resource_url : string) (session : option string) (reason : string)
    (response : Response) :
  Str.is_empty resource_url = false ->
  validate_url (unquote resource_url) = (true, reason) ->
  http_get (unquote resource_url)
           (get_session_cookies session_cookies (default "anonymous" session))
    = Fetched response ->
  exists body,
    decompressed response = Ok body /\
    (body = content response \/
     Str.is_empty (Str.lower (headers_get response "content-encoding" ""))
       = false) /\
    resource session_cookies
             {| arg_url := Some resource_url; arg_session := session |} =
    ResourceBody body
      (headers_get response "content-type" "application/octet-stream").
Proof.
  intros Hne Hvalid Hget.
  rewrite (proxy_resource_fetched _ _ _ _ _ Hne Hvalid Hget).
  unfold decompressed_content.
  destruct (Str.is_empty (Str.lower _)) eqn:Henc; simpl.
  - eexists; split; [reflexivity|]. split; [by left|reflexivity].
  - destruct (decompress_content_returns gzip_decompress zlib_decompress
                zlib_decompress_raw brotli_decompress (content response)
                (Str.lower (headers_get response "content-encoding" "")))
      as (out & ->).
    eexists; split; [reflexivity|]. split; [by right|reflexivity].
Qed.

End FetchProperties.

Lemma MAX_RESPONSE_SIZE_value : MAX_RESPONSE_SIZE = 52428800.
Proof. reflexivity. Qed.

Lemma oversize_body_length :
  MAX_RESPONSE_SIZE < Z.of_nat (length oversize_body).
Proof.
  unfold oversize_body. rewrite repeat_length, Z2Nat.id; [lia|].
  rewrite MAX_RESPONSE_SIZE_value. lia.
Qed.

Lemma proxy_resource_forwards_oversize_body_witness :
  proxy_resource decoder_rejects decoder_rejects decoder_rejects
    decoder_rejects
    (fun _ _ => Fetched (plain_response oversize_body "http://example.com/big.bin"))
    (fun s => s) ∅
    {| arg_url := Some "http://example.com/big.bin"; arg_session := None |} =
  ResourceBody oversize_body "application/octet-stream".
Proof.
  apply (proxy_resource_forwards_oversize_body decoder_rejects decoder_rejects
           decoder_rejects decoder_rejects
           (fun _ _ => Fetched (plain_response oversize_body
                                  "http://example.com/big.bin"))
           (fun s => s) ∅ "http://example.com/big.bin" None ""
           (plain_response oversize_body "http://example.com/big.bin")
           oversize_body).
  - reflexivity.
  - vm_compute. reflexivity.
  - reflexivity.
  - reflexivity.
  - exact oversize_body_length.
Defined.

Lemma proxy_resource_never_rewrites_witness :
  exists body,
    decompressed_content decoder_rejects decoder_rejects decoder_rejects
      decoder_rejects css_response = Ok body /\
    (body = content css_response \/
     Str.is_empty (Str.lower (headers_get css_response "content-encoding" ""))
       = false) /\
    proxy_resource decoder_rejects decoder_rejects decoder_rejects
      decoder_rejects (fun _ _ => Fetched css_response) (fun s => s) ∅
      {| arg_url := Some "http://example.com/s.css"; arg_session := None |} =
    ResourceBody body
      (headers_get css_response "content-type" "application/octet-stream").
Proof.
  apply (proxy_resource_never_rewrites decoder_rejects decoder_rejects
           decoder_rejects decoder_rejects (fun _ _ => Fetched css_response)
           (fun s => s) ∅ "http://example.com/s.css" None "" css_response).
  - reflexivity.
  - vm_compute. reflexivity.
  - reflexivity.
Defined.

(** C4 (as stated) fails for a style sheet: its [url()] reference comes back
    as it was fetched, not resolved against the final URL. *)
Lemma proxy_resource_leaves_css_unrewritten :
  proxy_resource decoder_rejects decoder_rejects decoder_rejects
    decoder_rejects (fun _ _ => Fetched css_response) (fun s => s) ∅
    {| arg_url := Some "http://example.com/s.css"; arg_session := None |} =
  ResourceBody (encode_latin1 "a{b:url(x.png)}") "text/css" /\
  rewrite_css "http://example.com/s.css" "a{b:url(x.png)}" =
  Ok ("a{b:url(" +:+ dquote +:+ "http://example.com/x.png" +:+ dquote +:+ ")}") /\
  encode_latin1 "a{b:url(x.png)}" <>
  encode_latin1 ("a{b:url(" +:+ dquote +:+ "http://example.com/x.png" +:+
                 dquote +:+ ")}").
Proof.
  split; [vm_compute; reflexivity|].
  split; [vm_compute; reflexivity|].
  vm_compute. discriminate.
Qed.

(** ** The header sanitizer *)

Lemma strip_security_headers_lookup (headers : gmap string string)
    (key : string) :
  strip_security_headers headers !! key =
  if Urllib.in_list (Str.lower key) blocked_headers then None
  else headers !! key.
Proof.
  unfold strip_security_headers.
  apply (map_fold_weak_ind
           (fun cleaned m =>
              cleaned !! key =
              if Urllib.in_list (Str.lower key) blocked_headers then None
              else m !! key)).
  - rewrite lookup_empty. by destruct (Urllib.in_list _ _).
  - intros i x m r Hfresh IH.
    destruct (decide (i = key)) as [->|Hne].
    + destruct (Urllib.in_list (Str.lower key) blocked_headers) eqn:Hb; simpl.
      * exact IH.
      * by rewrite !lookup_insert_eq.
    + destruct (Urllib.in_list (Str.lower i) blocked_headers); simpl.
      * rewrite IH. by rewrite lookup_insert_ne.
      * rewrite !lookup_insert_ne by done. exact IH.
Qed.

(** C5: the sanitized mapping has no key that equals, in lower case, one of
    [x-frame-options], [content-security-policy], its report-only variant,
    [set-cookie], [content-encoding], [transfer-encoding] or
    [content-length]; every entry whose lower-case key is not in the blocked
    list is in it under its own key and with its own value; and it has no
    other entry. *)
Theorem strip_security_headers_sanitizes (headers : gmap string string) :
  (forall key name,
      In name embedding_blockers ->
      Str.lower key = name ->
      strip_security_headers headers !! key = None) /\
  (forall key value,
      headers !! key = Some value ->
      Urllib.in_list (Str.lower key) blocked_headers = false ->
      strip_security_headers headers !! key = Some value) /\
  (forall key value,
      strip_security_headers headers !! key = Some value ->
      headers !! key = Some value).
Proof.
  split; [|split].
  - intros key name Hin Hlow.
    rewrite strip_security_headers_lookup, Hlow.
    simpl in Hin.
    repeat (destruct Hin as [<-|Hin]; [reflexivity|]).
    destruct Hin.
  - intros key value Hk Hb.
    by rewrite strip_security_headers_lookup, Hb.
  - intros key value. rewrite strip_security_headers_lookup.
    by destruct (Urllib.in_list _ _).
Qed.

Lemma strip_security_headers_sanitizes_witness :
  strip_security_headers sample_headers !! "Set-Cookie" = None /\
  strip_security_headers sample_headers !! "X-Frame-Options" = None /\
  strip_security_headers sample_headers !! "Content-Type" = Some "text/html".
Proof.
  destruct (strip_security_headers_sanitizes sample_headers) as (Hgone & Hkept & _).
  split; [|split].
  - apply (Hgone "Set-Cookie" "set-cookie"); [simpl; tauto|reflexivity].
  - apply (Hgone "X-Frame-Options" "x-frame-options"); [simpl; tauto|reflexivity].
  - apply Hkept; reflexivity.
Defined.

(** * Further properties of the service *)

(** ** Audit log *)

Lemma tail_drop {A} (l : list A) (n : nat) : tail (drop n l) = drop (S n) l.
Proof.
  revert n; induction l as [|x l IH]; intros [|n]; simpl; auto.
Qed.

Lemma log_entry_eq (audit_log : list audit_entry) (e : audit_entry) :
  log_entry audit_log e =
  (if 10000 <=? Z.of_nat (length audit_log) then tail audit_log
   else audit_log) ++ [e].
Proof. unfold log_entry, log_audit. by destruct e. Qed.

(** The part of a history that the log holds: its last 10000 entries. *)
Lemma log_entry_keeps_recent (events : list audit_entry) (e : audit_entry) :
  log_entry (drop (Z.to_nat (Z.of_nat (length events) - 10000)) events) e =
  drop (Z.to_nat (Z.of_nat (length (events ++ [e])) - 10000)) (events ++ [e]).
Proof.
  rewrite log_entry_eq, length_drop, List.length_app. simpl.
  destruct (Z.leb_spec 10000
              (Z.of_nat (length events -
                         Z.to_nat (Z.of_nat (length events) - 10000)))) as [Hfull|Hroom].
  - rewrite tail_drop.
    replace (Z.to_nat (Z.of_nat (length events + 1) - 10000))
      with (S (Z.to_nat (Z.of_nat (length events) - 10000))) by lia.
    rewrite drop_app_le by lia. reflexivity.
  - replace (Z.to_nat (Z.of_nat (length events) - 10000)) with O by lia.
    replace (Z.to_nat (Z.of_nat (length events + 1) - 10000)) with O by lia.
    reflexivity.
Qed.

(** X1: after any sequence of [log_audit] calls on the empty log, the log
    holds exactly the last 10000 entries written, oldest first, so it never
    holds more than 10000. *)
Theorem audit_log_is_ring_buffer (events : list audit_entry) :
  fold_left log_entry events [] =
    drop (Z.to_nat (Z.of_nat (length events) - 10000)) events /\
  Z.of_nat (length (fold_left log_entry events [])) <= 10000.
Proof.
  assert (fold_left log_entry events [] =
          drop (Z.to_nat (Z.of_nat (length events) - 10000)) events) as Hrun.
  { induction events as [|e events IH] using rev_ind; [done|].
    rewrite fold_left_app. simpl. rewrite IH. apply log_entry_keeps_recent. }
  split; [exact Hrun|]. rewrite Hrun, length_drop. lia.
Qed.

(** X2: one [log_audit] call on a log within the bound keeps the bound, puts
    the new entry last, and drops at most the oldest entry, keeping all the
    others in their order. *)
Theorem log_audit_step (audit_log : list audit_entry) (now event_type : string)
    (details : gmap string string) (ip_address : string)
    (user_id : option string) :
  Z.of_nat (length audit_log) <= 10000 ->
  let entry := {| entry_timestamp := now; entry_event_type := event_type;
                  entry_ip_address := ip_address; entry_user_id := user_id;
                  entry_details := details |} in
  let audit_log' :=
    log_audit audit_log now event_type details ip_address user_id in
  Z.of_nat (length audit_log') <= 10000 /\
  last audit_log' = Some entry /\
  exists dropped,
    audit_log ++ [entry] = dropped ++ audit_log' /\ (length dropped <= 1)%nat.
Proof.
  intros Hbound entry audit_log'. subst audit_log'. unfold log_audit.
  fold entry.
  destruct (Z.leb_spec 10000 (Z.of_nat (length audit_log))) as [Hfull|Hroom].
  - destruct audit_log as [|oldest rest]; [simpl in Hfull; lia|]. simpl.
    split; [rewrite List.length_app; simpl in *; lia|].
    split; [apply last_snoc|].
    exists [oldest]. split; [reflexivity|simpl; lia].
  - split; [rewrite List.length_app; simpl; lia|].
    split; [apply last_snoc|].
    exists []. split; [reflexivity|simpl; lia].
Qed.

Lemma log_audit_step_witness :
  let entry := {| entry_timestamp := "2025-01-01T00:00:00";
                  entry_event_type := "proxy_request";
                  entry_ip_address := "203.0.113.7";
                  entry_user_id := Some "s1"; entry_details := ∅ |} in
  let audit_log' :=
    log_audit [] "2025-01-01T00:00:00" "proxy_request" ∅ "203.0.113.7"
              (Some "s1") in
  Z.of_nat (length audit_log') <= 10000 /\
  last audit_log' = Some entry /\
  exists dropped,
    [] ++ [entry] = dropped ++ audit_log' /\ (length dropped <= 1)%nat.
Proof.
  apply (log_audit_step [] "2025-01-01T00:00:00" "proxy_request" ∅
           "203.0.113.7" (Some "s1")).
  simpl. lia.
Defined.

(** ** Session cookie jar *)

(** X3: after [set_session_cookies] the session's jar gives, for every
    cookie name, the new value when the update has one and the value it had
    before otherwise: the last write wins, and a first write creates the
    session. *)
Theorem set_session_cookies_lookup (session_cookies : cookie_store)
    (session_token : string) (cookies : gmap string string) (name : string) :
  get_session_cookies
    (set_session_cookies session_cookies session_token cookies)
    session_token !! name =
  match cookies !! name with
  | Some value => Some value
  | None => get_session_cookies session_cookies session_token !! name
  end.
Proof.
  unfold set_session_cookies, get_session_cookies, cookie_store in *.
  rewrite lookup_insert_eq. simpl.
  rewrite lookup_union. by destruct (cookies !! name), (_ !! name).
Qed.

(** X4: [set_session_cookies] leaves every other session's cookies as they
    were. *)
Theorem set_session_cookies_other_session (session_cookies : cookie_store)
    (session_token other : string) (cookies : gmap string string) :
  other <> session_token ->
  get_session_cookies
    (set_session_cookies session_cookies session_token cookies) other =
  get_session_cookies session_cookies other.
Proof.
  intros Hne.
  unfold set_session_cookies, get_session_cookies, cookie_store in *.
  by rewrite lookup_insert_ne.
Qed.

Lemma set_session_cookies_other_session_witness :
  get_session_cookies
    (set_session_cookies ∅ "alice" {[ "sid" := "1" ]}) "bob" =
  get_session_cookies ∅ "bob".
Proof.
  apply (set_session_cookies_other_session ∅ "alice" "bob" {[ "sid" := "1" ]}).
  discriminate.
Defined.

(** X5: two updates of one session with disjoint cookie names give the same
    store in either order. *)
Theorem set_session_cookies_disjoint_commute (session_cookies : cookie_store)
    (session_token : string) (cookies1 cookies2 : gmap string string) :
  cookies1 ##ₘ cookies2 ->
  set_session_cookies
    (set_session_cookies session_cookies session_token cookies1)
    session_token cookies2 =
  set_session_cookies
    (set_session_cookies session_cookies session_token cookies2)
    session_token cookies1.
Proof.
  intros Hdisj.
  unfold set_session_cookies, get_session_cookies, cookie_store in *.
  rewrite !lookup_insert_eq. simpl.
  rewrite !insert_insert_eq. f_equal.
  rewrite !(assoc_L (∪)). f_equal. by apply map_union_comm.
Qed.

Lemma set_session_cookies_disjoint_commute_witness :
  set_session_cookies (set_session_cookies ∅ "alice" {[ "a" := "1" ]})
    "alice" {[ "b" := "2" ]} =
  set_session_cookies (set_session_cookies ∅ "alice" {[ "b" := "2" ]})
    "alice" {[ "a" := "1" ]}.
Proof.
  apply (set_session_cookies_disjoint_commute ∅ "alice"
           {[ "a" := "1" ]} {[ "b" := "2" ]}).
  apply map_disjoint_singleton_l_2. by apply lookup_singleton_ne.
Defined.

(** ** Resource links *)

Lemma quote_char_safe (c : ascii) :
  Str.all_chars (fun d => Quote.always_safe d || Ascii.eqb d "%")
                (Quote.quote_char c) = true.
Proof. destruct c as [[] [] [] [] [] [] [] []]; reflexivity. Qed.

Lemma quote_safe (s : string) :
  Str.all_chars (fun d => Quote.always_safe d || Ascii.eqb d "%")
                (Quote.quote s) = true.
Proof.
  induction s as [|c s IH]; [done|].
  simpl. by rewrite all_chars_app, quote_char_safe, IH.
Qed.

Lemma safe_is_not_ampersand (d : ascii) :
  Quote.always_safe d || Ascii.eqb d "%" = true -> Ascii.eqb d "&" = false.
Proof. destruct d as [[] [] [] [] [] [] [] []]; simpl; done. Qed.

Lemma partition_past_prefix (c : ascii) (a b : string) :
  Str.all_chars (fun d => negb (Ascii.eqb d c)) a = true ->
  Str.partition c (a +:+ String c b) = Some (a, b).
Proof.
  induction a as [|d a IH]; simpl.
  - by rewrite Ascii.eqb_refl.
  - rewrite andb_true_iff, negb_true_iff. intros [-> Ha].
    by rewrite IH.
Qed.

(** X6: in the link made by [get_proxy_url] the quoted URL holds only
    letters, digits, [_.-~] and [%], so the first [&] of the link is the one
    before [session=]: whatever the URL, it cannot add or end a query
    parameter. *)
Theorem get_proxy_url_query_shape (original_url session_token : string) :
  Str.all_chars (fun d => Quote.always_safe d || Ascii.eqb d "%")
                (Quote.quote original_url) = true /\
  Str.partition "&" (get_proxy_url original_url session_token) =
    Some ("/resource?url=" +:+ Quote.quote original_url,
          "session=" +:+ session_token).
Proof.
  split; [apply quote_safe|].
  unfold get_proxy_url.
  rewrite <- (append_assoc "/resource?url=" (Quote.quote original_url)).
  apply (partition_past_prefix "&"
           ("/resource?url=" +:+ Quote.quote original_url)
           ("session=" +:+ session_token)).
  rewrite all_chars_app. apply andb_true_iff. split; [reflexivity|].
  apply (all_chars_impl _ _ _
           (fun c H => proj2 (negb_true_iff _) (safe_is_not_ampersand c H))).
  apply quote_safe.
Qed.

(** ** Token check *)

(** X7: [verify_jwt_token] reads a token with the [Bearer ] prefix exactly
    as it reads the bare token. *)
Theorem verify_jwt_token_bearer_prefix (payload : Type)
    (jwt_decode : string -> exc payload) (token : string) :
  Str.is_empty token = false ->
  Str.startswith token "Bearer " = false ->
  verify_jwt_token payload jwt_decode ("Bearer " +:+ token) =
  verify_jwt_token payload jwt_decode token.
Proof.
  intros Hne Hbare. unfold verify_jwt_token.
  rewrite Hne, Hbare. reflexivity.
Qed.

Lemma verify_jwt_token_bearer_prefix_witness :
  verify_jwt_token nat (fun t => if Str.eqb t "abc" then Ok 7%nat
                                 else Raise (OtherError "Invalid token"))
    ("Bearer " +:+ "abc") =
  verify_jwt_token nat (fun t => if Str.eqb t "abc" then Ok 7%nat
                                 else Raise (OtherError "Invalid token"))
    "abc".
Proof.
  apply (verify_jwt_token_bearer_prefix nat
           (fun t => if Str.eqb t "abc" then Ok 7%nat
                     else Raise (OtherError "Invalid token")) "abc");
    reflexivity.
Defined.

(** ** URL normalizer *)

Lemma urlsplit_scheme_https (x : string) (r : Urllib.ParseResult) :
  Urllib.urlsplit ("https://" +:+ x) "" = Ok r -> Urllib.scheme r = "https".
Proof.
  unfold Urllib.urlsplit. simpl.
  match goal with
  | |- exc_bind ?m _ = _ -> _ => destruct m as [[netloc rest]|e]; simpl; [|done]
  end.
  destruct (Str.partition "#" rest) as [[u f]|];
    [destruct (Str.partition "?" u) as [[u' q]|]
    |destruct (Str.partition "?" rest) as [[u' q]|]];
    simpl; intros [= <-]; reflexivity.
Qed.

Lemma urlparse_scheme_https (x : string) (r : Urllib.ParseResult) :
  Urllib.urlparse ("https://" +:+ x) "" = Ok r -> Urllib.scheme r = "https".
Proof.
  unfold Urllib.urlparse.
  destruct (Urllib.urlsplit _ _) as [r0|e] eqn:Hs; simpl; [|done].
  apply urlsplit_scheme_https in Hs.
  destruct (_ && _); [destruct (Urllib.splitparams _)|];
    intros [= <-]; simpl; exact Hs.
Qed.

Lemma urlunparse_https (netloc path params query fragment : string) :
  exists r,
    Urllib.urlunparse "https" netloc path params query fragment
    = "https://" +:+ r.
Proof.
  unfold Urllib.urlunparse, Urllib.urlunsplit.
  set (url := if negb (Str.is_empty params) then _ else path).
  change (Urllib.in_list "https" Urllib.uses_netloc) with true.
  change (negb (Str.is_empty "https")) with true.
  cbv iota. rewrite andb_true_l.
  assert (exists r, (if negb (Str.is_empty netloc) || negb (Str.startswith url "//")
                     then "//" +:+ netloc +:+
                          (if negb (Str.is_empty url) && negb (Str.startswith url "/")
                           then "/" +:+ url else url)
                     else url) = "//" +:+ r) as [r ->].
  { destruct (negb (Str.is_empty netloc) || negb (Str.startswith url "//")) eqn:Hc.
    - eauto.
    - apply orb_false_iff in Hc as [_ Hc]. apply negb_false_iff in Hc.
      apply startswith_spec in Hc as [t ->]. eauto. }
  destruct (negb (Str.is_empty query)), (negb (Str.is_empty fragment));
    simpl; rewrite ?append_assoc; simpl; eauto.
Qed.

(** X8: whatever the input, a URL returned by [normalize_url] begins with
    [http://] or [https://]. *)
Theorem normalize_url_scheme (url result : string) :
  normalize_url url = Ok result ->
  (exists rest, result = "http://" +:+ rest) \/
  (exists rest, result = "https://" +:+ rest).
Proof.
  unfold normalize_url.
  destruct (Urllib.urlparse _ "") as [parsed|e]; [|done]. cbn [exc_bind].
  destruct (Urllib.port parsed) as [port|e]; [|done]. cbn [exc_bind].
  intros [= <-].
  destruct (negb (Str.eqb (Urllib.scheme parsed) "http")).
  - right. apply urlunparse_https.
  - left. apply urlunparse_http.
Qed.

Lemma normalize_url_scheme_witness :
  (exists rest, "https://www.google.com/" = "http://" +:+ rest) \/
  (exists rest, "https://www.google.com/" = "https://" +:+ rest).
Proof.
  apply (normalize_url_scheme "google.com" "https://www.google.com/").
  vm_compute. reflexivity.
Defined.

(** X9: for every input that, once stripped, does not begin with [http://]
    (no scheme, another scheme, or [https://]), a URL returned by
    [normalize_url] begins with [https://]. *)
Theorem normalize_url_defaults_to_https (url result : string) :
  Str.startswith (Str.strip url) "http://" = false ->
  normalize_url url = Ok result ->
  exists rest, result = "https://" +:+ rest.
Proof.
  intros Hhttp. unfold normalize_url. rewrite Hhttp.
  set (stripped := Str.strip url) in *.
  assert (exists x,
            (if negb (false || Str.startswith stripped "https://")
             then "https://" +:+ stripped else stripped) = "https://" +:+ x)
    as [x ->].
  { destruct (Str.startswith stripped "https://") eqn:Hs; simpl; [|eauto].
    apply startswith_spec in Hs as [t ->]. eauto. }
  destruct (Urllib.urlparse ("https://" +:+ x) "") as [parsed|e] eqn:Hp;
    [|done].
  cbn [exc_bind]. rewrite (urlparse_scheme_https _ _ Hp).
  destruct (Urllib.port parsed) as [port|e]; [|done]. cbn [exc_bind].
  intros [= <-].
  change (negb (Str.eqb "https" "http")) with true. cbv iota.
  apply urlunparse_https.
Qed.

Lemma normalize_url_defaults_to_https_witness :
  exists rest, "https://example.com/a?b=1" = "https://" +:+ rest.
Proof.
  apply (normalize_url_defaults_to_https " example.com/a?b=1 "
           "https://example.com/a?b=1");
    vm_compute; reflexivity.
Defined.

(** ** SSRF guard *)

Lemma validate_url_private_ipv4_blocked (url : string)
    (parsed : Urllib.ParseResult) (ip : Z) :
  Urllib.urlparse url "" = Ok parsed ->
  Ipaddress.parse_v4 (hostname_or_netloc parsed) = Some ip ->
  private_or_local ip ->
  exists reason, validate_url url = (false, reason).
Proof.
  intros Hparse Hv4 Hpriv.
  unfold validate_url, validate_url_body. rewrite Hparse. cbn [exc_bind].
  destruct (negb (Urllib.in_list _ _)); [eauto|].
  rewrite (parse_v4_nonempty _ _ Hv4).
  destruct (find _ BLOCKED_DOMAINS) as [blocked|]; [eauto|].
  destruct (Urllib.in_list _ _); [eauto|].
  rewrite (parse_v4_dotted_quad _ _ Hv4).
  unfold Ipaddress.ip_address. rewrite Hv4.
  rewrite (private_or_local_blocked _ Hpriv). eauto.
Qed.

Lemma in_list_two (s a b : string) :
  Urllib.in_list s [a; b] = true -> s = a \/ s = b.
Proof.
  unfold Urllib.in_list, Str.eqb. simpl.
  rewrite orb_false_r, orb_true_iff, !String.eqb_eq. tauto.
Qed.

Lemma not_in_list_two (s a b : string) :
  Urllib.in_list s [a; b] = false -> s <> a /\ s <> b.
Proof.
  unfold Urllib.in_list, Str.eqb. simpl.
  rewrite orb_false_r, orb_false_iff, !String.eqb_neq. tauto.
Qed.

Lemma find_none_all {A} (p : A -> bool) (l : list A) :
  find p l = None -> forall x, In x l -> p x = false.
Proof.
  induction l as [|y l IH]; simpl; [tauto|].
  destruct (p y) eqn:Hy; [done|]. intros Hnone x [<-|Hin]; auto.
Qed.

(** X10: a URL that [validate_url] accepts parses, has scheme http or
    https and a host that is not empty, does not end in a blocked internal
    suffix, and is not [localhost] or [0.0.0.0]; and when the host is an
    IPv4 literal as [ipaddress] reads it (four decimal octets up to 255,
    none with a leading zero), the address is not a loopback, private,
    link-local or 0.0.0.0/8 one.  Other spellings, [127.0.0.01] among them,
    are not excluded. *)
Theorem validate_url_accepts_only_public (url reason : string) :
  validate_url url = (true, reason) ->
  exists parsed,
    Urllib.urlparse url "" = Ok parsed /\
    (Urllib.scheme parsed = "http" \/ Urllib.scheme parsed = "https") /\
    hostname_or_netloc parsed <> "" /\
    (forall blocked, In blocked BLOCKED_DOMAINS ->
       Str.endswith (Str.lower (hostname_or_netloc parsed)) blocked = false) /\
    Str.lower (hostname_or_netloc parsed) <> "localhost" /\
    Str.lower (hostname_or_netloc parsed) <> "0.0.0.0" /\
    (forall ip, Ipaddress.parse_v4 (hostname_or_netloc parsed) = Some ip ->
       ~ private_or_local ip).
Proof.
  unfold validate_url, validate_url_body.
  destruct (Urllib.urlparse url "") as [parsed|e]; [|done]. cbn [exc_bind].
  set (host := hostname_or_netloc parsed).
  destruct (Urllib.in_list (Urllib.scheme parsed) ["http"; "https"]) eqn:Hscheme;
    [|done]. cbn [negb].
  destruct (Str.is_empty host) eqn:Hempty; [done|].
  destruct (find _ BLOCKED_DOMAINS) as [blocked|] eqn:Hfind; [done|].
  destruct (Urllib.in_list (Str.lower host) ["localhost"; "0.0.0.0"]) eqn:Hlocal;
    [done|].
  intros Haccept. exists parsed.
  split; [reflexivity|]. split; [by apply in_list_two|].
  split; [intros Heq; subst host; by rewrite Heq in Hempty|].
  split; [exact (find_none_all _ _ Hfind)|].
  apply not_in_list_two in Hlocal as [Hl1 Hl2].
  split; [exact Hl1|]. split; [exact Hl2|].
  intros ip Hv4 Hpriv. subst host.
  rewrite (parse_v4_dotted_quad _ _ Hv4) in Haccept.
  unfold Ipaddress.ip_address in Haccept. rewrite Hv4 in Haccept.
  rewrite (private_or_local_blocked _ Hpriv) in Haccept. done.
Qed.

Lemma validate_url_accepts_only_public_witness :
  exists parsed,
    Urllib.urlparse "https://example.com/" "" = Ok parsed /\
    (Urllib.scheme parsed = "http" \/ Urllib.scheme parsed = "https") /\
    hostname_or_netloc parsed <> "" /\
    (forall blocked, In blocked BLOCKED_DOMAINS ->
       Str.endswith (Str.lower (hostname_or_netloc parsed)) blocked = false) /\
    Str.lower (hostname_or_netloc parsed) <> "localhost" /\
    Str.lower (hostname_or_netloc parsed) <> "0.0.0.0" /\
    (forall ip, Ipaddress.parse_v4 (hostname_or_netloc parsed) = Some ip ->
       ~ private_or_local ip).
Proof.
  apply (validate_url_accepts_only_public "https://example.com/" "").
  vm_compute. reflexivity.
Defined.

(** ** Entry points *)

Lemma store_response_cookies_other (session_cookies stored : cookie_store)
    (session_id other : string) (jar : cookie_jar) :
  store_response_cookies session_cookies session_id jar = Ok stored ->
  other <> session_id ->
  get_session_cookies stored other = get_session_cookies session_cookies other.
Proof.
  unfold store_response_cookies. intros Hstore Hother.
  destruct jar as [|cookie jar]; [by injection Hstore as <-|].
  destruct (CookieJar.to_dict _) as [new_cookies|e]; [|done].
  injection Hstore as <-.
  unfold set_session_cookies, get_session_cookies, cookie_store in *.
  by rewrite lookup_insert_ne.
Qed.

Section EntryPointProperties.

Variable gzip_decompress : list byte -> exc (list byte).
Variable zlib_decompress : list byte -> exc (list byte).
Variable zlib_decompress_raw : list byte -> exc (list byte).
Variable brotli_decompress : list byte -> exc (list byte).
Variable http_get : string -> gmap string string -> fetch_outcome.
Variable decode_content : list byte -> gmap string (string * string) -> string.
Variable unquote : string -> string.

Local Abbreviation decompressed :=
  (decompressed_content gzip_decompress zlib_decompress zlib_decompress_raw
                        brotli_decompress).
Local Abbreviation resource :=
  (proxy_resource gzip_decompress zlib_decompress zlib_decompress_raw
                  brotli_decompress http_get unquote).
Local Abbreviation page :=
  (proxy_request gzip_decompress zlib_decompress zlib_decompress_raw
                 brotli_decompress http_get decode_content).

(** X11: a page request whose normalized URL has for host a loopback,
    private, link-local or 0.0.0.0/8 address, written as [ipaddress] reads
    it (four decimal octets up to 255, none with a leading zero), is
    answered 403 with the blocked flag and leaves the cookie jar as it was,
    whatever the network would have answered.  A spelling with a leading
    zero is not covered. *)
Theorem proxy_request_blocks_private_ipv4 (session_cookies : cookie_store)
    (original_url target_url : string) (session : option string)
    (parsed : Urllib.ParseResult) (ip : Z) :
  normalize_url original_url = Ok target_url ->
  Urllib.urlparse target_url "" = Ok parsed ->
  Ipaddress.parse_v4 (hostname_or_netloc parsed) = Some ip ->
  private_or_local ip ->
  exists reason,
    page session_cookies
         (Some {| json_url := Some original_url; json_sessionId := session |})
    = (session_cookies, JsonError 403 reason true).
Proof.
  intros Hnorm Hparse Hv4 Hpriv.
  destruct (validate_url_private_ipv4_blocked _ _ _ Hparse Hv4 Hpriv)
    as [reason Hrej].
  exists reason. unfold proxy_request. by rewrite Hnorm, Hrej.
Qed.

(** X12: a resource request whose URL has for host a loopback, private,
    link-local or 0.0.0.0/8 address, written as [ipaddress] reads it (four
    decimal octets up to 255, none with a leading zero), is answered 403,
    whatever the network would have answered.  A spelling with a leading
    zero is not covered. *)
Theorem proxy_resource_blocks_private_ipv4 (session_cookies : cookie_store)
    (resource_url : string) (session : option string)
    (parsed : Urllib.ParseResult) (ip : Z) :
  Str.is_empty resource_url = false ->
  Urllib.urlparse (unquote resource_url) "" = Ok parsed ->
  Ipaddress.parse_v4 (hostname_or_netloc parsed) = Some ip ->
  private_or_local ip ->
  exists reason,
    resource session_cookies
             {| arg_url := Some resource_url; arg_session := session |}
    = ResourceError 403 reason.
Proof.
  intros Hne Hparse Hv4 Hpriv.
  destruct (validate_url_private_ipv4_blocked _ _ _ Hparse Hv4 Hpriv)
    as [reason Hrej].
  exists reason. unfold proxy_resource. simpl. by rewrite Hne, Hrej.
Qed.

(** X13: a page request changes the cookie jar of no session but its own
    (the [sessionId] of the request, [anonymous] without one). *)
Theorem proxy_request_session_isolation (session_cookies : cookie_store)
    (data : option proxy_json) (other : string) :
  other <> session_of data ->
  get_session_cookies (fst (page session_cookies data)) other =
  get_session_cookies session_cookies other.
Proof.
  intros Hother. unfold proxy_request.
  destruct data as [[[original_url|] sid]|]; [|done|done].
  unfold session_of in Hother. simpl in Hother.
  destruct (normalize_url original_url) as [target_url|e]; [|done].
  destruct (validate_url target_url) as [[] msg]; [|done].
  destruct (http_get target_url _) as [response| | | |]; try done.
  destruct (store_response_cookies _ _ _) as [stored|e] eqn:Hstore; [|done].
  pose proof (store_response_cookies_other _ _ _ _ _ Hstore Hother) as Hjar.
  destruct (decompressed response) as [body|e]; [|exact Hjar].
  destruct (MAX_RESPONSE_SIZE <? _); exact Hjar.
Qed.

(** X14: the headers of a page result hold no blocked header: every key
    whose lower case is in the blocked list is absent from them. *)
Theorem proxy_request_headers_sanitized (session_cookies : cookie_store)
    (data : option proxy_json) (session_cookies' : cookie_store)
    (html_content : string) (statusCode : Z)
    (response_headers : gmap string string) (contentLength : nat)
    (finalUrl contentType key : string) :
  page session_cookies data =
    (session_cookies',
     PageResult html_content statusCode response_headers contentLength
                finalUrl contentType) ->
  Urllib.in_list (Str.lower key) blocked_headers = true ->
  response_headers !! key = None.
Proof.
  unfold proxy_request.
  destruct data as [[[original_url|] sid]|]; [|done|done].
  destruct (normalize_url original_url) as [target_url|e]; [|done].
  destruct (validate_url target_url) as [[] msg]; [|done].
  destruct (http_get target_url _) as [response| | | |]; try done.
  destruct (store_response_cookies _ _ _) as [stored|e]; [|done].
  destruct (decompressed response) as [body|e]; [|done].
  destruct (MAX_RESPONSE_SIZE <? _); [done|].
  intros [= _ _ _ <- _ _ _] Hblocked.
  by rewrite strip_security_headers_lookup, Hblocked.
Qed.

(** X15: a page response whose cookies the jar gives as a [dict] and
    whose body is over [MAX_RESPONSE_SIZE] after decompression is answered
    413 without content; its cookies, when it has any, were merged into
    the session jar before the size was checked. *)
Theorem proxy_request_oversize (session_cookies : cookie_store)
    (original_url target_url reason : string) (session : option string)
    (response : Response) (new_cookies : gmap string string)
    (body : list byte) :
  normalize_url original_url = Ok target_url ->
  validate_url target_url = (true, reason) ->
  http_get target_url
           (get_session_cookies session_cookies (default "anonymous" session))
    = Fetched response ->
  CookieJar.to_dict (cookies response) = Ok new_cookies ->
  decompressed response = Ok body ->
  MAX_RESPONSE_SIZE < Z.of_nat (length body) ->
  page session_cookies
       (Some {| json_url := Some original_url; json_sessionId := session |})
  = (match cookies response with
     | [] => session_cookies
     | _ :: _ =>
         set_session_cookies session_cookies (default "anonymous" session)
           new_cookies
     end,
     JsonError 413 "Response too large. Maximum size is 50.0MB" false).
Proof.
  intros Hnorm Hvalid Hget Hdict Hbody Hsize. unfold proxy_request.
  rewrite Hnorm, Hvalid, Hget, (store_response_cookies_ok _ _ _ _ Hdict), Hbody.
  apply Z.ltb_lt in Hsize. rewrite Hsize. reflexivity.
Qed.

(** X16: the validate-only endpoint and the page fetch agree: the page
    fetch answers 403 blocked with an error exactly when the endpoint
    reports the URL invalid with that error. *)
Theorem validate_endpoint_agrees_with_proxy (session_cookies : cookie_store)
    (data : option proxy_json) (error : string) :
  (exists normalized original,
      validate_url_endpoint data =
        ValidateAnswer false (Some error) normalized original) <->
  snd (page session_cookies data) = JsonError 403 error true.
Proof.
  unfold validate_url_endpoint, proxy_request.
  destruct data as [[[original_url|] sid]|];
    [|split; [by intros (? & ? & ?)|done]..].
  destruct (normalize_url original_url) as [target_url|e];
    [|split; [by intros (? & ? & ?)|done]].
  destruct (validate_url target_url) as [[] msg].
  - split; [by intros (? & ? & ?)|].
    destruct (http_get target_url _) as [response| | | |]; try done.
    destruct (store_response_cookies _ _ _) as [stored|e]; [|done].
    destruct (decompressed response) as [body|e]; [|done].
    by destruct (MAX_RESPONSE_SIZE <? _).
  - split.
    + by intros (? & ? & [= ->]).
    + simpl. intros [= ->]. eauto.
Qed.

(** X22: once a response is fetched, its cookies decide with the jar of
    [requests].  When the jar gives them as a [dict], they are in the
    session's jar over the ones it held, whatever becomes of the response
    afterwards (page, 413 or 500): they are what the next request of the
    session sends.  When the conversion raises (as it does for a cookie
    with an empty value, and for two cookies of one name that both have a
    value), the answer is 500 and the jar is as it was. *)
Theorem proxy_request_keeps_response_cookies (session_cookies : cookie_store)
    (original_url target_url reason : string) (session : option string)
    (response : Response) :
  normalize_url original_url = Ok target_url ->
  validate_url target_url = (true, reason) ->
  http_get target_url
           (get_session_cookies session_cookies (default "anonymous" session))
    = Fetched response ->
  match CookieJar.to_dict (cookies response) with
  | Ok new_cookies =>
      get_session_cookies
        (fst (page session_cookies
                   (Some {| json_url := Some original_url;
                            json_sessionId := session |})))
        (default "anonymous" session)
      = new_cookies ∪
        get_session_cookies session_cookies (default "anonymous" session)
  | Raise _ =>
      page session_cookies
           (Some {| json_url := Some original_url; json_sessionId := session |})
      = (session_cookies, JsonError 500 "An unexpected error occurred" false)
  end.
Proof.
  intros Hnorm Hvalid Hget. unfold proxy_request.
  rewrite Hnorm, Hvalid, Hget.
  destruct (CookieJar.to_dict (cookies response)) as [new_cookies|e] eqn:Hdict.
  - rewrite (store_response_cookies_ok _ _ _ _ Hdict).
    assert (get_session_cookies
              (match cookies response with
               | [] => session_cookies
               | _ :: _ =>
                   set_session_cookies session_cookies
                     (default "anonymous" session) new_cookies
               end) (default "anonymous" session)
            = new_cookies ∪
              get_session_cookies session_cookies
                (default "anonymous" session)) as Hjar.
    { destruct (cookies response) as [|cookie jar].
      - injection Hdict as <-. by rewrite (left_id_L ∅ (∪)).
      - unfold set_session_cookies, get_session_cookies, cookie_store in *.
        by rewrite lookup_insert_eq. }
    destruct (decompressed response) as [body|e]; [|exact Hjar].
    destruct (MAX_RESPONSE_SIZE <? _); exact Hjar.
  - by rewrite (store_response_cookies_raises _ _ _ _ Hdict).
Qed.

End EntryPointProperties.

Lemma proxy_request_blocks_private_ipv4_witness :
  exists reason,
    proxy_request decoder_rejects decoder_rejects decoder_rejects
      decoder_rejects (fun _ _ => Timeout) (fun _ _ => "") ∅
      (Some {| json_url := Some "http://10.0.0.5/"; json_sessionId := None |})
    = (∅, JsonError 403 reason true).
Proof.
  apply (proxy_request_blocks_private_ipv4 decoder_rejects decoder_rejects
           decoder_rejects decoder_rejects (fun _ _ => Timeout)
           (fun _ _ => "") ∅ "http://10.0.0.5/" "http://10.0.0.5/" None
           {| Urllib.scheme := "http"; Urllib.netloc := "10.0.0.5";
              Urllib.path := "/"; Urllib.params := ""; Urllib.query := "";
              Urllib.fragment := "" |} (ipv4 10 0 0 5)).
  - vm_compute. reflexivity.
  - reflexivity.
  - reflexivity.
  - unfold private_or_local, ipv4. lia.
Defined.

Lemma proxy_resource_blocks_private_ipv4_witness :
  exists reason,
    proxy_resource decoder_rejects decoder_rejects decoder_rejects
      decoder_rejects (fun _ _ => Timeout) (fun s => s) ∅
      {| arg_url := Some "http://169.254.169.254/latest/meta-data";
         arg_session := None |}
    = ResourceError 403 reason.
Proof.
  apply (proxy_resource_blocks_private_ipv4 decoder_rejects decoder_rejects
           decoder_rejects decoder_rejects (fun _ _ => Timeout) (fun s => s)
           ∅ "http://169.254.169.254/latest/meta-data" None
           {| Urllib.scheme := "http"; Urllib.netloc := "169.254.169.254";
              Urllib.path := "/latest/meta-data"; Urllib.params := "";
              Urllib.query := ""; Urllib.fragment := "" |}
           (ipv4 169 254 169 254)).
  - reflexivity.
  - reflexivity.
  - reflexivity.
  - unfold private_or_local, ipv4. lia.
Defined.

Lemma proxy_request_session_isolation_witness :
  get_session_cookies
    (fst (proxy_request decoder_rejects decoder_rejects decoder_rejects
            decoder_rejects
            (fun _ _ => Fetched {| content := []; headers := ∅;
                                   status_code := 200;
                                   url := "https://example.com/";
                                   cookies := sid_cookie |})
            (fun _ _ => "") ∅
            (Some {| json_url := Some "example.com";
                     json_sessionId := Some "alice" |})))
    "bob" =
  get_session_cookies ∅ "bob".
Proof.
  apply (proxy_request_session_isolation decoder_rejects decoder_rejects
           decoder_rejects decoder_rejects
           (fun _ _ => Fetched {| content := []; headers := ∅;
                                  status_code := 200;
                                  url := "https://example.com/";
                                  cookies := sid_cookie |})
           (fun _ _ => "") ∅
           (Some {| json_url := Some "example.com";
                    json_sessionId := Some "alice" |}) "bob").
  discriminate.
Defined.

Lemma proxy_request_headers_sanitized_witness :
  (<[ "Content-Type" := "text/plain" ]> ∅ : gmap string string)
    !! "Set-Cookie" = None.
Proof.
  apply (proxy_request_headers_sanitized decoder_rejects decoder_rejects
           decoder_rejects decoder_rejects
           (fun _ _ => Fetched
              {| content := [];
                 headers := {[ "content-type" := ("Content-Type", "text/plain");
                               "set-cookie" := ("Set-Cookie", "sid=1") ]};
                 status_code := 200; url := "https://example.com/";
                 cookies := [] |})
           (fun _ _ => "") ∅
           (Some {| json_url := Some "example.com"; json_sessionId := None |})
           ∅ "" 200 (<[ "Content-Type" := "text/plain" ]> ∅) 0%nat
           "https://example.com/" "text/plain" "Set-Cookie").
  - vm_compute. reflexivity.
  - reflexivity.
Defined.

Lemma proxy_request_oversize_witness :
  proxy_request decoder_rejects decoder_rejects decoder_rejects
    decoder_rejects
    (fun _ _ => Fetched (cookie_response oversize_body sid_cookie))
    (fun _ _ => "") ∅
    (Some {| json_url := Some "example.com"; json_sessionId := None |})
  = (set_session_cookies ∅ "anonymous" {[ "sid" := "1" ]},
     JsonError 413 "Response too large. Maximum size is 50.0MB" false).
Proof.
  exact (proxy_request_oversize decoder_rejects decoder_rejects
           decoder_rejects decoder_rejects
           (fun _ _ => Fetched (cookie_response oversize_body sid_cookie))
           (fun _ _ => "") ∅ "example.com" "https://example.com/" "" None
           (cookie_response oversize_body sid_cookie) {[ "sid" := "1" ]}
           oversize_body
           ltac:(vm_compute; reflexivity) ltac:(vm_compute; reflexivity)
           eq_refl eq_refl eq_refl oversize_body_length).
Defined.

Lemma proxy_request_keeps_response_cookies_witness :
  get_session_cookies
    (fst (proxy_request decoder_rejects decoder_rejects decoder_rejects
            decoder_rejects
            (fun _ _ => Fetched (cookie_response [] sid_cookie))
            (fun _ _ => "") ∅
            (Some {| json_url := Some "example.com";
                     json_sessionId := Some "alice" |})))
    "alice"
  = ({[ "sid" := "1" ]} : gmap string string) ∪ get_session_cookies ∅ "alice" /\
  proxy_request decoder_rejects decoder_rejects decoder_rejects
    decoder_rejects
    (fun _ _ => Fetched (cookie_response [] empty_cookie))
    (fun _ _ => "") ∅
    (Some {| json_url := Some "example.com"; json_sessionId := Some "alice" |})
  = (∅, JsonError 500 "An unexpected error occurred" false).
Proof.
  split.
  - exact (proxy_request_keeps_response_cookies decoder_rejects
             decoder_rejects decoder_rejects decoder_rejects
             (fun _ _ => Fetched (cookie_response [] sid_cookie))
             (fun _ _ => "") ∅ "example.com" "https://example.com/" ""
             (Some "alice") (cookie_response [] sid_cookie)
             ltac:(vm_compute; reflexivity) ltac:(vm_compute; reflexivity)
             eq_refl).
  - exact (proxy_request_keeps_response_cookies decoder_rejects
             decoder_rejects decoder_rejects decoder_rejects
             (fun _ _ => Fetched (cookie_response [] empty_cookie))
             (fun _ _ => "") ∅ "example.com" "https://example.com/" ""
             (Some "alice") (cookie_response [] empty_cookie)
             ltac:(vm_compute; reflexivity) ltac:(vm_compute; reflexivity)
             eq_refl).
Defined.

(** ** More on the rewriter *)

Lemma match_literal_ci_none (lit s : string) :
  Str.startswith (Str.lower s) lit = false -> Re.match_literal_ci lit s = None.
Proof.
  revert s; induction lit as [|a lit IH]; intros s; simpl; [done|].
  destruct s as [|b s]; [done|]. simpl.
  destruct (Ascii.eqb a (Str.lower_char b)); simpl; [apply IH|done].
Qed.

Lemma not_contains_middle (a g b sub : string) :
  Str.contains (a +:+ g +:+ b) sub = false -> Str.contains g sub = false.
Proof.
  intros H. destruct (Str.contains g sub) eqn:Hg; [|done].
  rewrite <- H. symmetry. apply contains_app_r. by apply contains_app_l.
Qed.

Lemma not_contains_suffix (pre t sub : string) :
  Str.contains (pre +:+ t) sub = false -> Str.startswith t sub = false.
Proof.
  induction pre as [|c pre IH]; simpl.
  - destruct t; simpl; intros H; by apply orb_false_iff in H as [? _].
  - intros H. apply orb_false_iff in H as [_ H]. auto.
Qed.

Lemma drop_after_prefix (c : ascii) (r g rest : string) :
  String c r = g +:+ rest -> g <> "" ->
  Str.drop (String.length g - 1) r = rest.
Proof.
  intros Hs Hg. destruct g as [|d g]; [done|].
  simpl in Hs. injection Hs as _ ->.
  simpl. rewrite Nat.sub_0_r. apply drop_app.
Qed.

(** [re.sub] gives the text back when the replacement of every match it
    meets is the match itself. *)
Lemma sub_from_identity (p : Re.pattern) (repl : Re.match_object -> exc string)
    (n : nat) (s : string) :
  (String.length s <= n)%nat ->
  (forall pre t m, s = pre +:+ t -> p t = Some m ->
     repl m = Ok (Re.group0 m) /\ Re.group0 m <> "" /\
     exists rest, t = Re.group0 m +:+ rest) ->
  Re.sub_from p repl O s = Ok s.
Proof.
  revert s; induction n as [|n IH]; intros s Hlen Hm.
  { destruct s; [done|simpl in Hlen; lia]. }
  destruct s as [|c r]; [done|]. simpl in Hlen. cbn [Re.sub_from].
  destruct (p (String c r)) as [m|] eqn:Hp.
  - destruct (Hm "" _ m eq_refl Hp) as (-> & Hne & rest & Hs).
    cbn [exc_bind]. rewrite sub_from_skip, (drop_after_prefix _ _ _ _ Hs Hne).
    rewrite IH.
    + cbn [exc_bind]. by rewrite <- Hs.
    + apply (f_equal String.length) in Hs. rewrite length_app in Hs.
      destruct (Re.group0 m); [done|]. simpl in Hs. lia.
    + intros pre t m' -> Hp'.
      apply (Hm (Re.group0 m +:+ pre) t m'); [|done].
      rewrite Hs. by rewrite append_assoc.
  - rewrite IH; [done|lia|].
    intros pre t m' -> Hp'. by apply (Hm (String c pre) t m').
Qed.

Lemma take_prefix (s a b : string) (n : nat) :
  s = a +:+ b -> n = String.length a -> Str.take n s = a.
Proof. intros -> ->. apply take_app. Qed.

(** The parts of a match of the attribute pattern. *)
Lemma src_href_re_match (s : string) (m : Re.match_object) :
  Re.src_href_re s = Some m ->
  exists name q q' rest,
    Re.is_quote q = true /\
    Re.group1 m = name +:+ String q "" /\
    Re.group3 m = String q' "" /\
    Re.group0 m = Re.group1 m +:+ Re.group2 m +:+ Re.group3 m /\
    Re.group2 m <> "" /\
    s = Re.group0 m +:+ rest.
Proof.
  unfold Re.src_href_re.
  set (lit := match Re.match_literal_ci "src" s with
              | Some r => Some r
              | None => Re.match_literal_ci "href" s
              end).
  assert (forall rest0, lit = Some rest0 -> exists pre, s = pre +:+ rest0)
    as Hlit.
  { subst lit. intros rest0.
    destruct (Re.match_literal_ci "src" s) as [r|] eqn:Hsrc.
    - intros [= ->].
      destruct (match_literal_ci_split _ _ _ Hsrc) as (pre & -> & _). eauto.
    - intros Hhref.
      destruct (match_literal_ci_split _ _ _ Hhref) as (pre & -> & _). eauto. }
  match goal with |- _ -> ?C => set (parts := C) end.
  destruct lit as [rest0|]; [|done]. simpl.
  destruct (Hlit rest0 eq_refl) as [pre Hs]. clear Hlit.
  destruct (Re.span Str.is_space rest0) as [sp1 rest1] eqn:Hsp1.
  apply span_split in Hsp1.
  destruct rest1 as [|e rest2]; [done|].
  destruct (Ascii.eqb e "=") eqn:He;
    [apply Ascii.eqb_eq in He as ->
    |destruct e as [[] [] [] [] [] [] [] []]; done].
  destruct (Re.span Str.is_space rest2) as [sp2 rest3] eqn:Hsp2.
  apply span_split in Hsp2.
  destruct rest3 as [|q rest4]; [done|].
  destruct (Re.is_quote q) eqn:Hq; [|done].
  destruct (Re.span _ rest4) as [url after] eqn:Hurl.
  apply span_split in Hurl.
  destruct url as [|u url]; [done|].
  destruct after as [|q' after']; [done|].
  intros [= Hm]. subst parts m.
  cbn [Re.group0 Re.group1 Re.group2 Re.group3].
  set (name := pre +:+ sp1 +:+ "=" +:+ sp2).
  assert (s = (name +:+ String q "") +:+ rest4) as Hs4.
  { subst name. rewrite Hs, Hsp1, Hsp2, !append_assoc. reflexivity. }
  assert (Str.take (String.length s - String.length rest4) s
          = name +:+ String q "") as Hg1.
  { apply (take_prefix _ _ _ _ Hs4).
    rewrite Hs4, length_app. lia. }
  assert (Str.take (String.length s - String.length rest4 +
                    String.length (String u url) + 1) s
          = (name +:+ String q "") +:+ String u url +:+ String q' ""
          /\ s = ((name +:+ String q "") +:+ String u url +:+ String q' "")
                 +:+ after') as [Hg0 Hs0].
  { assert (s = ((name +:+ String q "") +:+ String u url +:+ String q' "")
                +:+ after') as Hs0.
    { rewrite Hs4, Hurl, !append_assoc. reflexivity. }
    split; [|exact Hs0].
    apply (take_prefix _ _ _ _ Hs0).
    rewrite Hs4, !length_app. simpl. lia. }
  exists name, q, q', after'.
  change (String.length (String u url)) with (S (String.length url)) in Hg0.
  rewrite Hg1, Hg0. repeat split; try done.
Qed.

Lemma no_slashes_not_absolute (g : string) :
  Str.contains g "//" = false ->
  Str.startswith g "http://" || Str.startswith g "https://" ||
  Str.startswith g "//" = false.
Proof.
  intros Hno.
  destruct (Str.startswith g "http://") eqn:H1.
  { apply startswith_spec in H1 as [t ->]. by rewrite <- Hno. }
  destruct (Str.startswith g "https://") eqn:H2.
  { apply startswith_spec in H2 as [t ->]. by rewrite <- Hno. }
  destruct (Str.startswith g "//") eqn:H3; [|done].
  apply startswith_spec in H3 as [t ->]. by rewrite <- Hno.
Qed.

(** The attribute step leaves a page without [//] as it is. *)
Lemma rewrite_attributes_relative (base_url html : string) :
  Str.contains html "//" = false ->
  rewrite_attributes base_url html = Ok html.
Proof.
  intros Hno. unfold rewrite_attributes, Re.sub.
  apply (sub_from_identity _ _ (String.length html)); [lia|].
  intros pre t m -> Hm.
  destruct (src_href_re_match _ _ Hm)
    as (name & q & q' & rest & Hq & Hg1 & Hg3 & Hg0 & Hne & Ht).
  split; [|split; [|eauto]].
  - unfold rewrite_absolute_url.
    rewrite no_slashes_not_absolute; [done|].
    apply (not_contains_middle (pre +:+ Re.group1 m) _
             (Re.group3 m +:+ rest)).
    replace ((pre +:+ Re.group1 m) +:+ Re.group2 m +:+ Re.group3 m +:+ rest)
      with (pre +:+ t); [exact Hno|].
    rewrite Ht, Hg0, !append_assoc. reflexivity.
  - rewrite Hg0, Hg1. by destruct name.
Qed.

(** The CSS step leaves a page without [url(] as it is. *)
Lemma rewrite_css_no_url (base_url html : string) :
  Str.contains (Str.lower html) "url(" = false ->
  rewrite_css base_url html = Ok html.
Proof.
  intros Hno. unfold rewrite_css, Re.sub.
  apply (sub_from_identity _ _ (String.length html)); [lia|].
  intros pre t m -> Hm. exfalso.
  rewrite lower_app in Hno. apply not_contains_suffix in Hno.
  unfold Re.css_url_re in Hm.
  by rewrite (match_literal_ci_none _ _ Hno) in Hm.
Qed.

(** X17: a page that holds no [<head>], no [<html>] and no [url(] (in any
    case) and no [//] is returned as it is, whatever the final URL and the
    session: nothing is injected, no attribute holds a URL the rewriter
    takes for absolute, and no CSS reference is found. *)
Theorem rewrite_leaves_plain_page (html base_url session_token : string) :
  Str.contains (Str.lower html) "<head>" = false ->
  Str.contains (Str.lower html) "<html>" = false ->
  Str.contains (Str.lower html) "url(" = false ->
  Str.contains html "//" = false ->
  rewrite_html_content html base_url session_token = html.
Proof.
  intros Hhead Hhtml Hcss Hlinks. unfold rewrite_html_content.
  destruct (Urllib.urlparse base_url "") as [parsed|e]; [|done].
  cbn [run_steps]. unfold inject_bridge at 1. rewrite Hhead, Hhtml.
  unfold inject_base at 1. rewrite Hhead. cbn [andb].
  rewrite (rewrite_attributes_relative _ _ Hlinks).
  by rewrite rewrite_css_no_url.
Qed.

Lemma rewrite_leaves_plain_page_witness :
  rewrite_html_content "<p>See <a href='/about'>about</a></p>"
    "https://example.com/" "s" =
  "<p>See <a href='/about'>about</a></p>".
Proof.
  apply (rewrite_leaves_plain_page "<p>See <a href='/about'>about</a></p>"
           "https://example.com/" "s"); reflexivity.
Defined.

(** X18: what [rewrite_absolute_url] returns for a match of the attribute
    pattern whose URL begins with [http://], [https://] or [//]: group 1 of
    the match, which ends with the [=] and the opening quote of the
    attribute, then a second [=], a double quote, the joined URL and a
    double quote.  The opening quote stays in the page, before the added
    [=] and quoted URL. *)
Theorem rewritten_attribute_keeps_opening_quote (base_url text : string)
    (m : Re.match_object) (out : string) :
  Re.src_href_re text = Some m ->
  Str.startswith (Re.group2 m) "http://" ||
  Str.startswith (Re.group2 m) "https://" ||
  Str.startswith (Re.group2 m) "//" = true ->
  rewrite_absolute_url base_url m = Ok out ->
  exists name q absolute_url,
    Re.is_quote q = true /\
    Urllib.urljoin base_url (Re.group2 m) = Ok absolute_url /\
    out = name +:+ String q "" +:+ "=" +:+ dquote +:+ absolute_url +:+ dquote.
Proof.
  intros Hm Habs. unfold rewrite_absolute_url. rewrite Habs.
  destruct (src_href_re_match _ _ Hm)
    as (name & q & q' & rest & Hq & Hg1 & _).
  destruct (Urllib.urljoin base_url (Re.group2 m)) as [absolute_url|e];
    [|done].
  cbn [exc_bind]. intros [= <-].
  exists name, q, absolute_url. rewrite Hg1, !append_assoc. done.
Qed.

Lemma rewritten_attribute_keeps_opening_quote_witness :
  exists name q absolute_url,
    Re.is_quote q = true /\
    Urllib.urljoin "https://example.com/"
      (Re.group2 {| Re.group0 := "src='//cdn.example.com/a.js'";
                    Re.group1 := "src='";
                    Re.group2 := "//cdn.example.com/a.js";
                    Re.group3 := "'" |}) = Ok absolute_url /\
    "src='=" +:+ dquote +:+ "https://cdn.example.com/a.js" +:+ dquote
    = name +:+ String q "" +:+ "=" +:+ dquote +:+ absolute_url +:+ dquote.
Proof.
  apply (rewritten_attribute_keeps_opening_quote "https://example.com/"
           "src='//cdn.example.com/a.js'></script>"
           {| Re.group0 := "src='//cdn.example.com/a.js'";
              Re.group1 := "src='";
              Re.group2 := "//cdn.example.com/a.js";
              Re.group3 := "'" |}
           ("src='=" +:+ dquote +:+ "https://cdn.example.com/a.js" +:+ dquote));
    vm_compute; reflexivity.
Defined.

(** ** The injected fragments *)

(** X19: on a page that holds [<head>] or [<html>] (in any case), the
    bridge step returns a page that holds the bridge script. *)
Theorem inject_bridge_puts_script (html : string) :
  Str.contains (Str.lower html) "<head>" = true \/
  Str.contains (Str.lower html) "<html>" = true ->
  exists pre post,
    inject_bridge html = Ok (pre +:+ postmessage_script +:+ post).
Proof.
  intros Hin. unfold inject_bridge.
  destruct (Str.contains (Str.lower html) "<head>") eqn:Hhead.
  - destruct head_template_expands as (items & Hparse & Hexp).
    unfold Re.sub_template. rewrite Hparse. cbn [exc_bind]. unfold Re.sub.
    rewrite (sub_from_ext _ _ (fun m => Ok (Re.group1 m +:+ postmessage_script)))
      by (intros m; by rewrite Hexp).
    destruct (sub_open_tag_puts "<head" postmessage_script html Hhead)
      as (pre & rest & post & _ & Hout & _).
    unfold Re.sub in Hout. rewrite Hout. eauto.
  - destruct Hin as [Hin|Hhtml]; [done|]. rewrite Hhtml.
    destruct html_template_expands as (items & Hparse & Hexp).
    unfold Re.sub_template. rewrite Hparse. cbn [exc_bind]. unfold Re.sub.
    rewrite (sub_from_ext _ _
               (fun m => Ok (Re.group1 m +:+
                             ("<head>" +:+ postmessage_script +:+ "</head>"))))
      by (intros m; by rewrite Hexp).
    destruct (sub_open_tag_puts "<html"
                ("<head>" +:+ postmessage_script +:+ "</head>") html Hhtml)
      as (pre & rest & post & _ & Hout & _).
    unfold Re.sub in Hout. rewrite Hout.
    exists (pre +:+ "<head>"), ("</head>" +:+ post).
    by rewrite !append_assoc.
Qed.

Lemma inject_bridge_puts_script_witness :
  exists pre post,
    inject_bridge "<HTML><Head></Head></HTML>"
    = Ok (pre +:+ postmessage_script +:+ post).
Proof.
  apply (inject_bridge_puts_script "<HTML><Head></Head></HTML>").
  left. reflexivity.
Defined.

(** ** Character set detection *)

Lemma header_match_here_starts (s value : string) :
  Charset.header_match_here s = Some value ->
  Str.startswith s "charset=" = true.
Proof.
  unfold Charset.header_match_here.
  by destruct (Str.startswith s "charset=").
Qed.

Lemma search_header_charset_none (s : string) :
  Str.contains s "charset=" = false ->
  Charset.search_header_charset s = None.
Proof.
  induction s as [|c s IH]; intros Hno.
  - reflexivity.
  - cbn [Str.contains] in Hno. apply orb_false_iff in Hno as [Hhere Hrest].
    cbn [Charset.search_header_charset].
    destruct (Charset.header_match_here (String c s)) as [value|] eqn:Hm.
    + apply header_match_here_starts in Hm. by rewrite Hm in Hhere.
    + by apply IH.
Qed.

(** The decoder makes a [<] from a [<] byte only. *)
Lemma decode_ignore_no_lt (n : nat) (l : list Z) :
  (length l <= n)%nat ->
  (forall b, In b l -> b <> 60) ->
  forall c, In c (Utf8.decode_ignore l) -> c <> 60.
Proof.
  revert l; induction n as [|n IH]; intros l Hlen Hl.
  { destruct l; [by intros c []|simpl in Hlen; lia]. }
  destruct l as [|ch r]; [by intros c []|]. simpl in Hlen.
  assert (forall r', (length r' <= length r)%nat ->
                     (forall b, In b r' -> In b (ch :: r)) ->
                     forall c, In c (Utf8.decode_ignore r') -> c <> 60) as Hrec.
  { intros r' Hlen' Hsub. apply IH; [lia|]. intros b Hb. apply Hl. auto. }
  assert (ch <> 60) as Hch by (apply Hl; by left).
  cbn [Utf8.decode_ignore]. unfold Utf8.is_continuation.
  repeat match goal with
         | |- forall c, In c [] -> _ => by intros c []
         | |- forall c, In c (Utf8.decode_ignore _) -> _ =>
             apply Hrec; [simpl; lia|simpl; tauto]
         | |- forall c, In c (_ :: Utf8.decode_ignore _) -> _ =>
             let c := fresh "c" in
             let Hc := fresh "Hc" in
             intros c [<-|Hc];
             [lia|revert c Hc; apply Hrec; [simpl; lia|simpl; tauto]]
         | |- context [match ?l with [] => _ | _ :: _ => _ end] =>
             is_var l; destruct l
         | |- context [?a <? ?b] => destruct (Z.ltb_spec a b)
         | |- context [?a <=? ?b] => destruct (Z.leb_spec a b)
         | |- context [?a =? ?b] => destruct (Z.eqb_spec a b)
         | _ => progress cbn [negb andb orb]
         end.
Qed.

Lemma search_meta_charset_no_lt (l : list Z) :
  (forall c, In c l -> c <> 60) -> Charset.search_meta_charset l = None.
Proof.
  induction l as [|c l IH]; intros Hl; [reflexivity|].
  cbn [Charset.search_meta_charset].
  assert (Charset.meta_match_here (c :: l) = None) as ->.
  { unfold Charset.meta_match_here.
    assert (Charset.match_ci "<meta" (c :: l) = None) as ->; [|done].
    cbn [Charset.match_ci].
    change (Str.in_range 97 122 "<") with false. cbv iota.
    change (Str.code "<") with 60.
    destruct (Z.eqb_spec c 60) as [->|_]; [|done].
    exfalso. by apply (Hl 60); [left|]. }
  apply IH. intros c' Hc'. apply Hl. by right.
Qed.

(** X20: when the Content-Type header holds no [charset=] (in any case) and
    the first 2048 bytes of the body hold no [<], the encoding is the one
    [chardet] finds in the first 10000 bytes, and [utf-8] when it finds
    none, gives an empty name or raises. *)
Theorem detect_encoding_without_markup
    (chardet_detect : list byte -> exc (option string))
    (content : list byte) (headers : gmap string (string * string)) :
  Str.contains (Str.lower (content_type_of headers)) "charset=" = false ->
  (forall b, In b (firstn 2048 content) -> Utf8.byte_val b <> 60) ->
  detect_encoding chardet_detect content headers =
    match chardet_detect (firstn (Z.to_nat 10000) content) with
    | Ok (Some encoding) =>
        if Str.is_empty encoding then Charset.of_string "utf-8"
        else Charset.of_string encoding
    | _ => Charset.of_string "utf-8"
    end.
Proof.
  intros Hheader Hbody. unfold detect_encoding.
  fold (content_type_of headers).
  rewrite (search_header_charset_none _ Hheader).
  rewrite search_meta_charset_no_lt; [done|].
  apply (decode_ignore_no_lt
           (length (map Utf8.byte_val (firstn 2048 content)))); [lia|].
  intros z Hz. apply in_map_iff in Hz as (b & <- & Hb). by apply Hbody.
Qed.

Lemma detect_encoding_without_markup_witness :
  detect_encoding (fun _ => Ok (Some "ascii")) bytes_hello_world
    {[ "content-type" := ("Content-Type", "text/plain") ]}
  = Charset.of_string "ascii".
Proof.
  apply (detect_encoding_without_markup (fun _ => Ok (Some "ascii"))
           bytes_hello_world
           {[ "content-type" := ("Content-Type", "text/plain") ]}).
  - vm_compute. reflexivity.
  - intros b Hb. vm_compute in Hb.
    repeat (destruct Hb as [<-|Hb]; [discriminate|]). destruct Hb.
Defined.

Lemma span_all (p : ascii -> bool) (a b : string) :
  Str.all_chars p a = true ->
  match b with EmptyString => True | String c _ => p c = false end ->
  Re.span p (a +:+ b) = (a, b).
Proof.
  intros Ha Hb. induction a as [|c a IH]; simpl in *.
  - destruct b as [|d b]; [done|]. simpl. by rewrite Hb.
  - apply andb_true_iff in Ha as [-> Ha]. by rewrite (IH Ha).
Qed.

(** The literal [charset=] has no border: it cannot begin in a text that
    does not hold it and end in a copy of itself after that text. *)
Lemma charset_no_straddle (t x : string) :
  t <> "" ->
  Str.startswith t "charset=" = false ->
  Str.startswith (t +:+ "charset=" +:+ x) "charset=" = false.
Proof.
  intros Hne Ht.
  destruct t as [|c1 t]; [done|]. clear Hne.
  do 7 (destruct t as [|? t];
        [simpl; by rewrite ?andb_false_r|]).
  exact Ht.
Qed.

Lemma search_header_charset_leftmost (pre name tail : string) :
  Str.contains pre "charset=" = false ->
  name <> "" ->
  Str.all_chars Charset.header_value_char name = true ->
  match tail with
  | EmptyString => True
  | String c _ => Charset.header_value_char c = false
  end ->
  Charset.search_header_charset (pre +:+ "charset=" +:+ name +:+ tail)
  = Some name.
Proof.
  intros Hpre Hne Hname Htail.
  induction pre as [|c pre IH].
  - change ("" +:+ "charset=" +:+ name +:+ tail)
      with (String "c" ("harset=" +:+ name +:+ tail)).
    cbn [Charset.search_header_charset].
    assert (Charset.header_match_here
              (String "c" ("harset=" +:+ name +:+ tail)) = Some name) as ->;
      [|done].
    unfold Charset.header_match_here.
    change (Str.startswith (String "c" ("harset=" +:+ name +:+ tail))
                           "charset=") with true.
    change (Str.drop 8 (String "c" ("harset=" +:+ name +:+ tail)))
      with (name +:+ tail).
    rewrite (span_all _ _ _ Hname Htail). by destruct name.
  - cbn [Str.contains] in Hpre. apply orb_false_iff in Hpre as [Hhere Hrest].
    change (String c pre +:+ "charset=" +:+ name +:+ tail)
      with (String c (pre +:+ "charset=" +:+ name +:+ tail)).
    cbn [Charset.search_header_charset].
    assert (Charset.header_match_here
              (String c (pre +:+ "charset=" +:+ name +:+ tail)) = None) as ->.
    { unfold Charset.header_match_here.
      change (String c (pre +:+ "charset=" +:+ name +:+ tail))
        with (String c pre +:+ "charset=" +:+ (name +:+ tail)).
      by rewrite (charset_no_straddle (String c pre) _ ltac:(done) Hhere). }
    by apply IH.
Qed.

(** X21: the leftmost [charset=] parameter of the Content-Type header
    decides, whatever the body and whatever [chardet] would say: when the
    lower-cased header is [pre], [charset=], a non-empty value without white
    space or semicolon, and a rest that is empty or begins with one of
    those, [pre] holding no [charset=], the encoding is that value (of the
    lower-cased header) without the quotes around it. *)
Theorem detect_encoding_header_charset
    (chardet_detect : list byte -> exc (option string))
    (content : list byte) (headers : gmap string (string * string))
    (pre name tail : string) :
  Str.lower (content_type_of headers) = pre +:+ "charset=" +:+ name +:+ tail ->
  Str.contains pre "charset=" = false ->
  name <> "" ->
  Str.all_chars Charset.header_value_char name = true ->
  match tail with
  | EmptyString => True
  | String c _ => Charset.header_value_char c = false
  end ->
  detect_encoding chardet_detect content headers =
    Charset.of_string (Str.strip_by Re.is_quote name).
Proof.
  intros Hct Hpre Hne Hname Htail. unfold detect_encoding.
  fold (content_type_of headers). rewrite Hct.
  by rewrite (search_header_charset_leftmost _ _ _ Hpre Hne Hname Htail).
Qed.

Lemma detect_encoding_header_charset_witness :
  detect_encoding (fun _ => Ok (Some "ascii")) bytes_html
    {[ "content-type" :=
         ("Content-Type", "text/html; charset='ISO-8859-1'; boundary=x") ]}
  = Charset.of_string "iso-8859-1".
Proof.
  apply (detect_encoding_header_charset (fun _ => Ok (Some "ascii"))
           bytes_html
           {[ "content-type" :=
                ("Content-Type",
                 "text/html; charset='ISO-8859-1'; boundary=x") ]}
           "text/html; " "'iso-8859-1'" "; boundary=x").
  - vm_compute. reflexivity.
  - reflexivity.
  - discriminate.
  - reflexivity.
  - reflexivity.
Defined.
